(** * jfrog-cli-artifactory: evidence subject resolution, key lookup and
      release-bundle path builders

    A shallow embedding of the Go functions of

    - [lifecycle/commands/common.go] (release-bundle repository keys,
      manifest paths, aggregated distribution rules),
    - [evidence/create/create_release_bundle.go] (manifest path),
    - [evidence/cryptox/readkey.go] (reading one half of a key pair),
    - the [cli] package of the evidence commands (validation of the
      create-evidence context, subject resolution, server details),
    - the [repository] package (creating and updating repositories from
      a template),

    with the two path builders also kept as Go code under an interpreter,
    followed by the properties the specification states about them and
    by further properties of the code. *)

From Stdlib Require Import String Ascii List Bool Arith Lia DecimalString.
From stdpp Require Import base option list strings gmap.


(** ** The parts of Go's runtime and standard library the code uses *)

Module Go.

(** Go's [error] interface value: [None] is [nil], [Some msg] an error
    whose [Error()] text is [msg]. *)
Definition error : Type := option string.

Definition nil : error := None.

(** [errors.New]. *)
Definition errors_New (msg : string) : error := Some msg.

(** [err != nil]. *)
Definition is_err (e : error) : bool :=
  match e with Some _ => true | None => false end.

(** A call either returns or panics (nil-pointer dereference). *)
Inductive outcome (A : Type) : Type :=
  | Returns (a : A)
  | Panics.
Arguments Returns {A} a.
Arguments Panics {A}.

(** [strings.Join]. *)
Fixpoint Join (elems : list string) (sep : string) : string :=
  match elems with
  | [] => ""
  | [e] => e
  | e :: rest => e +:+ sep +:+ Join rest sep
  end.

(** [strings.HasSuffix]. *)
Definition HasSuffix (s suffix : string) : bool :=
  (String.length suffix <=? String.length s)%nat &&
  String.eqb
    (substring (String.length s - String.length suffix)
               (String.length suffix) s)
    suffix.

(** What [fmt.Sprintf] appends for operands left over by the format. *)
Definition extra_operands (args : list string) : string :=
  match args with
  | [] => ""
  | _ => "%!(EXTRA " +:+ Join (map (fun a => "string=" +:+ a) args) ", " +:+ ")"
  end.

(** [fmt.Sprintf] on string operands, for the verbs the code uses:
    [%s] takes the next operand (or prints [%!s(MISSING)]), [%%] is a
    percent sign, a percent sign that ends the format prints
    [%!(NOVERB)], every other character is copied. *)
Fixpoint Sprintf (format : string) (args : list string) : string :=
  match format with
  | EmptyString => extra_operands args
  | String "%"%char EmptyString => "%!(NOVERB)" +:+ extra_operands args
  | String "%"%char (String "s"%char rest) =>
      match args with
      | a :: args' => a +:+ Sprintf rest args'
      | [] => "%!s(MISSING)" +:+ Sprintf rest []
      end
  | String "%"%char (String "%"%char rest) => String "%"%char (Sprintf rest args)
  | String c rest => String c (Sprintf rest args)
  end.

End Go.
Import Go.

(** ** The distribution rules of the client libraries

    [spec.DistributionRules] (jfrog-cli-core, common/spec) and
    [distribution.DistributionCommonParams] (jfrog-client-go,
    utils/distribution), with the two methods the code calls. *)

Module distribution.

Record DistributionCommonParams := {
  SiteName : string;
  CityName : string;
  CountryCodes : list string
}.

End distribution.

Module spec.

Record DistributionRule := {
  SiteName : string;
  CityName : string;
  CountryCodes : list string
}.

(** The struct's only field is the slice of rules. *)
Record DistributionRules := { Rules : list DistributionRule }.

Definition ToDistributionCommonParams (distributionRule : DistributionRule)
  : distribution.DistributionCommonParams :=
  {| distribution.SiteName := SiteName distributionRule;
     distribution.CityName := CityName distributionRule;
     distribution.CountryCodes := CountryCodes distributionRule |}.

Definition IsEmpty (distributionRule : DistributionRule) : bool :=
  String.eqb (SiteName distributionRule) "" &&
  String.eqb (CityName distributionRule) "" &&
  (length (CountryCodes distributionRule) =? 0)%nat.

End spec.

(** ** [lifecycle/commands/common.go] *)

Module lifecycle.

Definition rbV2manifestName : string := "release-bundle.json.evd".
Definition releaseBundlesV2 : string := "release-bundles-v2".

Definition buildRepoKey (project : string) : string :=
  if String.eqb project "" || String.eqb project "default"
  then releaseBundlesV2
  else Sprintf "%s-%s" [project; releaseBundlesV2].

Definition buildManifestPath (projectKey name version : string) : string :=
  Sprintf "%s/%s/%s/%s"
          [buildRepoKey projectKey; name; version; rbV2manifestName].

(** [If distribution rules are empty, distribute to all edges.]
    The nil pointer is [None].  The [for ... range] loop appends one
    element per rule; reading the rules through a nil pointer panics. *)
Definition isDistributionRulesEmpty
    (distributionRules : option spec.DistributionRules) : bool :=
  match distributionRules with
  | None => true
  | Some dr =>
      (length (spec.Rules dr) =? 0)%nat ||
      ((length (spec.Rules dr) =? 1)%nat &&
       (* index 0 is in range under the length test on its left *)
       from_option spec.IsEmpty false (spec.Rules dr !! 0%nat))
  end.

Definition getAggregatedDistRules
    (distributionRules : option spec.DistributionRules)
  : outcome (list distribution.DistributionCommonParams) :=
  let aggregatedRules : list distribution.DistributionCommonParams := [] in
  if isDistributionRulesEmpty distributionRules then
    Returns (aggregatedRules ++
             [ {| distribution.SiteName := "*";
                  distribution.CityName := "";
                  distribution.CountryCodes := [] |} ])
  else
    match distributionRules with
    | None => Panics
    | Some dr =>
        Returns (fold_left
                   (fun aggregatedRules rules =>
                      aggregatedRules ++ [spec.ToDistributionCommonParams rules])
                   (spec.Rules dr) aggregatedRules)
    end.

End lifecycle.

(** ** The path builders as Go code

    A Gallina function cannot have a side effect, so that the builders
    have none is not something the functions of [lifecycle] above can
    say.  Here the two bodies are kept as syntax, statement by statement,
    and run by an interpreter of the fragment of Go they are written in,
    extended with what an impure function would use: package-level
    variables, which can be read and assigned, and printing.  The state
    of a run is the package-level variables and the lines printed. *)

Module GoCode.

Inductive value :=
  | VString (s : string)
  | VBool (b : bool).

#[warnings="-register-all"] Inductive expr :=
  | Lit (s : string)                              (* a string literal or constant *)
  | Local (name : string)                         (* a parameter *)
  | PackageVar (name : string)                    (* a package-level variable *)
  | Equal (a b : expr)                            (* a == b *)
  | OrElse (a b : expr)                           (* a || b *)
  | FmtSprintf (format : string) (a : list expr)  (* fmt.Sprintf(format, a...) *)
  | CallFunc (f : string) (a : list expr).        (* f(a...) *)

#[warnings="-register-all"] Inductive stmt :=
  | If (cond : expr) (body : list stmt)
  | Return (e : expr)
  | Assign (name : string) (e : expr)             (* to a package-level variable *)
  | Println (e : expr).

Record func := {
  params : list string;
  body : list stmt
}.

Record state := {
  packageVars : gmap string value;
  printed : list string
}.

Definition value_eqb (a b : value) : bool :=
  match a, b with
  | VString s, VString t => String.eqb s t
  | VBool x, VBool y => Bool.eqb x y
  | _, _ => false
  end.

Fixpoint find {A} (table : list (string * A)) (name : string) : option A :=
  match table with
  | [] => None
  | (k, a) :: rest => if String.eqb k name then Some a else find rest name
  end.

(** The operands of [fmt.Sprintf], which the model has for strings. *)
Fixpoint strings_of (values : list value) : option (list string) :=
  match values with
  | [] => Some []
  | VString s :: rest =>
      match strings_of rest with
      | Some l => Some (s :: l)
      | None => None
      end
  | VBool _ :: _ => None
  end.

(** A list of expressions, from left to right. *)
Definition evalList (eval : expr -> state -> outcome (value * state)) :
    list expr -> state -> outcome (list value * state) :=
  fix go (l : list expr) (st : state) :=
    match l with
    | [] => Returns ([], st)
    | e :: rest =>
        match eval e st with
        | Returns (v, st) =>
            match go rest st with
            | Returns (vs, st) => Returns (v :: vs, st)
            | Panics => Panics
            end
        | Panics => Panics
        end
    end.

(** A block: the statements in order, up to the first [return]. *)
Definition execList (exec : stmt -> state -> outcome (option value * state)) :
    list stmt -> state -> outcome (option value * state) :=
  fix go (l : list stmt) (st : state) :=
    match l with
    | [] => Returns (None, st)
    | s :: rest =>
        match exec s st with
        | Returns (Some v, st) => Returns (Some v, st)
        | Returns (None, st) => go rest st
        | Panics => Panics
        end
    end.

Section Semantics.

(** The functions of the package, as they can be called from a body, and
    the parameters of the running function.  What the compiler would
    reject (an unbound name, an operand of the wrong type) does not
    run: it is rendered as [Panics]. *)
Variable call : string -> list value -> state -> outcome (value * state).
Variable locals : list (string * value).

Fixpoint eval (e : expr) (st : state) : outcome (value * state) :=
  match e with
  | Lit s => Returns (VString s, st)
  | Local name =>
      match find locals name with
      | Some v => Returns (v, st)
      | None => Panics
      end
  | PackageVar name =>
      match packageVars st !! name with
      | Some v => Returns (v, st)
      | None => Panics
      end
  | Equal a b =>
      match eval a st with
      | Returns (va, st) =>
          match eval b st with
          | Returns (vb, st) => Returns (VBool (value_eqb va vb), st)
          | Panics => Panics
          end
      | Panics => Panics
      end
  | OrElse a b =>
      match eval a st with
      | Returns (VBool true, st) => Returns (VBool true, st)
      | Returns (VBool false, st) => eval b st
      | _ => Panics
      end
  | FmtSprintf format a =>
      match evalList eval a st with
      | Returns (values, st) =>
          match strings_of values with
          | Some operands => Returns (VString (Sprintf format operands), st)
          | None => Panics
          end
      | Panics => Panics
      end
  | CallFunc f a =>
      match evalList eval a st with
      | Returns (values, st) => call f values st
      | Panics => Panics
      end
  end.

Fixpoint exec (s : stmt) (st : state) : outcome (option value * state) :=
  match s with
  | If cond body =>
      match eval cond st with
      | Returns (VBool true, st) => execList exec body st
      | Returns (VBool false, st) => Returns (None, st)
      | _ => Panics
      end
  | Return e =>
      match eval e st with
      | Returns (v, st) => Returns (Some v, st)
      | Panics => Panics
      end
  | Assign name e =>
      match eval e st with
      | Returns (v, st) =>
          Returns (None, {| packageVars := <[name := v]> (packageVars st);
                            printed := printed st |})
      | Panics => Panics
      end
  | Println e =>
      match eval e st with
      | Returns (VString s, st) =>
          Returns (None, {| packageVars := packageVars st;
                            printed := printed st ++ [s] |})
      | _ => Panics
      end
  end.

End Semantics.

(** A call of a function of the package.  Calls nest at most [fuel]
    deep; beyond that, and for a body that ends without a [return], the
    run is [Panics]. *)
Fixpoint call (package : list (string * func)) (fuel : nat)
    (f : string) (args : list value) (st : state) : outcome (value * state) :=
  match fuel with
  | O => Panics
  | S fuel =>
      match find package f with
      | None => Panics
      | Some fn =>
          if negb (length (params fn) =? length args)%nat then Panics else
          match execList (exec (call package fuel) (zip (params fn) args)) (body fn) st with
          | Returns (Some v, st) => Returns (v, st)
          | _ => Panics
          end
      end
  end.

(** The two functions of [lifecycle/commands/common.go]. *)
Definition buildRepoKey : func := {|
  params := ["project"];
  body :=
    [ If (OrElse (Equal (Local "project") (Lit ""))
                 (Equal (Local "project") (Lit "default")))
         [ Return (Lit lifecycle.releaseBundlesV2) ];
      Return (FmtSprintf "%s-%s" [Local "project"; Lit lifecycle.releaseBundlesV2]) ]
|}.

Definition buildManifestPath : func := {|
  params := ["projectKey"; "name"; "version"];
  body :=
    [ Return (FmtSprintf "%s/%s/%s/%s"
                [ CallFunc "buildRepoKey" [Local "projectKey"];
                  Local "name"; Local "version";
                  Lit lifecycle.rbV2manifestName ]) ]
|}.

Definition package : list (string * func) :=
  [ ("buildRepoKey", buildRepoKey); ("buildManifestPath", buildManifestPath) ].

End GoCode.

(** ** [evidence/create/create_release_bundle.go] *)

Module create.

Definition buildManifestPath (repoKey name version : string) : string :=
  Sprintf "%s/%s/%s/release-bundle.json.evd" [repoKey; name; version].

End create.

(** ** [evidence/cryptox/readkey.go] *)

Module cryptox.

(** The key structures of the package; of their fields the two halves of
    the key pair are the ones [readkey.go] reads. *)
Record KeyVal_t := { Private : string; Public : string; Certificate : string }.

Record SSLibKey := {
  KeyType : string;
  KeyVal : KeyVal_t;
  Scheme : string;
  KeyID : string
}.

Section ReadKey.

(** [LoadKey] parses PEM data; it lives in another file of the package
    and is taken as given.  It returns a pointer and an error. *)
Variable LoadKey : list Byte.byte -> option SSLibKey * error.

Definition ReadKey (fileContent : list Byte.byte)
  : outcome (option SSLibKey * error) :=
  let '(slibKey, err) := LoadKey fileContent in
  if is_err err then Returns (None, err) else
  match slibKey with
  | None => Panics
  | Some k =>
      if negb (String.eqb (Private (KeyVal k)) "")
      then Returns (slibKey, nil)
      else Returns (None, nil)
  end.

Definition ReadPublicKey (fileContent : list Byte.byte)
  : outcome (option SSLibKey * error) :=
  let '(slibKey, err) := LoadKey fileContent in
  if is_err err then Returns (None, err) else
  match slibKey with
  | None => Panics
  | Some k =>
      if negb (String.eqb (Public (KeyVal k)) "")
      then Returns (slibKey, nil)
      else Returns (None, nil)
  end.

End ReadKey.

End cryptox.

(** ** The command context of the plugin framework

    [components.Context] (jfrog-cli-core, plugins/components): the
    positional arguments, the command name, the string and boolean flags
    as Go maps, and the callback that prints the command's help. *)

Module components.

Record Context := {
  Arguments : list string;
  CommandName : string;
  stringFlags : gmap string string;
  boolFlags : gmap string bool;
  PrintCommandHelp : string -> error
}.

(** Reading a Go map at an absent key gives the zero value. *)
Definition GetStringFlagValue (c : Context) (flagName : string) : string :=
  default "" (stringFlags c !! flagName).

Definition AddStringFlag (c : Context) (key value : string) : Context :=
  {| Arguments := Arguments c;
     CommandName := CommandName c;
     stringFlags := <[key := value]> (stringFlags c);
     boolFlags := boolFlags c;
     PrintCommandHelp := PrintCommandHelp c |}.

Definition IsFlagSet (c : Context) (flagName : string) : bool :=
  match stringFlags c !! flagName with
  | Some _ => true
  | None =>
      match boolFlags c !! flagName with
      | Some _ => true
      | None => false
      end
  end.

End components.

(** [config.ServerDetails] (jfrog-cli-core, utils/config): the fields the
    evidence commands read or write. *)

Module coreConfig.

Record ServerDetails := {
  Url : string;
  ArtifactoryUrl : string;
  EvidenceUrl : string;
  MetadataUrl : string;
  User : string;
  Password : string;
  AccessToken : string
}.

Definition GetUser (serverDetails : ServerDetails) : string := User serverDetails.
Definition GetPassword (serverDetails : ServerDetails) : string := Password serverDetails.

End coreConfig.

(** [utils.AddTrailingSlashIfNeeded] (jfrog-client-go, utils). *)

Module clientUtils.

Definition AddTrailingSlashIfNeeded (url : string) : string :=
  if negb (String.eqb url "") && negb (HasSuffix url "/")
  then url +:+ "/"
  else url.

End clientUtils.

(** ** [evidence/create/create_release_bundle.go], the command

    The manifest path builder of the file is [create.buildManifestPath]
    above; the command itself follows. *)

Module createReleaseBundle.

Import create.

(** The command of [create_release_bundle.go].  Its base, embedded by
    value, holds what every create-evidence command is built from. *)
Record createEvidenceBase := {
  serverDetails : option coreConfig.ServerDetails;
  predicateFilePath : string;
  predicateType : string;
  markdownFilePath : string;
  key : string;
  keyId : string
}.

Record createEvidenceReleaseBundle := {
  base : createEvidenceBase;
  project : string;
  releaseBundle : string;
  releaseBundleVersion : string
}.

Definition NewCreateEvidenceReleaseBundle
    (serverDetails : option coreConfig.ServerDetails)
    (predicateFilePath predicateType markdownFilePath key keyId
     project releaseBundle releaseBundleVersion : string)
  : createEvidenceReleaseBundle :=
  {| base := {| serverDetails := serverDetails;
                predicateFilePath := predicateFilePath;
                predicateType := predicateType;
                markdownFilePath := markdownFilePath;
                key := key;
                keyId := keyId |};
     project := project;
     releaseBundle := releaseBundle;
     releaseBundleVersion := releaseBundleVersion |}.

Definition CommandName (c : createEvidenceReleaseBundle) : string :=
  "create-release-bundle-evidence".

Definition ServerDetails (c : createEvidenceReleaseBundle)
  : option coreConfig.ServerDetails * error :=
  (serverDetails (base c), nil).

(** The methods of the base (declared in another file of the package) and
    the repository-key helper of [evidence/utils]; they are taken as
    given.  The client is an interface value. *)
Class Base := {
  ArtifactoryClient : Type;
  createArtifactoryClient : createEvidenceBase -> ArtifactoryClient * error;
  getFileChecksum : createEvidenceBase -> string -> ArtifactoryClient -> string * error;
  createEnvelope : createEvidenceBase -> string -> string -> list Byte.byte * error;
  uploadEvidence : createEvidenceBase -> list Byte.byte -> string -> error;
  BuildReleaseBundleRepoKey : string -> string
}.

(** What a run does outside the command, in the order it happens. *)
Inductive Step :=
  | StepCreateArtifactoryClient
  | StepLogError (a : list string)
  | StepGetFileChecksum (path : string)
  | StepCreateEnvelope (subject sha256 : string)
  | StepUploadEvidence (envelope : list Byte.byte) (subject : string).

Section ReleaseBundle.

Context {methods : Base}.

(** A result together with the steps taken to get it. *)
Definition buildReleaseBundleSubjectPath
    (c : createEvidenceReleaseBundle) (artifactoryClient : ArtifactoryClient)
  : (string * string * error) * list Step :=
  let repoKey := BuildReleaseBundleRepoKey (project c) in
  let manifestPath := buildManifestPath repoKey (releaseBundle c) (releaseBundleVersion c) in
  let '(manifestChecksum, err) := getFileChecksum (base c) manifestPath artifactoryClient in
  if is_err err then (("", "", err), [StepGetFileChecksum manifestPath])
  else ((manifestPath, manifestChecksum, nil), [StepGetFileChecksum manifestPath]).

Definition Run (c : createEvidenceReleaseBundle) : error * list Step :=
  let '(artifactoryClient, err) := createArtifactoryClient (base c) in
  let steps := [StepCreateArtifactoryClient] in
  if is_err err then
    (err, steps ++ [StepLogError ["failed to create Artifactory client"; default "" err]])
  else
  let '((subject, sha256, err), taken) := buildReleaseBundleSubjectPath c artifactoryClient in
  let steps := steps ++ taken in
  if is_err err then (err, steps) else
  let '(envelope, err) := createEnvelope (base c) subject sha256 in
  let steps := steps ++ [StepCreateEnvelope subject sha256] in
  if is_err err then (err, steps) else
  let err := uploadEvidence (base c) envelope subject in
  let steps := steps ++ [StepUploadEvidence envelope subject] in
  if is_err err then (err, steps) else
  (nil, steps).

End ReleaseBundle.

End createReleaseBundle.

(** ** The [cli] package of the evidence commands *)

Module cli.

Import components coreConfig.

(** The flag names of the package (declared in its flags file) and the
    names of the environment variables of [coreutils]; both are taken
    as given. *)
Class Names := {
  predicate : string;
  predicateType : string;
  key : string;
  keyAlias : string;
  subjectRepoPath : string;
  releaseBundle : string;
  buildName : string;
  buildNumber : string;
  packageName : string;
  SigningKey : string;
  KeyAlias : string;
  BuildName : string;
  BuildNumber : string
}.

(** The four command objects [createEvidence] chooses from. *)
Inductive EvidenceCommands :=
  | EvidenceCustomCommand
  | EvidenceReleaseBundleCommand
  | EvidenceBuildCommand
  | EvidencePackageCommand.

(** What the package calls outside itself after validation: the
    resolution of the server configuration (which may prompt and read
    configuration files) and the run of the chosen command (which talks
    to the platform). *)
Class Platform := {
  PlatformDomain : string;
  CreateServerDetailsWithConfigOffer :
    Context -> bool -> string -> option ServerDetails * error;
  CreateEvidence :
    EvidenceCommands -> Context -> option ServerDetails -> error
}.

(** Calls that leave the process or print, in the order they happen. *)
Inductive Call :=
  | CallPrintCommandHelp (commandName : string)
  | CallCreateServerDetails
  | CallCreateEvidence (command : EvidenceCommands).

(** The state the package works on: the context object every function
    receives by pointer, the process environment, and the calls made. *)
Record World := {
  ctx : Context;
  env : gmap string string;
  calls : list Call
}.

(** State passing, with panics. *)
Definition M (A : Type) : Type := World -> outcome (A * World).

Definition ret {A} (a : A) : M A := fun w => Returns (a, w).

Definition bind {A B} (m : M A) (k : A -> M B) : M B :=
  fun w =>
    match m w with
    | Returns (a, w') => k a w'
    | Panics => Panics
    end.

Definition panic {A} : M A := fun _ => Panics.

#[export] Instance M_ret : MRet M := @ret.
#[export] Instance M_bind : MBind M := fun A B k m => bind m k.

Definition getCtx : M Context := fun w => Returns (ctx w, w).

Definition record (c : Call) : M unit :=
  fun w => Returns (tt, {| ctx := ctx w; env := env w; calls := calls w ++ [c] |}).

(** [ctx.AddStringFlag(key, value)]. *)
Definition addStringFlag (key value : string) : M unit :=
  fun w => Returns (tt, {| ctx := AddStringFlag (ctx w) key value;
                           env := env w; calls := calls w |}).

(** [ctx.PrintCommandHelp(name)]. *)
Definition printCommandHelp (name : string) : M error :=
  c ← getCtx;
  _ ← record (CallPrintCommandHelp name);
  ret (PrintCommandHelp c name).

(** [os.LookupEnv] and [os.Getenv]. *)
Definition LookupEnv (name : string) : M (string * bool) :=
  fun w => Returns (match env w !! name with
                    | Some v => (v, true)
                    | None => ("", false)
                    end, w).

Definition Getenv (name : string) : M string :=
  fun w => Returns (default "" (env w !! name), w).

(** [errorutils.CheckErrorf]: an error with the formatted message. *)
Definition CheckErrorf (format : string) (a : list string) : error :=
  errors_New (Sprintf format a).

(** A length in decimal, as the verb [%d] prints it. *)
Definition Itoa (n : nat) : string :=
  DecimalString.NilZero.string_of_uint (Nat.to_uint n).

(** jfrog-cli-core, plugins/common: help is shown when the only
    argument asks for it; the error is the one of the help printer. *)
Definition ShowCmdHelpIfNeeded (args : list string) : M (bool * error) :=
  match args with
  | [a] =>
      if String.eqb a "--help" || String.eqb a "-h" then
        c ← getCtx;
        err ← printCommandHelp (CommandName c);
        ret (true, err)
      else ret (false, nil)
  | _ => ret (false, nil)
  end.

(** jfrog-cli-core, plugins/common: prints the help and returns an
    error that carries the message. *)
Definition PrintHelpAndReturnError (msg : string) : M error :=
  c ← getCtx;
  err ← printCommandHelp (CommandName c);
  match err with
  | Some e => ret (errors_New (msg +:+ ". " +:+ e))
  | None => ret (errors_New msg)
  end.

Definition WrongNumberOfArgumentsHandler : M error :=
  c ← getCtx;
  PrintHelpAndReturnError
    ("Wrong number of arguments (" +:+ Itoa (length (Arguments c)) +:+ ").").

(** Modelled from the spec: [getEnvVariable] is declared in a file of the
    package that is not among the sources.  The spec has the signing key
    and the key alias come from the environment ("--key/env
    JFROG_CLI_SIGNING_KEY", "--key-alias (optional, env-fallback)"): the
    helper returns the variable's value, and the empty string with an
    error when the variable is not set.  Both callers drop the error. *)
Definition getEnvVariable (envVarName : string) : M (string * error) :=
  '(value, exists_) ← LookupEnv envVarName;
  if (exists_ : bool) then ret (value, nil)
  else ret ("", errors_New (Sprintf "'%s'  field wasn't provided." [envVarName])).

Section Commands.

Context {names : Names} {platform : Platform}.

(** Modelled from the spec: the list of subject flags is declared in a
    file of the package that is not among the sources.  The spec names
    "a set of mutually-exclusive subject flags (repo-path,
    release-bundle, build-name, package-name)", the four cases of the
    switch in [createEvidence]. *)
Definition subjectTypes : list string :=
  [subjectRepoPath; releaseBundle; buildName; packageName].

Definition assertValueProvided (c : Context) (fieldName : string) : error :=
  if String.eqb (GetStringFlagValue c fieldName) "" then
    CheckErrorf "the --%s option is mandatory" [fieldName]
  else nil.

Definition ensureKeyExists (key : string) : M error :=
  c ← getCtx;
  if IsFlagSet c key && negb (is_err (assertValueProvided c key)) then
    ret nil
  else
    '(signingKeyValue, _) ← getEnvVariable SigningKey;
    if String.eqb signingKeyValue "" then
      ret (CheckErrorf
             "JFROG_CLI_SIGNING_KEY env variable or --%s flag must be provided when creating evidence"
             [key])
    else
      _ ← addStringFlag key signingKeyValue;
      ret nil.

Definition setKeyAliasIfProvided (keyAlias : string) : M unit :=
  '(evdKeyAliasValue, _) ← getEnvVariable KeyAlias;
  if negb (String.eqb evdKeyAliasValue "") then
    addStringFlag keyAlias evdKeyAliasValue
  else ret tt.

Definition validateCreateEvidenceCommonContext : M error :=
  c ← getCtx;
  '(show, err) ← ShowCmdHelpIfNeeded (Arguments c);
  if (show : bool) || is_err err then ret err else
  if (1 <? length (Arguments c))%nat then WrongNumberOfArgumentsHandler else
  if negb (IsFlagSet c predicate) || is_err (assertValueProvided c predicate) then
    ret (CheckErrorf
           "'predicate' is a mandatory field for creating evidence: --%s"
           [predicate])
  else
  if negb (IsFlagSet c predicateType) || is_err (assertValueProvided c predicateType) then
    ret (CheckErrorf
           "'predicate-type' is a mandatory field for creating evidence: --%s"
           [predicateType])
  else
  err ← ensureKeyExists key;
  if is_err err then ret err else
  c ← getCtx;
  _ ← (if negb (IsFlagSet c keyAlias) then setKeyAliasIfProvided keyAlias
       else ret tt);
  ret nil.

Definition setBuildValue (flag envVar : string) : M bool :=
  c ← getCtx;
  if IsFlagSet c flag then ret true else
  currentValue ← Getenv envVar;
  if negb (String.eqb currentValue "") then
    _ ← addStringFlag flag currentValue;
    ret true
  else ret false.

(** Both values are looked up before the conjunction is taken. *)
Definition attemptSetBuildNameAndNumber : M bool :=
  buildNameAdded ← setBuildValue buildName BuildName;
  buildNumberAdded ← setBuildValue buildNumber BuildNumber;
  ret (buildNameAdded && buildNumberAdded).

Definition validateFoundSubjects (foundSubjects : list string) : error :=
  if (1 <? length foundSubjects)%nat then
    CheckErrorf "multiple subjects found: [%s]" [Join foundSubjects ", "]
  else nil.

Definition getAndValidateSubject : M (string * error) :=
  c ← getCtx;
  let foundSubjects :=
    fold_left
      (fun foundSubjects key =>
         if negb (String.eqb (GetStringFlagValue c key) "")
         then foundSubjects ++ [key]
         else foundSubjects)
      subjectTypes [] in
  let validated (foundSubjects : list string) : M (string * error) :=
    let err := validateFoundSubjects foundSubjects in
    if is_err err then ret ("", err) else
    match foundSubjects with
    | first :: _ => ret (first, nil)
    | [] => panic
    end in
  if (length foundSubjects =? 0)%nat then
    (* If we have no subject - we will try to create EVD on build *)
    added ← attemptSetBuildNameAndNumber;
    if negb added then
      ret ("", CheckErrorf "subject must be one of the fields: [%s]"
                           [Join subjectTypes ", "])
    else validated (foundSubjects ++ [buildName])
  else validated foundSubjects.

Definition platformToEvidenceUrls (rtDetails : ServerDetails) : ServerDetails :=
  {| Url := Url rtDetails;
     ArtifactoryUrl := clientUtils.AddTrailingSlashIfNeeded (Url rtDetails) +:+ "artifactory/";
     EvidenceUrl := clientUtils.AddTrailingSlashIfNeeded (Url rtDetails) +:+ "evidence/";
     MetadataUrl := clientUtils.AddTrailingSlashIfNeeded (Url rtDetails) +:+ "metadata/";
     User := User rtDetails;
     Password := Password rtDetails;
     AccessToken := AccessToken rtDetails |}.

Definition evidenceDetailsByFlags : M (option ServerDetails * error) :=
  c ← getCtx;
  _ ← record CallCreateServerDetails;
  let '(serverDetails, err) :=
    CreateServerDetailsWithConfigOffer c true PlatformDomain in
  if is_err err then ret (None, err) else
  match serverDetails with
  | None => panic
  | Some serverDetails =>
      if String.eqb (Url serverDetails) "" then
        ret (None, errors_New "platform URL is mandatory for evidence commands")
      else
        let serverDetails := platformToEvidenceUrls serverDetails in
        if negb (String.eqb (GetUser serverDetails) "") &&
           negb (String.eqb (GetPassword serverDetails) "") then
          ret (None, errors_New "evidence service does not support basic authentication")
        else ret (Some serverDetails, nil)
  end.

Definition createEvidence : M error :=
  err ← validateCreateEvidenceCommonContext;
  if is_err err then ret err else
  '(subject, err) ← getAndValidateSubject;
  if is_err err then ret err else
  '(serverDetails, err) ← evidenceDetailsByFlags;
  if is_err err then ret err else
  let run (command : EvidenceCommands) : M error :=
    c ← getCtx;
    _ ← record (CallCreateEvidence command);
    ret (CreateEvidence command c serverDetails) in
  if String.eqb subject subjectRepoPath then run EvidenceCustomCommand
  else if String.eqb subject releaseBundle then run EvidenceReleaseBundleCommand
  else if String.eqb subject buildName then run EvidenceBuildCommand
  else if String.eqb subject packageName then run EvidencePackageCommand
  else ret (errors_New "unsupported subject").

End Commands.

End cli.

(** ** More of Go's standard library: [strings.Split], [strconv.ParseBool] *)

Module GoText.

(** The line feed. *)
Definition LF : string := String (ascii_of_nat 10) EmptyString.

(** [strings.Split] on a separator of one byte: the pieces between the
    separators, of which there is always at least one. *)
Fixpoint Split (s : string) (sep : ascii) : list string :=
  match s with
  | EmptyString => [EmptyString]
  | String c rest =>
      if Ascii.eqb c sep then EmptyString :: Split rest sep
      else match Split rest sep with
           | piece :: pieces => String c piece :: pieces
           | [] => [String c EmptyString]
           end
  end.

(** The literals [strconv.ParseBool] accepts. *)
Definition bool_literal (str : string) : option bool :=
  if String.eqb str "1" || String.eqb str "t" || String.eqb str "T" ||
     String.eqb str "true" || String.eqb str "TRUE" || String.eqb str "True"
  then Some true
  else if String.eqb str "0" || String.eqb str "f" || String.eqb str "F" ||
          String.eqb str "false" || String.eqb str "FALSE" || String.eqb str "False"
  then Some false
  else None.

(** [strconv.ParseBool]; the text of its syntax error quotes the input
    with [strconv.Quote], which is taken as given. *)
Definition ParseBool (Quote : string -> string) (str : string) : bool * error :=
  match bool_literal str with
  | Some b => (b, nil)
  | None =>
      (false, errors_New ("strconv.ParseBool: parsing " +:+ Quote str +:+ ": invalid syntax"))
  end.

(** The verb [%v] on a slice of strings. *)
Definition FormatStrings (l : list string) : string := "[" +:+ Join l " " +:+ "]".

End GoText.

(** ** The content synchronisation of the client library

    [services.ContentSynchronisation] (jfrog-client-go,
    artifactory/services).  Its flags are pointers to booleans: a pointer
    is a location of the store of boolean variables, [None] the nil
    pointer. *)

Module services.

Definition loc : Type := nat.

Record ContentSynchronisationStatistics := { StatisticsEnabled : option loc }.
Record ContentSynchronisationProperties := { PropertiesEnabled : option loc }.
Record ContentSynchronisationSource := { OriginAbsenceDetection : option loc }.

Record ContentSynchronisation := {
  Enabled : option loc;
  Statistics : option ContentSynchronisationStatistics;
  Properties : option ContentSynchronisationProperties;
  Source : option ContentSynchronisationSource
}.

End services.

(** ** The [repository] package: creating and updating repositories from
       a template *)

Module repository.

Import GoText services.

(** The values a configuration holds under its keys (Go's empty
    interface): what the template decoder and the answer writers put
    there.  [VJson] stands for the decoded JSON values of other types. *)
Inductive Value :=
  | VString (s : string)
  | VBool (b : bool)
  | VInt (n : Z)
  | VStrings (l : list string)
  | VContentSynchronisation (cs : ContentSynchronisation)
  | VJson (text : string).

(** The repository classes. *)
Inductive RclassId := Local | Remote | Virtual | Federated.

(** The identifiers of the package types: the constants that key the
    handler tables, which are also the names of the service methods. *)
Inductive PackageTypeId :=
  | Maven
  | Gradle
  | Ivy
  | Sbt
  | Helm
  | Cocoapods
  | Opkg
  | Rpm
  | Nuget
  | Cran
  | Gems
  | Npm
  | Bower
  | Debian
  | Composer
  | Pypi
  | Docker
  | Vagrant
  | Gitlfs
  | Go
  | Yum
  | Conan
  | Conda
  | Chef
  | Puppet
  | Alpine
  | Generic
  | Swift
  | Terraform
  | Cargo
  | P2
  | Vcs.

(** The identifiers of the template keys of [writersMap]. *)
Inductive KeyId :=
  | Key
  | Rclass
  | PackageType
  | MandatoryUrl
  | Url
  | Description
  | Notes
  | IncludePatterns
  | ExcludePatterns
  | RepoLayoutRef
  | ProjectKey
  | HandleReleases
  | HandleSnapshots
  | MaxUniqueSnapshots
  | SuppressPomConsistencyChecks
  | BlackedOut
  | DownloadRedirect
  | PriorityResolution
  | CdnRedirect
  | BlockPushingSchema1
  | DebianTrivialLayout
  | ExternalDependenciesEnabled
  | ExternalDependenciesPatterns
  | ChecksumPolicyType
  | MaxUniqueTags
  | SnapshotVersionBehavior
  | XrayIndex
  | PropertySets
  | ArchiveBrowsingEnabled
  | CalculateYumMetadata
  | YumRootDepth
  | DockerApiVersion
  | EnableFileListsIndexing
  | OptionalIndexCompressionFormats
  | Username
  | Password
  | Proxy
  | RemoteRepoChecksumPolicyType
  | HardFail
  | Offline
  | StoreArtifactsLocally
  | SocketTimeoutMillis
  | LocalAddress
  | RetrievalCachePeriodSecs
  | FailedRetrievalCachePeriodSecs
  | MissedRetrievalCachePeriodSecs
  | UnusedArtifactsCleanupEnabled
  | UnusedArtifactsCleanupPeriodHours
  | AssumedOfflinePeriodSecs
  | FetchJarsEagerly
  | FetchSourcesEagerly
  | ShareConfiguration
  | SynchronizeProperties
  | BlockMismatchingMimeTypes
  | AllowAnyHostAuth
  | EnableCookieManagement
  | BowerRegistryUrl
  | ComposerRegistryUrl
  | PyPIRegistryUrl
  | VcsType
  | VcsGitProvider
  | VcsGitDownloadUrl
  | BypassHeadRequests
  | ClientTlsCertificate
  | FeedContextPath
  | DownloadContextPath
  | V3FeedUrl
  | ContentSynchronisation
  | ListRemoteFolderItems
  | RejectInvalidJars
  | PodsSpecsRepoUrl
  | EnableTokenAuthentication
  | Repositories
  | ArtifactoryRequestsCanRetrieveRemoteArtifacts
  | KeyPair
  | PomRepositoryReferencesCleanupPolicy
  | DefaultDeploymentRepo
  | ForceMavenAuthentication
  | ForceNugetAuthentication
  | ExternalDependenciesRemoteRepo.

(** The accessors of the services manager for the eight repository
    services. *)
Inductive Service :=
  | CreateLocalRepository | UpdateLocalRepository
  | CreateRemoteRepository | UpdateRemoteRepository
  | CreateVirtualRepository | UpdateVirtualRepository
  | CreateFederatedRepository | UpdateFederatedRepository.

(** The constructors of the parameter structures, [NewMavenLocalRepositoryParams]
    being [NewLocalRepositoryParams Maven]. *)
Inductive ParamsConstructor :=
  | NewLocalRepositoryParams (packageType : PackageTypeId)
  | NewRemoteRepositoryParams (packageType : PackageTypeId)
  | NewVirtualRepositoryParams (packageType : PackageTypeId)
  | NewFederatedRepositoryParams (packageType : PackageTypeId).

(** A parameter structure: the constructor's defaults, overwritten by
    decoding a JSON text into it. *)
Record Params := {
  constructed : ParamsConstructor;
  decoded : list Byte.byte
}.

(** [artifactory.ArtifactoryServicesManager], as far as the package uses
    it: the version, the batch call, and the repository services
    ([servicesManager.CreateLocalRepository().Maven(params)] is
    [RepositoryService CreateLocalRepository Maven params]).  It is an
    interface: where the code holds one, [None] is the nil interface, on
    which a method call panics. *)
Record ArtifactoryServicesManager := {
  GetVersion : string * error;
  CreateUpdateRepositoriesInBatch : list Byte.byte -> bool -> error;
  RepositoryService : Service -> PackageTypeId -> Params -> error
}.

(** What leaves the process, in the order it happens. *)
Inductive RepoCall :=
  | CallCreateServiceManager
  | CallGetVersion
  | CallCreateUpdateRepositoriesInBatch (jsonConfig : list Byte.byte) (isUpdate : bool)
  | CallRepositoryService (service : Service) (method : PackageTypeId) (params : Params).

(** The boolean variables whose address was taken.  An answer writer
    works on them and on the map it is given; it has no services manager
    to call. *)
Definition H (A : Type) : Type := list bool -> outcome (A * list bool).

#[export] Instance H_ret : MRet H := fun A a heap => Returns (a, heap).
#[export] Instance H_bind : MBind H :=
  fun A B k m heap =>
    match m heap with
    | Returns (a, heap') => k a heap'
    | Panics => Panics
    end.

(** A new boolean variable. *)
Definition declare (b : bool) : H loc :=
  fun heap => Returns (length heap, heap ++ [b]).

(** An assignment to a boolean variable. *)
Definition assign (l : loc) (b : bool) : H unit :=
  fun heap => Returns (tt, <[l := b]> heap).

(** An element of a slice; out of range it panics. *)
Definition index (l : list string) (i : nat) : H string :=
  match l !! i with
  | Some x => mret x
  | None => fun _ => Panics
  end.

(** [ioutils.AnswerWriter]: writes a value under a key of the map it is
    given by pointer. *)
Definition AnswerWriter : Type :=
  gmap string Value -> string -> string -> H (error * gmap string Value).

(** The state of a command: the boolean variables, and the calls made. *)
Record State := {
  heap : list bool;
  trace : list RepoCall
}.

Definition R (A : Type) : Type := State -> outcome (A * State).

Definition ret {A} (a : A) : R A := fun st => Returns (a, st).

Definition bind {A B} (m : R A) (k : A -> R B) : R B :=
  fun st =>
    match m st with
    | Returns (a, st') => k a st'
    | Panics => Panics
    end.

Definition panic {A} : R A := fun _ => Panics.

#[export] Instance R_ret : MRet R := @ret.
#[export] Instance R_bind : MBind R := fun A B k m => bind m k.

Definition record (c : RepoCall) : R unit :=
  fun st => Returns (tt, {| heap := heap st; trace := trace st ++ [c] |}).

(** A computation on the variables alone, inside a command. *)
Definition onHeap {A} (h : H A) : R A :=
  fun st =>
    match h (heap st) with
    | Returns (a, heap') => Returns (a, {| heap := heap'; trace := trace st |})
    | Panics => Panics
    end.

(** The variables as they are. *)
Definition getHeap : R (list bool) := fun st => Returns (heap st, st).

(** What [ConvertTemplateToMaps] returns in an empty interface: a slice
    of maps, one map, or something of another type. *)
Inductive Configs :=
  | ConfigMaps (maps : list (gmap string Value))
  | ConfigMap (map : gmap string Value)
  | ConfigOther (typeName : string).

Record RepoCommand := {
  serverDetails : option coreConfig.ServerDetails;
  templatePath : string;
  vars : string
}.

Definition Vars (rc : RepoCommand) : string := vars rc.

Definition TemplatePath (rc : RepoCommand) : string := templatePath rc.

(** The names and functions the package takes from elsewhere: the
    template keys, the package types and the repository classes (declared
    in the template file of the package), the helpers of jfrog-cli-core,
    the version comparison of gofrog, and the renderings of [fmt],
    [strconv] and [encoding/json].  The order in which a [range] visits
    the keys of a map is Go's to choose. *)
Class Library := {
  keyName : KeyId -> string;
  packageTypeName : PackageTypeId -> string;
  rclassName : RclassId -> string;
  ConvertTemplateToMaps : RepoCommand -> Configs * error;
  ValidateMapEntry : string -> Value -> list string -> error;
  WriteStringAnswer : AnswerWriter;
  WriteBoolAnswer : AnswerWriter;
  WriteIntAnswer : AnswerWriter;
  WriteStringArrayAnswer : AnswerWriter;
  CreateServiceManager :
    option coreConfig.ServerDetails -> Z -> Z -> bool ->
    option ArtifactoryServicesManager * error;
  AtLeast : string -> string -> bool;
  Quote : string -> string;
  SprintValue : Value -> string;
  FormatMap : gmap string Value -> string;
  FormatVerbS : Value -> string;
  Marshal : gmap string Value -> list bool -> list Byte.byte * error;
  MarshalAll : list (gmap string Value) -> list bool -> list Byte.byte * error;
  Unmarshal : list Byte.byte -> ParamsConstructor -> error;
  rangeOrder : gmap string Value -> list string
}.

(** The constant of the file. *)
Definition environmentsKey : string := "environments".

Inductive Strategy := MultipleRepositoryHandler | SingleRepositoryHandler.

(** A handler of one package type of one repository class. *)
Definition repoHandler : Type :=
  option ArtifactoryServicesManager -> list Byte.byte -> bool -> R error.

Section Package.

Context {library : Library}.

(** [fmt.Sprint] of an interface value: a string prints as it is, the nil
    interface as [<nil>]. *)
Definition Sprint (value : option Value) : string :=
  match value with
  | Some (VString s) => s
  | Some v => SprintValue v
  | None => "<nil>"
  end.

(** The verb [%s] on an interface value. *)
Definition FormatS (value : option Value) : string :=
  match value with
  | Some (VString s) => s
  | Some v => FormatVerbS v
  | None => "%!s(<nil>)"
  end.

(** The body every handler shares: decode the JSON into the parameters of
    the package type, then update or create. *)
Definition handle (newParams : ParamsConstructor)
    (update create : Service * PackageTypeId) : repoHandler :=
  fun servicesManager jsonConfig isUpdate =>
    let err := Unmarshal jsonConfig newParams in
    if is_err err then mret err else
    let params := {| constructed := newParams; decoded := jsonConfig |} in
    let '(service, method) := if isUpdate then update else create in
    match servicesManager with
    | None => panic
    | Some servicesManager =>
        _ ← record (CallRepositoryService service method params);
        mret (RepositoryService servicesManager service method params)
    end.

Definition writeContentSynchronisation : AnswerWriter :=
  fun resultMap key value =>
    let answerArray := Split value ","%char in
    if negb (length answerArray =? 4)%nat then
      mret (errors_New "invalid value for Content Synchronisation", resultMap)
    else
    let cs := {| Enabled := None; Statistics := None; Properties := None; Source := None |} in
    answer ← index answerArray 0;
    let '(parsed, err) := ParseBool Quote answer in
    enabled ← declare parsed;
    if is_err err then mret (err, resultMap) else
    let cs := {| Enabled := Some enabled; Statistics := Statistics cs;
                 Properties := Properties cs; Source := Source cs |} in
    answer ← index answerArray 1;
    let '(parsed, err) := ParseBool Quote answer in
    _ ← assign enabled parsed;
    if is_err err then mret (err, resultMap) else
    let cs := {| Enabled := Enabled cs;
                 Statistics := Some {| StatisticsEnabled := Some enabled |};
                 Properties := Properties cs; Source := Source cs |} in
    answer ← index answerArray 2;
    let '(parsed, err) := ParseBool Quote answer in
    _ ← assign enabled parsed;
    if is_err err then mret (err, resultMap) else
    let cs := {| Enabled := Enabled cs; Statistics := Statistics cs;
                 Properties := Some {| PropertiesEnabled := Some enabled |};
                 Source := Source cs |} in
    answer ← index answerArray 3;
    let '(parsed, err) := ParseBool Quote answer in
    _ ← assign enabled parsed;
    if is_err err then mret (err, resultMap) else
    let cs := {| Enabled := Enabled cs; Statistics := Statistics cs;
                 Properties := Properties cs;
                 Source := Some {| OriginAbsenceDetection := Some enabled |} |} in
    mret (nil, <[key := VContentSynchronisation cs]> resultMap).


(** The writers of the template keys. *)
Definition writersMap : list (string * AnswerWriter) :=
  [
    (keyName Key, WriteStringAnswer);
    (keyName Rclass, WriteStringAnswer);
    (keyName PackageType, WriteStringAnswer);
    (keyName MandatoryUrl, WriteStringAnswer);
    (keyName Url, WriteStringAnswer);
    (keyName Description, WriteStringAnswer);
    (keyName Notes, WriteStringAnswer);
    (keyName IncludePatterns, WriteStringAnswer);
    (keyName ExcludePatterns, WriteStringAnswer);
    (keyName RepoLayoutRef, WriteStringAnswer);
    (keyName ProjectKey, WriteStringAnswer);
    (environmentsKey, WriteStringArrayAnswer);
    (keyName HandleReleases, WriteBoolAnswer);
    (keyName HandleSnapshots, WriteBoolAnswer);
    (keyName MaxUniqueSnapshots, WriteIntAnswer);
    (keyName SuppressPomConsistencyChecks, WriteBoolAnswer);
    (keyName BlackedOut, WriteBoolAnswer);
    (keyName DownloadRedirect, WriteBoolAnswer);
    (keyName PriorityResolution, WriteBoolAnswer);
    (keyName CdnRedirect, WriteBoolAnswer);
    (keyName BlockPushingSchema1, WriteBoolAnswer);
    (keyName DebianTrivialLayout, WriteBoolAnswer);
    (keyName ExternalDependenciesEnabled, WriteBoolAnswer);
    (keyName ExternalDependenciesPatterns, WriteStringArrayAnswer);
    (keyName ChecksumPolicyType, WriteStringAnswer);
    (keyName MaxUniqueTags, WriteIntAnswer);
    (keyName SnapshotVersionBehavior, WriteStringAnswer);
    (keyName XrayIndex, WriteBoolAnswer);
    (keyName PropertySets, WriteStringArrayAnswer);
    (keyName ArchiveBrowsingEnabled, WriteBoolAnswer);
    (keyName CalculateYumMetadata, WriteBoolAnswer);
    (keyName YumRootDepth, WriteIntAnswer);
    (keyName DockerApiVersion, WriteStringAnswer);
    (keyName EnableFileListsIndexing, WriteBoolAnswer);
    (keyName OptionalIndexCompressionFormats, WriteStringArrayAnswer);
    (keyName Username, WriteStringAnswer);
    (keyName Password, WriteStringAnswer);
    (keyName Proxy, WriteStringAnswer);
    (keyName RemoteRepoChecksumPolicyType, WriteStringAnswer);
    (keyName HardFail, WriteBoolAnswer);
    (keyName Offline, WriteBoolAnswer);
    (keyName StoreArtifactsLocally, WriteBoolAnswer);
    (keyName SocketTimeoutMillis, WriteIntAnswer);
    (keyName LocalAddress, WriteStringAnswer);
    (keyName RetrievalCachePeriodSecs, WriteIntAnswer);
    (keyName FailedRetrievalCachePeriodSecs, WriteIntAnswer);
    (keyName MissedRetrievalCachePeriodSecs, WriteIntAnswer);
    (keyName UnusedArtifactsCleanupEnabled, WriteBoolAnswer);
    (keyName UnusedArtifactsCleanupPeriodHours, WriteIntAnswer);
    (keyName AssumedOfflinePeriodSecs, WriteIntAnswer);
    (keyName FetchJarsEagerly, WriteBoolAnswer);
    (keyName FetchSourcesEagerly, WriteBoolAnswer);
    (keyName ShareConfiguration, WriteBoolAnswer);
    (keyName SynchronizeProperties, WriteBoolAnswer);
    (keyName BlockMismatchingMimeTypes, WriteBoolAnswer);
    (keyName AllowAnyHostAuth, WriteBoolAnswer);
    (keyName EnableCookieManagement, WriteBoolAnswer);
    (keyName BowerRegistryUrl, WriteStringAnswer);
    (keyName ComposerRegistryUrl, WriteStringAnswer);
    (keyName PyPIRegistryUrl, WriteStringAnswer);
    (keyName VcsType, WriteStringAnswer);
    (keyName VcsGitProvider, WriteStringAnswer);
    (keyName VcsGitDownloadUrl, WriteStringAnswer);
    (keyName BypassHeadRequests, WriteBoolAnswer);
    (keyName ClientTlsCertificate, WriteStringAnswer);
    (keyName FeedContextPath, WriteStringAnswer);
    (keyName DownloadContextPath, WriteStringAnswer);
    (keyName V3FeedUrl, WriteStringAnswer);
    (keyName ContentSynchronisation, writeContentSynchronisation);
    (keyName ListRemoteFolderItems, WriteBoolAnswer);
    (keyName RejectInvalidJars, WriteBoolAnswer);
    (keyName PodsSpecsRepoUrl, WriteStringAnswer);
    (keyName EnableTokenAuthentication, WriteBoolAnswer);
    (keyName Repositories, WriteStringArrayAnswer);
    (keyName ArtifactoryRequestsCanRetrieveRemoteArtifacts, WriteBoolAnswer);
    (keyName KeyPair, WriteStringAnswer);
    (keyName PomRepositoryReferencesCleanupPolicy, WriteStringAnswer);
    (keyName DefaultDeploymentRepo, WriteStringAnswer);
    (keyName ForceMavenAuthentication, WriteBoolAnswer);
    (keyName ForceNugetAuthentication, WriteBoolAnswer);
    (keyName ExternalDependenciesRemoteRepo, WriteStringAnswer)
  ].

(** The handlers, one per repository class and package type, and the four
    tables that register them under the package types. *)
Definition localMavenHandler : repoHandler :=
  handle (NewLocalRepositoryParams Maven) (UpdateLocalRepository, Maven) (CreateLocalRepository, Maven).
Definition localGradleHandler : repoHandler :=
  handle (NewLocalRepositoryParams Gradle) (UpdateLocalRepository, Gradle) (CreateLocalRepository, Gradle).
Definition localIvyHandles : repoHandler :=
  handle (NewLocalRepositoryParams Ivy) (UpdateLocalRepository, Ivy) (CreateLocalRepository, Ivy).
Definition localSbtHandler : repoHandler :=
  handle (NewLocalRepositoryParams Sbt) (UpdateLocalRepository, Sbt) (CreateLocalRepository, Sbt).
Definition localHelmHandler : repoHandler :=
  handle (NewLocalRepositoryParams Helm) (UpdateLocalRepository, Helm) (CreateLocalRepository, Helm).
Definition localCocoapodsHandler : repoHandler :=
  handle (NewLocalRepositoryParams Cocoapods) (UpdateLocalRepository, Cocoapods) (CreateLocalRepository, Cocoapods).
Definition localOpkgHandler : repoHandler :=
  handle (NewLocalRepositoryParams Opkg) (UpdateLocalRepository, Opkg) (CreateLocalRepository, Opkg).
Definition localRpmHandler : repoHandler :=
  handle (NewLocalRepositoryParams Rpm) (UpdateLocalRepository, Rpm) (CreateLocalRepository, Rpm).
Definition localNugetHandler : repoHandler :=
  handle (NewLocalRepositoryParams Nuget) (UpdateLocalRepository, Nuget) (CreateLocalRepository, Nuget).
Definition localCranHandler : repoHandler :=
  handle (NewLocalRepositoryParams Cran) (UpdateLocalRepository, Cran) (CreateLocalRepository, Cran).
Definition localGemsHandler : repoHandler :=
  handle (NewLocalRepositoryParams Gems) (UpdateLocalRepository, Gems) (CreateLocalRepository, Gems).
Definition localNpmHandler : repoHandler :=
  handle (NewLocalRepositoryParams Npm) (UpdateLocalRepository, Npm) (CreateLocalRepository, Npm).
Definition localBowerHandler : repoHandler :=
  handle (NewLocalRepositoryParams Bower) (UpdateLocalRepository, Bower) (CreateLocalRepository, Bower).
Definition localDebianHandler : repoHandler :=
  handle (NewLocalRepositoryParams Debian) (UpdateLocalRepository, Debian) (CreateLocalRepository, Debian).
Definition localComposerHandler : repoHandler :=
  handle (NewLocalRepositoryParams Composer) (UpdateLocalRepository, Composer) (CreateLocalRepository, Composer).
Definition localPypiHandler : repoHandler :=
  handle (NewLocalRepositoryParams Pypi) (UpdateLocalRepository, Pypi) (CreateLocalRepository, Pypi).
Definition localDockerHandler : repoHandler :=
  handle (NewLocalRepositoryParams Docker) (UpdateLocalRepository, Docker) (CreateLocalRepository, Docker).
Definition localVagrantHandler : repoHandler :=
  handle (NewLocalRepositoryParams Vagrant) (UpdateLocalRepository, Vagrant) (CreateLocalRepository, Vagrant).
Definition localGitLfsHandler : repoHandler :=
  handle (NewLocalRepositoryParams Gitlfs) (UpdateLocalRepository, Gitlfs) (CreateLocalRepository, Gitlfs).
Definition localGoHandler : repoHandler :=
  handle (NewLocalRepositoryParams Go) (UpdateLocalRepository, Go) (CreateLocalRepository, Go).
Definition localYumHandler : repoHandler :=
  handle (NewLocalRepositoryParams Yum) (UpdateLocalRepository, Yum) (CreateLocalRepository, Yum).
Definition localConanHandler : repoHandler :=
  handle (NewLocalRepositoryParams Conan) (UpdateLocalRepository, Conan) (CreateLocalRepository, Conan).
Definition localChefHandler : repoHandler :=
  handle (NewLocalRepositoryParams Chef) (UpdateLocalRepository, Chef) (CreateLocalRepository, Chef).
Definition localPuppetHandler : repoHandler :=
  handle (NewLocalRepositoryParams Puppet) (UpdateLocalRepository, Puppet) (CreateLocalRepository, Puppet).
Definition localAlpineHandler : repoHandler :=
  handle (NewLocalRepositoryParams Alpine) (UpdateLocalRepository, Alpine) (CreateLocalRepository, Alpine).
Definition localCondaHandler : repoHandler :=
  handle (NewLocalRepositoryParams Conda) (UpdateLocalRepository, Conda) (CreateLocalRepository, Conda).
Definition localSwiftHandler : repoHandler :=
  handle (NewLocalRepositoryParams Swift) (UpdateLocalRepository, Swift) (CreateLocalRepository, Swift).
Definition localTerraformHandler : repoHandler :=
  handle (NewLocalRepositoryParams Terraform) (UpdateLocalRepository, Terraform) (CreateLocalRepository, Terraform).
Definition localCargoHandler : repoHandler :=
  handle (NewLocalRepositoryParams Cargo) (UpdateLocalRepository, Cargo) (CreateLocalRepository, Cargo).
Definition localGenericHandler : repoHandler :=
  handle (NewLocalRepositoryParams Generic) (UpdateLocalRepository, Generic) (CreateLocalRepository, Generic).

Definition localRepoHandlers : list (string * repoHandler) :=
  [
    (packageTypeName Maven, localMavenHandler);
    (packageTypeName Gradle, localGradleHandler);
    (packageTypeName Ivy, localIvyHandles);
    (packageTypeName Sbt, localSbtHandler);
    (packageTypeName Helm, localHelmHandler);
    (packageTypeName Cocoapods, localCocoapodsHandler);
    (packageTypeName Opkg, localOpkgHandler);
    (packageTypeName Rpm, localRpmHandler);
    (packageTypeName Nuget, localNugetHandler);
    (packageTypeName Cran, localCranHandler);
    (packageTypeName Gems, localGemsHandler);
    (packageTypeName Npm, localNpmHandler);
    (packageTypeName Bower, localBowerHandler);
    (packageTypeName Debian, localDebianHandler);
    (packageTypeName Composer, localComposerHandler);
    (packageTypeName Pypi, localPypiHandler);
    (packageTypeName Docker, localDockerHandler);
    (packageTypeName Vagrant, localVagrantHandler);
    (packageTypeName Gitlfs, localGitLfsHandler);
    (packageTypeName Go, localGoHandler);
    (packageTypeName Yum, localYumHandler);
    (packageTypeName Conan, localConanHandler);
    (packageTypeName Conda, localCondaHandler);
    (packageTypeName Chef, localChefHandler);
    (packageTypeName Puppet, localPuppetHandler);
    (packageTypeName Alpine, localAlpineHandler);
    (packageTypeName Generic, localGenericHandler);
    (packageTypeName Swift, localSwiftHandler);
    (packageTypeName Terraform, localTerraformHandler);
    (packageTypeName Cargo, localCargoHandler)
  ].

Definition remoteMavenHandler : repoHandler :=
  handle (NewRemoteRepositoryParams Maven) (UpdateRemoteRepository, Maven) (CreateRemoteRepository, Maven).
Definition remoteGradleHandler : repoHandler :=
  handle (NewRemoteRepositoryParams Gradle) (UpdateRemoteRepository, Gradle) (CreateRemoteRepository, Gradle).
Definition remoteIvyHandler : repoHandler :=
  handle (NewRemoteRepositoryParams Ivy) (UpdateRemoteRepository, Ivy) (CreateRemoteRepository, Ivy).
Definition remoteSbtHandler : repoHandler :=
  handle (NewRemoteRepositoryParams Sbt) (UpdateRemoteRepository, Sbt) (CreateRemoteRepository, Sbt).
Definition remoteHelmHandler : repoHandler :=
  handle (NewRemoteRepositoryParams Helm) (UpdateRemoteRepository, Helm) (CreateRemoteRepository, Helm).
Definition remoteCocoapodsHandler : repoHandler :=
  handle (NewRemoteRepositoryParams Cocoapods) (UpdateRemoteRepository, Cocoapods) (CreateRemoteRepository, Cocoapods).
Definition remoteOpkgHandler : repoHandler :=
  handle (NewRemoteRepositoryParams Opkg) (UpdateRemoteRepository, Opkg) (CreateRemoteRepository, Opkg).
Definition remoteRpmHandler : repoHandler :=
  handle (NewRemoteRepositoryParams Rpm) (UpdateRemoteRepository, Rpm) (CreateRemoteRepository, Rpm).
Definition remoteNugetHandler : repoHandler :=
  handle (NewRemoteRepositoryParams Nuget) (UpdateRemoteRepository, Nuget) (CreateRemoteRepository, Nuget).
Definition remoteCranHandler : repoHandler :=
  handle (NewRemoteRepositoryParams Cran) (UpdateRemoteRepository, Cran) (CreateRemoteRepository, Cran).
Definition remoteGemsHandler : repoHandler :=
  handle (NewRemoteRepositoryParams Gems) (UpdateRemoteRepository, Gems) (CreateRemoteRepository, Gems).
Definition remoteNpmHandler : repoHandler :=
  handle (NewRemoteRepositoryParams Npm) (UpdateRemoteRepository, Npm) (CreateRemoteRepository, Npm).
Definition remoteBowerHandler : repoHandler :=
  handle (NewRemoteRepositoryParams Bower) (UpdateRemoteRepository, Bower) (CreateRemoteRepository, Bower).
Definition remoteDebianHandler : repoHandler :=
  handle (NewRemoteRepositoryParams Debian) (UpdateRemoteRepository, Debian) (CreateRemoteRepository, Debian).
Definition remoteComposerHandler : repoHandler :=
  handle (NewRemoteRepositoryParams Composer) (UpdateRemoteRepository, Composer) (CreateRemoteRepository, Composer).
Definition remotePypiHandler : repoHandler :=
  handle (NewRemoteRepositoryParams Pypi) (UpdateRemoteRepository, Pypi) (CreateRemoteRepository, Pypi).
Definition remoteDockerHandler : repoHandler :=
  handle (NewRemoteRepositoryParams Docker) (UpdateRemoteRepository, Docker) (CreateRemoteRepository, Docker).
Definition remoteGitLfsHandler : repoHandler :=
  handle (NewRemoteRepositoryParams Gitlfs) (UpdateRemoteRepository, Gitlfs) (CreateRemoteRepository, Gitlfs).
Definition remoteGoHandler : repoHandler :=
  handle (NewRemoteRepositoryParams Go) (UpdateRemoteRepository, Go) (CreateRemoteRepository, Go).
Definition remoteConanHandler : repoHandler :=
  handle (NewRemoteRepositoryParams Conan) (UpdateRemoteRepository, Conan) (CreateRemoteRepository, Conan).
Definition remoteChefHandler : repoHandler :=
  handle (NewRemoteRepositoryParams Chef) (UpdateRemoteRepository, Chef) (CreateRemoteRepository, Chef).
Definition remotePuppetHandler : repoHandler :=
  handle (NewRemoteRepositoryParams Puppet) (UpdateRemoteRepository, Puppet) (CreateRemoteRepository, Puppet).
Definition remoteVcsHandler : repoHandler :=
  handle (NewRemoteRepositoryParams Vcs) (UpdateRemoteRepository, Vcs) (CreateRemoteRepository, Vcs).
Definition remoteAlpineHandler : repoHandler :=
  handle (NewRemoteRepositoryParams Alpine) (UpdateRemoteRepository, Alpine) (CreateRemoteRepository, Alpine).
Definition remoteP2Handler : repoHandler :=
  handle (NewRemoteRepositoryParams P2) (UpdateRemoteRepository, P2) (CreateRemoteRepository, P2).
Definition remoteCondaHandler : repoHandler :=
  handle (NewRemoteRepositoryParams Conda) (UpdateRemoteRepository, Conda) (CreateRemoteRepository, Conda).
Definition remoteYumHandler : repoHandler :=
  handle (NewRemoteRepositoryParams Yum) (UpdateRemoteRepository, Yum) (CreateRemoteRepository, Yum).
Definition remoteSwiftHandler : repoHandler :=
  handle (NewRemoteRepositoryParams Swift) (UpdateRemoteRepository, Swift) (CreateRemoteRepository, Swift).
Definition remoteCargoHandler : repoHandler :=
  handle (NewRemoteRepositoryParams Cargo) (UpdateRemoteRepository, Cargo) (CreateRemoteRepository, Cargo).
Definition remoteTerraformHandler : repoHandler :=
  handle (NewRemoteRepositoryParams Terraform) (UpdateRemoteRepository, Terraform) (CreateRemoteRepository, Terraform).
Definition remoteGenericHandler : repoHandler :=
  handle (NewRemoteRepositoryParams Generic) (UpdateRemoteRepository, Generic) (CreateRemoteRepository, Generic).

Definition remoteRepoHandlers : list (string * repoHandler) :=
  [
    (packageTypeName Maven, remoteMavenHandler);
    (packageTypeName Gradle, remoteGradleHandler);
    (packageTypeName Ivy, remoteIvyHandler);
    (packageTypeName Sbt, remoteSbtHandler);
    (packageTypeName Helm, remoteHelmHandler);
    (packageTypeName Cocoapods, remoteCocoapodsHandler);
    (packageTypeName Opkg, remoteOpkgHandler);
    (packageTypeName Rpm, remoteRpmHandler);
    (packageTypeName Nuget, remoteNugetHandler);
    (packageTypeName Cran, remoteCranHandler);
    (packageTypeName Gems, remoteGemsHandler);
    (packageTypeName Npm, remoteNpmHandler);
    (packageTypeName Bower, remoteBowerHandler);
    (packageTypeName Debian, remoteDebianHandler);
    (packageTypeName Composer, remoteComposerHandler);
    (packageTypeName Pypi, remotePypiHandler);
    (packageTypeName Docker, remoteDockerHandler);
    (packageTypeName Gitlfs, remoteGitLfsHandler);
    (packageTypeName Go, remoteGoHandler);
    (packageTypeName Yum, remoteYumHandler);
    (packageTypeName Conan, remoteConanHandler);
    (packageTypeName Conda, remoteCondaHandler);
    (packageTypeName Chef, remoteChefHandler);
    (packageTypeName Puppet, remotePuppetHandler);
    (packageTypeName P2, remoteP2Handler);
    (packageTypeName Vcs, remoteVcsHandler);
    (packageTypeName Alpine, remoteAlpineHandler);
    (packageTypeName Generic, remoteGenericHandler);
    (packageTypeName Swift, remoteSwiftHandler);
    (packageTypeName Terraform, remoteTerraformHandler);
    (packageTypeName Cargo, remoteCargoHandler)
  ].

Definition federatedMavenHandler : repoHandler :=
  handle (NewFederatedRepositoryParams Maven) (UpdateFederatedRepository, Maven) (CreateFederatedRepository, Maven).
Definition federatedGradleHandler : repoHandler :=
  handle (NewFederatedRepositoryParams Gradle) (UpdateFederatedRepository, Gradle) (CreateFederatedRepository, Gradle).
Definition federatedIvyHandles : repoHandler :=
  handle (NewFederatedRepositoryParams Ivy) (UpdateFederatedRepository, Ivy) (CreateFederatedRepository, Ivy).
Definition federatedSbtHandler : repoHandler :=
  handle (NewFederatedRepositoryParams Sbt) (UpdateFederatedRepository, Sbt) (CreateFederatedRepository, Sbt).
Definition federatedHelmHandler : repoHandler :=
  handle (NewFederatedRepositoryParams Helm) (UpdateFederatedRepository, Helm) (CreateFederatedRepository, Helm).
Definition federatedCocoapodsHandler : repoHandler :=
  handle (NewFederatedRepositoryParams Cocoapods) (UpdateFederatedRepository, Cocoapods) (CreateFederatedRepository, Cocoapods).
Definition federatedOpkgHandler : repoHandler :=
  handle (NewFederatedRepositoryParams Opkg) (UpdateFederatedRepository, Opkg) (CreateFederatedRepository, Opkg).
Definition federatedRpmHandler : repoHandler :=
  handle (NewFederatedRepositoryParams Rpm) (UpdateFederatedRepository, Rpm) (CreateFederatedRepository, Rpm).
Definition federatedNugetHandler : repoHandler :=
  handle (NewFederatedRepositoryParams Nuget) (UpdateFederatedRepository, Nuget) (CreateFederatedRepository, Nuget).
Definition federatedCranHandler : repoHandler :=
  handle (NewFederatedRepositoryParams Cran) (UpdateFederatedRepository, Cran) (CreateFederatedRepository, Cran).
Definition federatedGemsHandler : repoHandler :=
  handle (NewFederatedRepositoryParams Gems) (UpdateFederatedRepository, Gems) (CreateFederatedRepository, Gems).
Definition federatedNpmHandler : repoHandler :=
  handle (NewFederatedRepositoryParams Npm) (UpdateFederatedRepository, Npm) (CreateFederatedRepository, Npm).
Definition federatedBowerHandler : repoHandler :=
  handle (NewFederatedRepositoryParams Bower) (UpdateFederatedRepository, Bower) (CreateFederatedRepository, Bower).
Definition federatedDebianHandler : repoHandler :=
  handle (NewFederatedRepositoryParams Debian) (UpdateFederatedRepository, Debian) (CreateFederatedRepository, Debian).
Definition federatedComposerHandler : repoHandler :=
  handle (NewFederatedRepositoryParams Composer) (UpdateFederatedRepository, Composer) (CreateFederatedRepository, Composer).
Definition federatedPypiHandler : repoHandler :=
  handle (NewFederatedRepositoryParams Pypi) (UpdateFederatedRepository, Pypi) (CreateFederatedRepository, Pypi).
Definition federatedDockerHandler : repoHandler :=
  handle (NewFederatedRepositoryParams Docker) (UpdateFederatedRepository, Docker) (CreateFederatedRepository, Docker).
Definition federatedVagrantHandler : repoHandler :=
  handle (NewFederatedRepositoryParams Vagrant) (UpdateFederatedRepository, Vagrant) (CreateFederatedRepository, Vagrant).
Definition federatedGitLfsHandler : repoHandler :=
  handle (NewFederatedRepositoryParams Gitlfs) (UpdateFederatedRepository, Gitlfs) (CreateFederatedRepository, Gitlfs).
Definition federatedGoHandler : repoHandler :=
  handle (NewFederatedRepositoryParams Go) (UpdateFederatedRepository, Go) (CreateFederatedRepository, Go).
Definition federatedConanHandler : repoHandler :=
  handle (NewFederatedRepositoryParams Conan) (UpdateFederatedRepository, Conan) (CreateFederatedRepository, Conan).
Definition federatedCondaHandler : repoHandler :=
  handle (NewFederatedRepositoryParams Conda) (UpdateFederatedRepository, Conda) (CreateFederatedRepository, Conda).
Definition federatedChefHandler : repoHandler :=
  handle (NewFederatedRepositoryParams Chef) (UpdateFederatedRepository, Chef) (CreateFederatedRepository, Chef).
Definition federatedPuppetHandler : repoHandler :=
  handle (NewFederatedRepositoryParams Puppet) (UpdateFederatedRepository, Puppet) (CreateFederatedRepository, Puppet).
Definition federatedAlpineHandler : repoHandler :=
  handle (NewFederatedRepositoryParams Alpine) (UpdateFederatedRepository, Alpine) (CreateFederatedRepository, Alpine).
Definition federatedGenericHandler : repoHandler :=
  handle (NewFederatedRepositoryParams Generic) (UpdateFederatedRepository, Generic) (CreateFederatedRepository, Generic).
Definition federatedSwiftHandler : repoHandler :=
  handle (NewFederatedRepositoryParams Swift) (UpdateFederatedRepository, Swift) (CreateFederatedRepository, Swift).
Definition federatedTerraformHandler : repoHandler :=
  handle (NewFederatedRepositoryParams Terraform) (UpdateFederatedRepository, Terraform) (CreateFederatedRepository, Terraform).
Definition federatedCargoHandler : repoHandler :=
  handle (NewFederatedRepositoryParams Cargo) (UpdateFederatedRepository, Cargo) (CreateFederatedRepository, Cargo).
Definition federatedYumHandler : repoHandler :=
  handle (NewFederatedRepositoryParams Yum) (UpdateFederatedRepository, Yum) (CreateFederatedRepository, Yum).

Definition federatedRepoHandlers : list (string * repoHandler) :=
  [
    (packageTypeName Maven, federatedMavenHandler);
    (packageTypeName Gradle, federatedGradleHandler);
    (packageTypeName Ivy, federatedIvyHandles);
    (packageTypeName Sbt, federatedSbtHandler);
    (packageTypeName Helm, federatedHelmHandler);
    (packageTypeName Cocoapods, federatedCocoapodsHandler);
    (packageTypeName Opkg, federatedOpkgHandler);
    (packageTypeName Rpm, federatedRpmHandler);
    (packageTypeName Nuget, federatedNugetHandler);
    (packageTypeName Cran, federatedCranHandler);
    (packageTypeName Gems, federatedGemsHandler);
    (packageTypeName Npm, federatedNpmHandler);
    (packageTypeName Bower, federatedBowerHandler);
    (packageTypeName Debian, federatedDebianHandler);
    (packageTypeName Composer, federatedComposerHandler);
    (packageTypeName Pypi, federatedPypiHandler);
    (packageTypeName Docker, federatedDockerHandler);
    (packageTypeName Vagrant, federatedVagrantHandler);
    (packageTypeName Gitlfs, federatedGitLfsHandler);
    (packageTypeName Go, federatedGoHandler);
    (packageTypeName Conan, federatedConanHandler);
    (packageTypeName Conda, federatedCondaHandler);
    (packageTypeName Chef, federatedChefHandler);
    (packageTypeName Puppet, federatedPuppetHandler);
    (packageTypeName Alpine, federatedAlpineHandler);
    (packageTypeName Generic, federatedGenericHandler);
    (packageTypeName Yum, federatedYumHandler);
    (packageTypeName Swift, federatedSwiftHandler);
    (packageTypeName Terraform, federatedTerraformHandler);
    (packageTypeName Cargo, federatedCargoHandler)
  ].

Definition virtualMavenHandler : repoHandler :=
  handle (NewVirtualRepositoryParams Maven) (UpdateVirtualRepository, Maven) (CreateVirtualRepository, Maven).
Definition virtualGradleHandler : repoHandler :=
  handle (NewVirtualRepositoryParams Gradle) (UpdateVirtualRepository, Gradle) (CreateVirtualRepository, Gradle).
Definition virtualIvyHandler : repoHandler :=
  handle (NewVirtualRepositoryParams Ivy) (UpdateVirtualRepository, Ivy) (CreateVirtualRepository, Ivy).
Definition virtualSbtHandler : repoHandler :=
  handle (NewVirtualRepositoryParams Sbt) (UpdateVirtualRepository, Sbt) (CreateVirtualRepository, Sbt).
Definition virtualHelmHandler : repoHandler :=
  handle (NewVirtualRepositoryParams Helm) (UpdateVirtualRepository, Helm) (CreateVirtualRepository, Helm).
Definition virtualRpmHandler : repoHandler :=
  handle (NewVirtualRepositoryParams Rpm) (UpdateVirtualRepository, Rpm) (CreateVirtualRepository, Rpm).
Definition virtualNugetHandler : repoHandler :=
  handle (NewVirtualRepositoryParams Nuget) (UpdateVirtualRepository, Nuget) (CreateVirtualRepository, Nuget).
Definition virtualCranHandler : repoHandler :=
  handle (NewVirtualRepositoryParams Cran) (UpdateVirtualRepository, Cran) (CreateVirtualRepository, Cran).
Definition virtualGemsHandler : repoHandler :=
  handle (NewVirtualRepositoryParams Gems) (UpdateVirtualRepository, Gems) (CreateVirtualRepository, Gems).
Definition virtualNpmHandler : repoHandler :=
  handle (NewVirtualRepositoryParams Npm) (UpdateVirtualRepository, Npm) (CreateVirtualRepository, Npm).
Definition virtualBowerHandler : repoHandler :=
  handle (NewVirtualRepositoryParams Bower) (UpdateVirtualRepository, Bower) (CreateVirtualRepository, Bower).
Definition virtualDebianHandler : repoHandler :=
  handle (NewVirtualRepositoryParams Debian) (UpdateVirtualRepository, Debian) (CreateVirtualRepository, Debian).
Definition virtualPypiHandler : repoHandler :=
  handle (NewVirtualRepositoryParams Pypi) (UpdateVirtualRepository, Pypi) (CreateVirtualRepository, Pypi).
Definition virtualDockerHandler : repoHandler :=
  handle (NewVirtualRepositoryParams Docker) (UpdateVirtualRepository, Docker) (CreateVirtualRepository, Docker).
Definition virtualGitLfsHandler : repoHandler :=
  handle (NewVirtualRepositoryParams Gitlfs) (UpdateVirtualRepository, Gitlfs) (CreateVirtualRepository, Gitlfs).
Definition virtualGoHandler : repoHandler :=
  handle (NewVirtualRepositoryParams Go) (UpdateVirtualRepository, Go) (CreateVirtualRepository, Go).
Definition virtualConanHandler : repoHandler :=
  handle (NewVirtualRepositoryParams Conan) (UpdateVirtualRepository, Conan) (CreateVirtualRepository, Conan).
Definition virtualChefHandler : repoHandler :=
  handle (NewVirtualRepositoryParams Chef) (UpdateVirtualRepository, Chef) (CreateVirtualRepository, Chef).
Definition virtualPuppetHandler : repoHandler :=
  handle (NewVirtualRepositoryParams Puppet) (UpdateVirtualRepository, Puppet) (CreateVirtualRepository, Puppet).
Definition virtualYumHandler : repoHandler :=
  handle (NewVirtualRepositoryParams Yum) (UpdateVirtualRepository, Yum) (CreateVirtualRepository, Yum).
Definition virtualP2Handler : repoHandler :=
  handle (NewVirtualRepositoryParams P2) (UpdateVirtualRepository, P2) (CreateVirtualRepository, P2).
Definition virtualAlpineHandler : repoHandler :=
  handle (NewVirtualRepositoryParams Alpine) (UpdateVirtualRepository, Alpine) (CreateVirtualRepository, Alpine).
Definition virtualCondaHandler : repoHandler :=
  handle (NewVirtualRepositoryParams Conda) (UpdateVirtualRepository, Conda) (CreateVirtualRepository, Conda).
Definition virtualSwiftHandler : repoHandler :=
  handle (NewVirtualRepositoryParams Swift) (UpdateVirtualRepository, Swift) (CreateVirtualRepository, Swift).
Definition virtualTerraformHandler : repoHandler :=
  handle (NewVirtualRepositoryParams Terraform) (UpdateVirtualRepository, Terraform) (CreateVirtualRepository, Terraform).
Definition virtualGenericHandler : repoHandler :=
  handle (NewVirtualRepositoryParams Generic) (UpdateVirtualRepository, Generic) (CreateVirtualRepository, Generic).

Definition virtualRepoHandlers : list (string * repoHandler) :=
  [
    (packageTypeName Maven, virtualMavenHandler);
    (packageTypeName Gradle, virtualGradleHandler);
    (packageTypeName Ivy, virtualIvyHandler);
    (packageTypeName Sbt, virtualSbtHandler);
    (packageTypeName Helm, virtualHelmHandler);
    (packageTypeName Rpm, virtualRpmHandler);
    (packageTypeName Nuget, virtualNugetHandler);
    (packageTypeName Cran, virtualCranHandler);
    (packageTypeName Gems, virtualGemsHandler);
    (packageTypeName Npm, virtualNpmHandler);
    (packageTypeName Bower, virtualBowerHandler);
    (packageTypeName Debian, virtualDebianHandler);
    (packageTypeName Pypi, virtualPypiHandler);
    (packageTypeName Docker, virtualDockerHandler);
    (packageTypeName Gitlfs, virtualGitLfsHandler);
    (packageTypeName Go, virtualGoHandler);
    (packageTypeName Yum, virtualYumHandler);
    (packageTypeName Conan, virtualConanHandler);
    (packageTypeName Chef, virtualChefHandler);
    (packageTypeName Puppet, virtualPuppetHandler);
    (packageTypeName Conda, virtualCondaHandler);
    (packageTypeName P2, virtualP2Handler);
    (packageTypeName Alpine, virtualAlpineHandler);
    (packageTypeName Generic, virtualGenericHandler);
    (packageTypeName Swift, virtualSwiftHandler);
    (packageTypeName Terraform, virtualTerraformHandler)
  ].

(** A Go map built from a literal, read at a key. *)
Fixpoint lookupTable {A} (table : list (string * A)) (key : string) : option A :=
  match table with
  | [] => None
  | (k, a) :: rest => if String.eqb k key then Some a else lookupTable rest key
  end.

(** The version is rendered by the verb [%v], which prints a string as
    it is. *)
Definition multipleRepoHandler : repoHandler :=
  fun servicesManager jsonConfig isUpdate =>
    match servicesManager with
    | None => panic
    | Some servicesManager =>
    _ ← record CallGetVersion;
    let '(artifactoryVersion, err) := GetVersion servicesManager in
    match err with
    | Some msg =>
        mret (cli.CheckErrorf "failed to get Artifactory rtVersion: %s" [msg])
    | None =>
        let batch : R error :=
          _ ← record (CallCreateUpdateRepositoriesInBatch jsonConfig isUpdate);
          let err := CreateUpdateRepositoriesInBatch servicesManager jsonConfig isUpdate in
          if is_err err then mret err else mret nil in
        if isUpdate then
          if negb (AtLeast artifactoryVersion "7.104.2") then
            mret (errors_New
                    ("bulk repository updation is supported from Artifactory rtVersion 7.104.2, current rtVersion: "
                     +:+ artifactoryVersion))
          else batch
        else
          if negb (AtLeast artifactoryVersion "7.84.3") then
            mret (errors_New
                    ("bulk repository creation is supported from Artifactory rtVersion 7.84.3, current rtVersion: "
                     +:+ artifactoryVersion))
          else batch
    end
    end.

(** The loop over the entries of one configuration: every value is
    validated and written back with its type.  The keys are visited in
    the order Go chose when the loop began; a value is read when its key
    is reached. *)
Fixpoint writeAnswers (keys : list string) (repoConfigMap : gmap string Value)
  : H (error * gmap string Value) :=
  match keys with
  | [] => mret (nil, repoConfigMap)
  | key :: rest =>
      match repoConfigMap !! key with
      | None => writeAnswers rest repoConfigMap
      | Some value =>
          let err := ValidateMapEntry key value (map fst writersMap) in
          if is_err err then mret (err, repoConfigMap) else
          match lookupTable writersMap key with
          | None => fun _ => Panics
          | Some write =>
              '(err, repoConfigMap) ← write repoConfigMap key (Sprint (Some value));
              if is_err err then mret (err, repoConfigMap)
              else writeAnswers rest repoConfigMap
          end
      end
  end.

(** The handler for the class and package type of a configuration:
    the switch of [SingleRepositoryHandler.Execute] and its nil test. *)
Definition selectHandler (repoConfigMap : gmap string Value) : repoHandler + error :=
  let packageType := Sprint (repoConfigMap !! keyName PackageType) in
  let found (handlerFunc : option repoHandler) : repoHandler + error :=
    match handlerFunc with
    | Some handlerFunc => inl handlerFunc
    | None => inr (errors_New ("unsupported package type: " +:+ packageType))
    end in
  let unsupported : repoHandler + error :=
    inr (cli.CheckErrorf "unsupported rclass: %s" [FormatS (repoConfigMap !! keyName Rclass)]) in
  match repoConfigMap !! keyName Rclass with
  | Some (VString rclass) =>
      if String.eqb rclass (rclassName Local) then
        found (lookupTable localRepoHandlers packageType)
      else if String.eqb rclass (rclassName Remote) then
        found (lookupTable remoteRepoHandlers packageType)
      else if String.eqb rclass (rclassName Virtual) then
        found (lookupTable virtualRepoHandlers packageType)
      else if String.eqb rclass (rclassName Federated) then
        found (lookupTable federatedRepoHandlers packageType)
      else unsupported
  | _ => unsupported
  end.

Fixpoint executeSingle (repoConfigMaps : list (gmap string Value))
    (servicesManager : option ArtifactoryServicesManager) (isUpdate : bool) : R error :=
  match repoConfigMaps with
  | [] => mret nil
  | repoConfigMap :: rest =>
      (* Go over the confMap and write the values with the correct type
         using the writersMap *)
      '(err, repoConfigMap) ← onHeap (writeAnswers (rangeOrder repoConfigMap) repoConfigMap);
      if is_err err then mret err else
      variables ← getHeap;
      let '(content, err) := Marshal repoConfigMap variables in
      if is_err err then mret err else
      (* Rclass and packageType are mandatory keys in our templates *)
      match selectHandler repoConfigMap with
      | inr err => mret err
      | inl handlerFunc =>
          err ← handlerFunc servicesManager content isUpdate;
          if is_err err then mret err
          else executeSingle rest servicesManager isUpdate
      end
  end.

Definition executeMultiple (repoConfigMaps : list (gmap string Value))
    (servicesManager : option ArtifactoryServicesManager) (isUpdate : bool) : R error :=
  variables ← getHeap;
  let '(content, err) := MarshalAll repoConfigMaps variables in
  if is_err err then mret err else
  multipleRepoHandler servicesManager content isUpdate.

(** The method of the interface [repoCreateUpdateHandler]. *)
Definition Execute (strategy : Strategy) :
    list (gmap string Value) -> option ArtifactoryServicesManager -> bool -> R error :=
  match strategy with
  | MultipleRepositoryHandler => executeMultiple
  | SingleRepositoryHandler => executeSingle
  end.

(** The test of the loop of [PerformRepoCmd]: no entry under "key", or
    the empty string there. *)
Definition keyMissing (repoConfigMap : gmap string Value) : bool :=
  match repoConfigMap !! "key" with
  | None => true
  | Some (VString s) => String.eqb s ""
  | Some _ => false
  end.

Definition PerformRepoCmd (rc : RepoCommand) (isUpdate : bool) : R error :=
  let '(configs, err) := ConvertTemplateToMaps rc in
  if is_err err then mret err else
  let perform (repoConfigMaps : list (gmap string Value)) (strategy : Strategy) : R error :=
    let missingKeys :=
      fold_left
        (fun missingKeys repoConfigMap =>
           if keyMissing repoConfigMap
           then missingKeys ++ [FormatMap repoConfigMap +:+ LF]
           else missingKeys)
        repoConfigMaps [] in
    if (0 <? length missingKeys)%nat then
      mret (errors_New ("'key' is missing in the following configs" +:+ LF +:+ ": " +:+
                        FormatStrings missingKeys))
    else
      _ ← record CallCreateServiceManager;
      let '(servicesManager, err) := CreateServiceManager (serverDetails rc) (-1) 0 false in
      if is_err err then mret err else
      Execute strategy repoConfigMaps servicesManager isUpdate in
  match configs with
  | ConfigMaps configType => perform configType MultipleRepositoryHandler
  | ConfigMap configType => perform [configType] SingleRepositoryHandler
  | ConfigOther typeName =>
      mret (errors_New ("unexpected repository configuration type: " +:+ typeName))
  end.

End Package.

End repository.

(** ** Sample inputs

    One assignment of the names (after the CLI surface of the spec), a
    platform that resolves a token-authenticated server and accepts every
    evidence, and a few contexts and key loaders, on which the properties
    below are exercised. *)

Module samples.

Import cli components coreConfig cryptox.

Definition names : Names := {|
  predicate := "predicate";
  predicateType := "predicate-type";
  key := "key";
  keyAlias := "key-alias";
  subjectRepoPath := "repo-path";
  releaseBundle := "release-bundle";
  buildName := "build-name";
  buildNumber := "build-number";
  packageName := "package-name";
  SigningKey := "JFROG_CLI_SIGNING_KEY";
  KeyAlias := "JFROG_CLI_KEY_ALIAS";
  BuildName := "BUILD_NAME";
  BuildNumber := "BUILD_NUMBER"
|}.

Definition server : ServerDetails := {|
  Url := "https://acme.example.io";
  ArtifactoryUrl := "";
  EvidenceUrl := "";
  MetadataUrl := "";
  User := "";
  Password := "";
  AccessToken := "token"
|}.

Definition platform : Platform := {|
  PlatformDomain := "platform";
  CreateServerDetailsWithConfigOffer := fun _ _ _ => (Some server, nil);
  CreateEvidence := fun _ _ _ => nil
|}.

Definition context (args : list string) (flags : list (string * string)) : Context := {|
  Arguments := args;
  CommandName := "create-evidence";
  stringFlags := list_to_map flags;
  boolFlags := ∅;
  PrintCommandHelp := fun _ => nil
|}.

Definition world (args : list string) (flags env : list (string * string)) : World := {|
  ctx := context args flags;
  env := list_to_map env;
  calls := []
|}.

(** A key file with the public half only, and one with the private half
    only, as a loader that ignores the bytes. *)
Definition public_only : SSLibKey := {|
  KeyType := "ecdsa";
  KeyVal := {| Private := ""; Public := "PUBLIC PEM"; Certificate := "" |};
  Scheme := "ecdsa-sha2-nistp256";
  KeyID := "keyid"
|}.

Definition private_only : SSLibKey := {|
  KeyType := "ecdsa";
  KeyVal := {| Private := "PRIVATE PEM"; Public := ""; Certificate := "" |};
  Scheme := "ecdsa-sha2-nistp256";
  KeyID := "keyid"
|}.

(** Two subject flags at once. *)
Definition ambiguous_world : World :=
  world [] [("predicate", "p.json"); ("predicate-type", "t"); ("key", "k.pem");
            ("release-bundle", "rb"); ("build-name", "b")] [].

(** No subject flag, the build in the environment. *)
Definition fallback_world : World :=
  world [] [] [("BUILD_NAME", "b"); ("BUILD_NUMBER", "1")].

(** A help request with no flag at all, the build in the environment. *)
Definition help_world : World :=
  world ["--help"] [] [("BUILD_NAME", "b"); ("BUILD_NUMBER", "1")].

Definition short_help_world : World := world ["-h"] [] [].

Definition two_arguments_world : World := world ["a"; "b"] [] [].

(** The predicate type without the predicate. *)
Definition no_predicate_world : World :=
  world [] [("predicate-type", "t")] [].

(** The predicate and its type, and no key anywhere. *)
Definition no_key_world : World :=
  world [] [("predicate", "p.json"); ("predicate-type", "t"); ("build-name", "b")] [].

(** Distribution to one site and to one country. *)
Definition two_rules : spec.DistributionRules := {|
  spec.Rules :=
    [ {| spec.SiteName := "edge-1"; spec.CityName := ""; spec.CountryCodes := [] |};
      {| spec.SiteName := ""; spec.CityName := ""; spec.CountryCodes := ["DE"] |} ]
|}.

(** Everything on the command line, a key and an alias in the environment
    as well. *)
Definition complete_world : World :=
  world [] [("predicate", "p.json"); ("predicate-type", "t"); ("key", "k.pem");
            ("release-bundle", "rb")]
        [("JFROG_CLI_SIGNING_KEY", "env.pem"); ("JFROG_CLI_KEY_ALIAS", "alias")].

(** The build number in the environment, and no build name. *)
Definition number_only_world : World :=
  world [] [] [("BUILD_NUMBER", "7")].

Definition server_with_slash : ServerDetails := {|
  Url := "https://acme.example.io/";
  ArtifactoryUrl := "";
  EvidenceUrl := "";
  MetadataUrl := "";
  User := "";
  Password := "";
  AccessToken := "token"
|}.

(** The build-name flag set to the empty value, the build number in the
    environment. *)
Definition empty_build_name_world : World :=
  world [] [("build-name", "")] [("BUILD_NUMBER", "1")].

(** A key on the command line and in the environment, and no predicate;
    everything on the command line, and two arguments. *)
Definition key_without_predicate_world : World :=
  world [] [("key", "k.pem")] [("JFROG_CLI_SIGNING_KEY", "env.pem")].

Definition key_two_arguments_world : World :=
  world ["a"; "b"]
    [("predicate", "p.json"); ("predicate-type", "t"); ("key", "k.pem")] [].

(** A state of the package with a variable and a printed line. *)
Definition some_state : GoCode.state :=
  {| GoCode.packageVars := <["verbose" := GoCode.VBool true]> ∅;
     GoCode.printed := ["started"] |}.

Definition load (k : SSLibKey) : list Byte.byte -> option SSLibKey * error :=
  fun _ => (Some k, nil).

End samples.

(** ** Sample inputs of the release bundle evidence command *)

Module releaseBundleSamples.

Import createReleaseBundle.

Definition envelope : list Byte.byte := [Byte.x7b; Byte.x7d].

Definition methods : Base := {|
  ArtifactoryClient := unit;
  createArtifactoryClient := fun _ => (tt, nil);
  getFileChecksum := fun _ _ _ => ("e3b0c44298fc1c14", nil);
  createEnvelope := fun _ _ _ => (envelope, nil);
  uploadEvidence := fun _ _ _ => nil;
  BuildReleaseBundleRepoKey := lifecycle.buildRepoKey
|}.

Definition command : createEvidenceReleaseBundle :=
  NewCreateEvidenceReleaseBundle (Some samples.server) "predicate.json"
    "https://in-toto.io/attestation/v1" "" "key.pem" "alias" "" "bundle" "1.0".

End releaseBundleSamples.

(** ** Sample inputs of the repository commands *)

Module repositorySamples.

Import GoText services repository.

Definition keyName (key : KeyId) : string :=
  match key with
  | Key => "key"
  | Rclass => "rclass"
  | PackageType => "packageType"
  | MandatoryUrl => "mandatoryUrl"
  | Url => "url"
  | Description => "description"
  | Notes => "notes"
  | IncludePatterns => "includePatterns"
  | ExcludePatterns => "excludePatterns"
  | RepoLayoutRef => "repoLayoutRef"
  | ProjectKey => "projectKey"
  | HandleReleases => "handleReleases"
  | HandleSnapshots => "handleSnapshots"
  | MaxUniqueSnapshots => "maxUniqueSnapshots"
  | SuppressPomConsistencyChecks => "suppressPomConsistencyChecks"
  | BlackedOut => "blackedOut"
  | DownloadRedirect => "downloadRedirect"
  | PriorityResolution => "priorityResolution"
  | CdnRedirect => "cdnRedirect"
  | BlockPushingSchema1 => "blockPushingSchema1"
  | DebianTrivialLayout => "debianTrivialLayout"
  | ExternalDependenciesEnabled => "externalDependenciesEnabled"
  | ExternalDependenciesPatterns => "externalDependenciesPatterns"
  | ChecksumPolicyType => "checksumPolicyType"
  | MaxUniqueTags => "maxUniqueTags"
  | SnapshotVersionBehavior => "snapshotVersionBehavior"
  | XrayIndex => "xrayIndex"
  | PropertySets => "propertySets"
  | ArchiveBrowsingEnabled => "archiveBrowsingEnabled"
  | CalculateYumMetadata => "calculateYumMetadata"
  | YumRootDepth => "yumRootDepth"
  | DockerApiVersion => "dockerApiVersion"
  | EnableFileListsIndexing => "enableFileListsIndexing"
  | OptionalIndexCompressionFormats => "optionalIndexCompressionFormats"
  | Username => "username"
  | Password => "password"
  | Proxy => "proxy"
  | RemoteRepoChecksumPolicyType => "remoteRepoChecksumPolicyType"
  | HardFail => "hardFail"
  | Offline => "offline"
  | StoreArtifactsLocally => "storeArtifactsLocally"
  | SocketTimeoutMillis => "socketTimeoutMillis"
  | LocalAddress => "localAddress"
  | RetrievalCachePeriodSecs => "retrievalCachePeriodSecs"
  | FailedRetrievalCachePeriodSecs => "failedRetrievalCachePeriodSecs"
  | MissedRetrievalCachePeriodSecs => "missedRetrievalCachePeriodSecs"
  | UnusedArtifactsCleanupEnabled => "unusedArtifactsCleanupEnabled"
  | UnusedArtifactsCleanupPeriodHours => "unusedArtifactsCleanupPeriodHours"
  | AssumedOfflinePeriodSecs => "assumedOfflinePeriodSecs"
  | FetchJarsEagerly => "fetchJarsEagerly"
  | FetchSourcesEagerly => "fetchSourcesEagerly"
  | ShareConfiguration => "shareConfiguration"
  | SynchronizeProperties => "synchronizeProperties"
  | BlockMismatchingMimeTypes => "blockMismatchingMimeTypes"
  | AllowAnyHostAuth => "allowAnyHostAuth"
  | EnableCookieManagement => "enableCookieManagement"
  | BowerRegistryUrl => "bowerRegistryUrl"
  | ComposerRegistryUrl => "composerRegistryUrl"
  | PyPIRegistryUrl => "pyPIRegistryUrl"
  | VcsType => "vcsType"
  | VcsGitProvider => "vcsGitProvider"
  | VcsGitDownloadUrl => "vcsGitDownloadUrl"
  | BypassHeadRequests => "bypassHeadRequests"
  | ClientTlsCertificate => "clientTlsCertificate"
  | FeedContextPath => "feedContextPath"
  | DownloadContextPath => "downloadContextPath"
  | V3FeedUrl => "v3FeedUrl"
  | ContentSynchronisation => "contentSynchronisation"
  | ListRemoteFolderItems => "listRemoteFolderItems"
  | RejectInvalidJars => "rejectInvalidJars"
  | PodsSpecsRepoUrl => "podsSpecsRepoUrl"
  | EnableTokenAuthentication => "enableTokenAuthentication"
  | Repositories => "repositories"
  | ArtifactoryRequestsCanRetrieveRemoteArtifacts => "artifactoryRequestsCanRetrieveRemoteArtifacts"
  | KeyPair => "keyPair"
  | PomRepositoryReferencesCleanupPolicy => "pomRepositoryReferencesCleanupPolicy"
  | DefaultDeploymentRepo => "defaultDeploymentRepo"
  | ForceMavenAuthentication => "forceMavenAuthentication"
  | ForceNugetAuthentication => "forceNugetAuthentication"
  | ExternalDependenciesRemoteRepo => "externalDependenciesRemoteRepo"
  end.

Definition packageTypeName (packageType : PackageTypeId) : string :=
  match packageType with
  | Maven => "maven"
  | Gradle => "gradle"
  | Ivy => "ivy"
  | Sbt => "sbt"
  | Helm => "helm"
  | Cocoapods => "cocoapods"
  | Opkg => "opkg"
  | Rpm => "rpm"
  | Nuget => "nuget"
  | Cran => "cran"
  | Gems => "gems"
  | Npm => "npm"
  | Bower => "bower"
  | Debian => "debian"
  | Composer => "composer"
  | Pypi => "pypi"
  | Docker => "docker"
  | Vagrant => "vagrant"
  | Gitlfs => "gitlfs"
  | Go => "go"
  | Yum => "yum"
  | Conan => "conan"
  | Conda => "conda"
  | Chef => "chef"
  | Puppet => "puppet"
  | Alpine => "alpine"
  | Generic => "generic"
  | Swift => "swift"
  | Terraform => "terraform"
  | Cargo => "cargo"
  | P2 => "p2"
  | Vcs => "vcs"
  end.

Definition rclassName (rclass : RclassId) : string :=
  match rclass with
  | Local => "local"
  | Remote => "remote"
  | Virtual => "virtual"
  | Federated => "federated"
  end.

(** Versions of dotted decimal numbers, compared number by number. *)
Fixpoint number (s : string) (acc : nat) : nat :=
  match s with
  | EmptyString => acc
  | String c rest => number rest (10 * acc + (nat_of_ascii c - 48))
  end.

Fixpoint atLeast (version minimum : list nat) : bool :=
  match version, minimum with
  | _, [] => true
  | [], m :: minimum => (m =? 0)%nat && atLeast [] minimum
  | v :: version, m :: minimum =>
      (m <? v)%nat || ((v =? m)%nat && atLeast version minimum)
  end.

Definition AtLeast (version minimum : string) : bool :=
  atLeast (map (fun s => number s 0) (Split version "."%char))
          (map (fun s => number s 0) (Split minimum "."%char)).

Definition content : list Byte.byte := [Byte.x7b; Byte.x7d].

Definition manager : ArtifactoryServicesManager := {|
  GetVersion := ("7.100.0", nil);
  CreateUpdateRepositoriesInBatch := fun _ _ => nil;
  RepositoryService := fun _ _ _ => nil
|}.

Definition maven_local : gmap string Value :=
  <["key" := VString "libs-release"]>
    (<["rclass" := VString "local"]> (<["packageType" := VString "maven"]> ∅)).

Definition without_key : gmap string Value :=
  <["rclass" := VString "remote"]> (<["packageType" := VString "npm"]> ∅).

Definition template (path : string) : RepoCommand :=
  {| serverDetails := None; templatePath := path; vars := "" |}.

Definition library : Library := {|
  repository.keyName := keyName;
  repository.packageTypeName := packageTypeName;
  repository.rclassName := rclassName;
  ConvertTemplateToMaps := fun rc =>
    if String.eqb (TemplatePath rc) "repository.json" then (ConfigMap maven_local, nil)
    else if String.eqb (TemplatePath rc) "repositories.json"
         then (ConfigMaps [maven_local; without_key], nil)
         else (ConfigOther "string", nil);
  ValidateMapEntry := fun key _ keys =>
    if existsb (String.eqb key) keys then nil else errors_New ("unknown key: " +:+ key);
  WriteStringAnswer := fun resultMap key value => mret (nil, <[key := VString value]> resultMap);
  WriteBoolAnswer := fun resultMap key value =>
    mret (nil, <[key := VBool (String.eqb value "true")]> resultMap);
  WriteIntAnswer := fun resultMap key value =>
    mret (nil, <[key := VInt (Z.of_nat (number value 0))]> resultMap);
  WriteStringArrayAnswer := fun resultMap key value =>
    mret (nil, <[key := VStrings (Split value ","%char)]> resultMap);
  CreateServiceManager := fun _ _ _ _ => (Some manager, nil);
  repository.AtLeast := AtLeast;
  Quote := fun s => s;
  SprintValue := fun _ => "?";
  FormatMap := fun m => "map[" +:+ Join (map fst (map_to_list m)) " " +:+ "]";
  FormatVerbS := fun _ => "?";
  Marshal := fun _ _ => (content, nil);
  MarshalAll := fun _ _ => (content, nil);
  Unmarshal := fun _ _ => nil;
  rangeOrder := fun m => map fst (map_to_list m)
|}.

Definition start : State := {| heap := []; trace := [] |}.

End repositorySamples.

(** ** Vocabulary of the specification *)

(** The distribution rules count as empty for a nil pointer, for zero
    rules, and for a single rule that is itself empty. *)
Definition no_distribution_rules
    (distributionRules : option spec.DistributionRules) : Prop :=
  distributionRules = None ∨
  ∃ dr, distributionRules = Some dr ∧
        (spec.Rules dr = [] ∨
         ∃ rule, spec.Rules dr = [rule] ∧ spec.IsEmpty rule = true).

(** The rule that distributes to all edges. *)
Definition all_edges : distribution.DistributionCommonParams :=
  {| distribution.SiteName := "*";
     distribution.CityName := "";
     distribution.CountryCodes := [] |}.

(** A build value is obtainable when its flag is set or its environment
    variable is not empty. *)
Definition obtainable (w : cli.World) (flag envVar : string) : Prop :=
  components.IsFlagSet (cli.ctx w) flag = true ∨ default "" (cli.env w !! envVar) ≠ "".

(** A build value is given when its flag carries a non-empty value or
    its environment variable is not empty: the reading of "obtainable
    from flag or environment" in which an empty flag gives nothing. *)
Definition has_value (w : cli.World) (flag envVar : string) : Prop :=
  components.GetStringFlagValue (cli.ctx w) flag ≠ "" ∨ default "" (cli.env w !! envVar) ≠ "".

(** The context once a flag that is not set has taken the non-empty
    value of its environment variable. *)
Definition filled_from (environment : gmap string string)
    (c : components.Context) (flag envVar : string) : components.Context :=
  if components.IsFlagSet c flag then c
  else if String.eqb (default "" (environment !! envVar)) "" then c
  else components.AddStringFlag c flag (default "" (environment !! envVar)).

(** Help is requested by the single argument [--help] or [-h]. *)
Definition help_requested (args : list string) : Prop :=
  args = ["--help"] ∨ args = ["-h"].

(** A flag is missing when it is unset or set to the empty value. *)
Definition missing (c : components.Context) (flag : string) : Prop :=
  components.IsFlagSet c flag = false ∨ components.GetStringFlagValue c flag = "".

(** A signing key is at hand when the key flag is set with a non-empty
    value or the signing-key variable of the environment is not empty. *)
Definition key_available {names : cli.Names} (w : cli.World) : Prop :=
  (components.IsFlagSet (cli.ctx w) cli.key = true ∧
   components.GetStringFlagValue (cli.ctx w) cli.key ≠ "") ∨
  default "" (cli.env w !! cli.SigningKey) ≠ "".

(** The signing key at hand: the value of the key flag when it is set and
    not empty, and the signing-key variable of the environment
    otherwise. *)
Definition signing_key {names : cli.Names} (w : cli.World) : string :=
  if components.IsFlagSet (cli.ctx w) cli.key &&
     negb (String.eqb (components.GetStringFlagValue (cli.ctx w) cli.key) "")
  then components.GetStringFlagValue (cli.ctx w) cli.key
  else default "" (cli.env w !! cli.SigningKey).

(** Between two states of the context, what the invocation gave is kept:
    the arguments, the command name, the boolean flags, the flags that
    are set, and every non-empty flag value. *)
Definition keeps_given_values (c c' : components.Context) : Prop :=
  components.Arguments c' = components.Arguments c ∧
  components.CommandName c' = components.CommandName c ∧
  components.boolFlags c' = components.boolFlags c ∧
  (∀ f, components.IsFlagSet c f = true → components.IsFlagSet c' f = true) ∧
  (∀ f, components.GetStringFlagValue c f ≠ "" →
        components.GetStringFlagValue c' f = components.GetStringFlagValue c f).

(** A computation that keeps what the invocation gave, and the
    environment. *)
Definition preserves {A} (m : cli.M A) : Prop :=
  ∀ w a w', m w = Returns (a, w') →
    keeps_given_values (cli.ctx w) (cli.ctx w') ∧ cli.env w' = cli.env w.

(** A computation that calls nothing but, at most, the help printer. *)
Definition prints_only {A} (m : cli.M A) : Prop :=
  ∀ w a w', m w = Returns (a, w') →
    ∃ help, cli.calls w' = cli.calls w ++ help ∧
            ∀ c, c ∈ help → ∃ name, c = cli.CallPrintCommandHelp name.

(** The command object of each subject, as the switch of
    [createEvidence] pairs them. *)
Definition command_for {names : cli.Names}
    (subject : string) (command : cli.EvidenceCommands) : Prop :=
  subject = cli.subjectRepoPath ∧ command = cli.EvidenceCustomCommand ∨
  subject = cli.releaseBundle ∧ command = cli.EvidenceReleaseBundleCommand ∨
  subject = cli.buildName ∧ command = cli.EvidenceBuildCommand ∨
  subject = cli.packageName ∧ command = cli.EvidencePackageCommand.

(** A string without the path separator. *)
Fixpoint slash_free (s : string) : bool :=
  match s with
  | EmptyString => true
  | String c rest => negb (Ascii.eqb c "/"%char) && slash_free rest
  end.

(** The four flags of a content synchronisation, read through its
    pointers. *)
Definition read_flag (variables : list bool) (flag : option services.loc) : option bool :=
  match flag with
  | Some variable => variables !! variable
  | None => None
  end.

Definition flag_values (variables : list bool) (cs : services.ContentSynchronisation)
  : option (bool * bool * bool * bool) :=
  match services.Statistics cs, services.Properties cs, services.Source cs with
  | Some statistics, Some properties, Some source =>
      match read_flag variables (services.Enabled cs),
            read_flag variables (services.StatisticsEnabled statistics),
            read_flag variables (services.PropertiesEnabled properties),
            read_flag variables (services.OriginAbsenceDetection source) with
      | Some e, Some s, Some p, Some o => Some (e, s, p, o)
      | _, _, _, _ => None
      end
  | _, _, _ => None
  end.

(** The content synchronisation whose four flags point to one variable. *)
Definition all_flags_at (variable : services.loc) : services.ContentSynchronisation :=
  {| services.Enabled := Some variable;
     services.Statistics := Some {| services.StatisticsEnabled := Some variable |};
     services.Properties := Some {| services.PropertiesEnabled := Some variable |};
     services.Source := Some {| services.OriginAbsenceDetection := Some variable |} |}.

(** The table, the constructor and the two services of a repository
    class. *)
Definition table_of {library : repository.Library} (rclass : repository.RclassId)
  : list (string * repository.repoHandler) :=
  match rclass with
  | repository.Local => repository.localRepoHandlers
  | repository.Remote => repository.remoteRepoHandlers
  | repository.Virtual => repository.virtualRepoHandlers
  | repository.Federated => repository.federatedRepoHandlers
  end.

Definition new_params_of (rclass : repository.RclassId)
  : repository.PackageTypeId -> repository.ParamsConstructor :=
  match rclass with
  | repository.Local => repository.NewLocalRepositoryParams
  | repository.Remote => repository.NewRemoteRepositoryParams
  | repository.Virtual => repository.NewVirtualRepositoryParams
  | repository.Federated => repository.NewFederatedRepositoryParams
  end.

Definition create_of (rclass : repository.RclassId) : repository.Service :=
  match rclass with
  | repository.Local => repository.CreateLocalRepository
  | repository.Remote => repository.CreateRemoteRepository
  | repository.Virtual => repository.CreateVirtualRepository
  | repository.Federated => repository.CreateFederatedRepository
  end.

Definition update_of (rclass : repository.RclassId) : repository.Service :=
  match rclass with
  | repository.Local => repository.UpdateLocalRepository
  | repository.Remote => repository.UpdateRemoteRepository
  | repository.Virtual => repository.UpdateVirtualRepository
  | repository.Federated => repository.UpdateFederatedRepository
  end.

(** A package type is registered in a table when its name is a key. *)
Definition registered {A} (table : list (string * A)) (name : string) : Prop :=
  is_Some (repository.lookupTable table name).

(** The maps of a decoded template. *)
Definition maps_of (configs : repository.Configs) : list (gmap string repository.Value) :=
  match configs with
  | repository.ConfigMaps maps => maps
  | repository.ConfigMap map => [map]
  | repository.ConfigOther _ => []
  end.

(** The calls of the bulk path, and the calls of the path for single
    repositories: there the service is the update or the create service
    of a repository class, called for a package type registered in the
    table of the class, on parameters made by the constructor of the
    class for that type. *)
Definition bulk_call (isUpdate : bool) (c : repository.RepoCall) : Prop :=
  c = repository.CallGetVersion ∨
  ∃ jsonConfig, c = repository.CallCreateUpdateRepositoriesInBatch jsonConfig isUpdate.

Definition service_call {library : repository.Library}
    (isUpdate : bool) (c : repository.RepoCall) : Prop :=
  ∃ rclass packageType jsonConfig,
    c = repository.CallRepositoryService
          (if isUpdate then update_of rclass else create_of rclass) packageType
          {| repository.constructed := new_params_of rclass packageType;
             repository.decoded := jsonConfig |} ∧
    registered (table_of rclass) (repository.packageTypeName packageType).

(** A computation that makes at most [n] calls, all of them allowed. *)
Definition calls_within {A} (allowed : repository.RepoCall -> Prop) (n : nat)
    (m : repository.R A) : Prop :=
  ∀ st a st', m st = Returns (a, st') →
    ∃ new, repository.trace st' = repository.trace st ++ new ∧
           Forall allowed new ∧ length new ≤ n.

(** * Properties *)

(** ** Strings *)

Section Strings.

Lemma app_String (c : ascii) (s t : string) :
  String c s +:+ t = String c (s +:+ t).
Proof. reflexivity. Qed.

Lemma app_empty_r (s : string) : s +:+ "" = s.
Proof. induction s as [|c s IH]; [done|]. by rewrite app_String, IH. Qed.

Lemma app_assoc_s (s t u : string) : (s +:+ t) +:+ u = s +:+ t +:+ u.
Proof. induction s as [|c s IH]; [done|]. by rewrite !app_String, IH. Qed.

Lemma length_app_s (s t : string) :
  String.length (s +:+ t) = String.length s + String.length t.
Proof. induction s as [|c s IH]; [done|]. rewrite app_String. cbn. by rewrite IH. Qed.

Lemma substring_all (s : string) : substring 0 (String.length s) s = s.
Proof. induction s as [|c s IH]; [done|]. cbn. by rewrite IH. Qed.

Lemma substring_app_r (s t : string) :
  substring (String.length s) (String.length t) (s +:+ t) = t.
Proof. induction s as [|c s IH]; [apply substring_all | apply IH]. Qed.

Lemma substring_split (s : string) (n : nat) :
  n ≤ String.length s →
  s = substring 0 n s +:+ substring n (String.length s - n) s.
Proof.
  revert n. induction s as [|c s IH]; intros [|n] Hn; cbn in *; try lia.
  - done.
  - by rewrite substring_all.
  - rewrite app_String. f_equal. apply IH. lia.
Qed.

(** [strings.HasSuffix] holds exactly of the strings that end with the
    suffix. *)
Lemma HasSuffix_iff (s suffix : string) :
  HasSuffix s suffix = true ↔ ∃ p, s = p +:+ suffix.
Proof.
  unfold HasSuffix. rewrite andb_true_iff, Nat.leb_le, String.eqb_eq. split.
  - intros [Hle Hsub].
    exists (substring 0 (String.length s - String.length suffix) s).
    rewrite (substring_split s (String.length s - String.length suffix)) at 1 by lia.
    f_equal. rewrite <- Hsub at 3. f_equal. lia.
  - intros [p ->]. rewrite length_app_s. split; [lia|].
    replace (String.length p + String.length suffix - String.length suffix)
      with (String.length p) by lia.
    apply substring_app_r.
Qed.

(** The joined list shows every one of its elements. *)
Lemma Join_shows (elems : list string) (sep e : string) :
  e ∈ elems → ∃ pre post, Join elems sep = pre +:+ e +:+ post.
Proof.
  induction elems as [|x [|y rest] IH]; intros Hin.
  - by apply elem_of_nil in Hin.
  - apply list_elem_of_singleton in Hin as ->.
    exists "", "". by rewrite app_empty_r.
  - apply elem_of_cons in Hin as [-> | Hin].
    + exists "", (sep +:+ Join (y :: rest) sep). reflexivity.
    + destruct (IH Hin) as (pre & post & Heq).
      exists (x +:+ sep +:+ pre), post.
      change (Join (x :: y :: rest) sep) with (x +:+ sep +:+ Join (y :: rest) sep).
      by rewrite Heq, !app_assoc_s.
Qed.

End Strings.


(** ** Release-bundle path builders *)

Section PathBuilders.

Import lifecycle.

Example buildRepoKey_proj : buildRepoKey "proj" = "proj-release-bundles-v2".
Proof. reflexivity. Qed.

Example buildRepoKey_default : buildRepoKey "default" = "release-bundles-v2".
Proof. reflexivity. Qed.

Lemma buildRepoKey_plain (project : string) :
  project = "" ∨ project = "default" →
  buildRepoKey project = "release-bundles-v2".
Proof. by intros [-> | ->]. Qed.

Lemma buildRepoKey_prefixed (project : string) :
  project ≠ "" → project ≠ "default" →
  buildRepoKey project = project +:+ "-release-bundles-v2".
Proof.
  intros Hne Hnd. unfold buildRepoKey.
  apply String.eqb_neq in Hne, Hnd. by rewrite Hne, Hnd.
Qed.

End PathBuilders.

(** C3: for every project string, the repository key of a release bundle
    is "release-bundles-v2" when the project is empty or "default", and
    the project followed by "-release-bundles-v2" otherwise. *)
Theorem buildRepoKey_spec (project : string) :
  lifecycle.buildRepoKey project =
    if decide (project = "" ∨ project = "default")
    then "release-bundles-v2"
    else project +:+ "-release-bundles-v2".
Proof.
  case_decide as Hp.
  - by apply buildRepoKey_plain.
  - apply buildRepoKey_prefixed; intros ->; apply Hp; auto.
Qed.

(** C4: for every project, name and version the manifest path is the
    repository key, the name, the version and "release-bundle.json.evd"
    joined by slashes (the evidence command builds the same path from a
    repository key); the two paths the spec lists come out as written. *)
Theorem buildManifestPath_spec :
  (∀ project name version : string,
     lifecycle.buildManifestPath project name version =
       lifecycle.buildRepoKey project +:+ "/" +:+ name +:+ "/" +:+ version
         +:+ "/release-bundle.json.evd") ∧
  (∀ repoKey name version : string,
     create.buildManifestPath repoKey name version =
       repoKey +:+ "/" +:+ name +:+ "/" +:+ version
         +:+ "/release-bundle.json.evd") ∧
  lifecycle.buildManifestPath "" "rb1" "1.0" =
    "release-bundles-v2/rb1/1.0/release-bundle.json.evd" ∧
  lifecycle.buildManifestPath "proj" "rb1" "1.0" =
    "proj-release-bundles-v2/rb1/1.0/release-bundle.json.evd".
Proof.
  split; [|split; [|split]]; try reflexivity.
Qed.

Section Purity.

Import GoCode.

(** C8: the path builders are pure.  Run as Go code, from any state of the
    package-level variables and of what was printed, and with room for
    the one nested call, a call of [buildRepoKey] or [buildManifestPath]
    returns and leaves the state exactly as it was; the string it returns
    is the one the arguments determine, so two calls with identical
    arguments give identical strings, in whatever states they are
    made. *)
Theorem path_builders_pure (fuel fuel' : nat) (st st' : state)
    (project name version : string) :
  2 ≤ fuel → 2 ≤ fuel' →
  call package fuel "buildRepoKey" [VString project] st =
    Returns (VString (lifecycle.buildRepoKey project), st) ∧
  call package fuel' "buildRepoKey" [VString project] st' =
    Returns (VString (lifecycle.buildRepoKey project), st') ∧
  call package fuel "buildManifestPath"
       [VString project; VString name; VString version] st =
    Returns (VString (lifecycle.buildManifestPath project name version), st) ∧
  call package fuel' "buildManifestPath"
       [VString project; VString name; VString version] st' =
    Returns (VString (lifecycle.buildManifestPath project name version), st').
Proof.
  assert (Hkey : ∀ n s, call package (S n) "buildRepoKey" [VString project] s =
                        Returns (VString (lifecycle.buildRepoKey project), s)).
  { intros n s. unfold lifecycle.buildRepoKey. cbn.
    destruct (String.eqb project ""); [reflexivity|].
    destruct (String.eqb project "default"); reflexivity. }
  assert (Hpath : ∀ n s, call package (S (S n)) "buildManifestPath"
                           [VString project; VString name; VString version] s =
                         Returns (VString (lifecycle.buildManifestPath project name version), s)).
  { intros n s. unfold lifecycle.buildManifestPath, lifecycle.buildRepoKey. cbn.
    destruct (String.eqb project ""); [reflexivity|].
    destruct (String.eqb project "default"); reflexivity. }
  intros Hfuel Hfuel'.
  destruct fuel as [|[|fuel]]; [lia..|]. destruct fuel' as [|[|fuel']]; [lia..|].
  rewrite !Hkey, !Hpath. done.
Qed.

End Purity.

Lemma path_builders_pure_witness :
  GoCode.call GoCode.package 2 "buildManifestPath"
    [GoCode.VString "proj"; GoCode.VString "rb1"; GoCode.VString "1.0"] samples.some_state =
    Returns (GoCode.VString "proj-release-bundles-v2/rb1/1.0/release-bundle.json.evd",
             samples.some_state).
Proof.
  apply (path_builders_pure 2 2 samples.some_state samples.some_state "proj" "rb1" "1.0"); lia.
Defined.

(** ** Distribution rules *)

Section DistributionRules.

Import lifecycle.

Lemma aggregate_loop (rules : list spec.DistributionRule)
    (acc : list distribution.DistributionCommonParams) :
  fold_left
    (fun aggregatedRules rules =>
       aggregatedRules ++ [spec.ToDistributionCommonParams rules])
    rules acc
  = acc ++ map spec.ToDistributionCommonParams rules.
Proof.
  revert acc. induction rules as [|r rules IH]; intros acc; cbn.
  - by rewrite app_nil_r.
  - by rewrite IH, <- app_assoc.
Qed.

Lemma isDistributionRulesEmpty_iff (distributionRules : option spec.DistributionRules) :
  isDistributionRulesEmpty distributionRules = true ↔
  no_distribution_rules distributionRules.
Proof.
  unfold no_distribution_rules. destruct distributionRules as [[rules]|]; cbn.
  - destruct rules as [|r [|r' rules]]; cbn; split.
    + intros _. right. eexists. split; [done|]. by left.
    + done.
    + intros Hr. right. eexists. split; [done|]. right. by exists r.
    + intros [? | (dr & [= <-] & [? | (r0 & [= <-] & Hr)])]; done.
    + done.
    + intros [? | (dr & [= <-] & [? | (r0 & ? & _)])]; done.
  - split; [by left | done].
Qed.

End DistributionRules.

(** C9: for every distribution-rules input, empty rules (nil pointer, zero
    rules, or one rule that is itself empty) aggregate to the single rule
    for all edges, site name "*"; any other input aggregates to one rule
    per input rule, in the input's order.  The function returns in both
    cases. *)
Theorem getAggregatedDistRules_spec
    (distributionRules : option spec.DistributionRules) :
  (no_distribution_rules distributionRules →
   lifecycle.getAggregatedDistRules distributionRules = Returns [all_edges]) ∧
  (¬ no_distribution_rules distributionRules →
   ∃ dr, distributionRules = Some dr ∧
         lifecycle.getAggregatedDistRules distributionRules =
           Returns (map spec.ToDistributionCommonParams (spec.Rules dr))).
Proof.
  unfold lifecycle.getAggregatedDistRules.
  destruct (lifecycle.isDistributionRulesEmpty distributionRules) eqn:He.
  - split; [done|]. intros Hn. by apply isDistributionRulesEmpty_iff in He.
  - split.
    + intros Hy. apply isDistributionRulesEmpty_iff in Hy. congruence.
    + intros _. destruct distributionRules as [dr|]; [|done].
      exists dr. split; [done|]. by rewrite aggregate_loop.
Qed.

Lemma getAggregatedDistRules_spec_witness :
  lifecycle.getAggregatedDistRules None = Returns [all_edges] ∧
  ∃ dr, Some samples.two_rules = Some dr ∧
        lifecycle.getAggregatedDistRules (Some samples.two_rules) =
          Returns (map spec.ToDistributionCommonParams (spec.Rules dr)).
Proof.
  split.
  - apply (proj1 (getAggregatedDistRules_spec None)). by left.
  - apply (proj2 (getAggregatedDistRules_spec (Some samples.two_rules))).
    intros [Hnil | (dr & [= <-] & [Hzero | (rule & Hone & _)])]; discriminate.
Defined.

Example getAggregatedDistRules_two_rules :
  lifecycle.getAggregatedDistRules (Some samples.two_rules) =
    Returns [ {| distribution.SiteName := "edge-1"; distribution.CityName := "";
                 distribution.CountryCodes := [] |};
              {| distribution.SiteName := ""; distribution.CityName := "";
                 distribution.CountryCodes := ["DE"] |} ].
Proof. reflexivity. Qed.

(** ** Reading one half of a key pair *)

(** C5: when [LoadKey] succeeds on the file content and the private half
    of the key pair is the empty string, [ReadKey] returns a nil key with
    a nil error; so does [ReadPublicKey] when the public half is empty.
    The absent half is not reported as an error. *)
Theorem ReadKey_absent_half
    (LoadKey : list Byte.byte -> option cryptox.SSLibKey * error)
    (fileContent : list Byte.byte) (slibKey : cryptox.SSLibKey) :
  LoadKey fileContent = (Some slibKey, nil) →
  (cryptox.Private (cryptox.KeyVal slibKey) = "" →
   cryptox.ReadKey LoadKey fileContent = Returns (None, nil)) ∧
  (cryptox.Public (cryptox.KeyVal slibKey) = "" →
   cryptox.ReadPublicKey LoadKey fileContent = Returns (None, nil)).
Proof.
  intros Hload. unfold cryptox.ReadKey, cryptox.ReadPublicKey.
  rewrite Hload. cbn. split; intros ->; reflexivity.
Qed.

Lemma ReadKey_absent_half_witness :
  cryptox.ReadKey (samples.load samples.public_only) [] = Returns (None, nil) ∧
  cryptox.ReadPublicKey (samples.load samples.private_only) [] = Returns (None, nil).
Proof.
  split.
  - apply (ReadKey_absent_half (samples.load samples.public_only) []
             samples.public_only); reflexivity.
  - apply (ReadKey_absent_half (samples.load samples.private_only) []
             samples.private_only); reflexivity.
Defined.

Example ReadKey_present_half :
  cryptox.ReadKey (samples.load samples.private_only) [] =
    Returns (Some samples.private_only, nil).
Proof. reflexivity. Qed.

Section SubjectResolution.

Import cli components coreConfig.
Context {names : Names}.

(** The subject flags that carry a value, in the order of [subjectTypes]. *)
Lemma found_loop (c : Context) (keys acc : list string) :
  fold_left
    (fun foundSubjects key =>
       if negb (String.eqb (GetStringFlagValue c key) "")
       then foundSubjects ++ [key]
       else foundSubjects)
    keys acc
  = acc ++ filter (λ key, GetStringFlagValue c key ≠ "") keys.
Proof.
  revert acc. induction keys as [|k keys IH]; intros acc.
  - cbn. by rewrite app_nil_r.
  - cbn [fold_left]. rewrite IH, filter_cons.
    destruct (String.eqb_spec (GetStringFlagValue c k) "") as [He|He]; cbn [negb].
    + by rewrite decide_False by (intros ?; done).
    + by rewrite decide_True, <- app_assoc by done.
Qed.

Lemma two_found {A} (P : A → Prop) `{!∀ x, Decision (P x)} (l : list A) (a b : A) :
  a ∈ l → b ∈ l → a ≠ b → P a → P b → 2 ≤ length (filter P l).
Proof.
  intros Ha Hb Hab HPa HPb.
  assert (Hin : ∀ x, x ∈ l → P x → x ∈ filter P l) by (intros; by apply list_elem_of_filter).
  pose proof (Hin a Ha HPa) as Ha'. pose proof (Hin b Hb HPb) as Hb'.
  destruct (filter P l) as [|x [|y l']]; cbn; [|  | lia].
  - by apply elem_of_nil in Ha'.
  - apply list_elem_of_singleton in Ha', Hb'. congruence.
Qed.

Lemma getAndValidateSubject_found (w : World) :
  let found := filter (λ key, GetStringFlagValue (ctx w) key ≠ "") subjectTypes in
  found ≠ [] →
  getAndValidateSubject w =
    Returns (match found with
             | [subject] => (subject, nil)
             | _ => ("", CheckErrorf "multiple subjects found: [%s]" [Join found ", "])
             end, w).
Proof.
  intros found Hne. unfold getAndValidateSubject.
  unfold mbind, M_bind, bind, getCtx. rewrite found_loop. cbn [app].
  fold found. destruct found as [|x [|y l]]; [done| |]; reflexivity.
Qed.

(** C1: when two different subject flags carry a non-empty value, subject
    resolution fails with the "multiple subjects found" error, whose
    message lists the flags that carry a value, so that every one of them
    shows in it; the subject returned is the empty string and the state
    is as it was. *)
Theorem getAndValidateSubject_ambiguous (w : World) (f1 f2 : string) :
  f1 ∈ subjectTypes → f2 ∈ subjectTypes → f1 ≠ f2 →
  GetStringFlagValue (ctx w) f1 ≠ "" → GetStringFlagValue (ctx w) f2 ≠ "" →
  ∃ msg,
    getAndValidateSubject w = Returns (("", Some msg), w) ∧
    msg = "multiple subjects found: [" +:+
          Join (filter (λ f, GetStringFlagValue (ctx w) f ≠ "") subjectTypes) ", " +:+ "]" ∧
    (∀ f, f ∈ subjectTypes → GetStringFlagValue (ctx w) f ≠ "" →
          ∃ pre post, msg = pre +:+ f +:+ post).
Proof.
  intros Hf1 Hf2 Hne Hv1 Hv2.
  pose proof (two_found (λ f, GetStringFlagValue (ctx w) f ≠ "") subjectTypes f1 f2
                Hf1 Hf2 Hne Hv1 Hv2) as Htwo.
  pose proof (getAndValidateSubject_found w) as Hrun. cbn zeta in Hrun.
  set (found := filter _ subjectTypes) in *.
  eexists. split; [|split; [reflexivity|]].
  - rewrite Hrun by (intros Hnil; rewrite Hnil in Htwo; cbn in Htwo; lia).
    destruct found as [|x [|y l]]; cbn in Htwo; try lia.
    reflexivity.
  - intros f Hf Hv.
    assert (Hin : f ∈ found) by (by apply list_elem_of_filter).
    destruct (Join_shows found ", " f Hin) as (pre & post & Heq).
    exists ("multiple subjects found: [" +:+ pre), (post +:+ "]").
    by rewrite Heq, !app_assoc_s.
Qed.

Lemma setBuildValue_run (flag envVar : string) (w : World) :
  setBuildValue flag envVar w =
    Returns
      (if IsFlagSet (ctx w) flag then (true, w)
       else if negb (String.eqb (default "" (env w !! envVar)) "")
            then (true, {| ctx := AddStringFlag (ctx w) flag (default "" (env w !! envVar));
                           env := env w; calls := calls w |})
            else (false, w)).
Proof.
  unfold setBuildValue, mbind, M_bind, bind, getCtx, Getenv.
  destruct (IsFlagSet (ctx w) flag); [done|].
  by destruct (negb _).
Qed.

Lemma IsFlagSet_AddStringFlag (c : Context) (k v f : string) :
  IsFlagSet (AddStringFlag c k v) f = if decide (k = f) then true else IsFlagSet c f.
Proof.
  unfold IsFlagSet, AddStringFlag; cbn. rewrite lookup_insert.
  by case_decide.
Qed.

Lemma getAndValidateSubject_none (w : World) :
  filter (λ key, GetStringFlagValue (ctx w) key ≠ "") subjectTypes = [] →
  getAndValidateSubject w =
    match attemptSetBuildNameAndNumber w with
    | Returns (true, w') => Returns ((buildName, nil), w')
    | Returns (false, w') =>
        Returns (("", CheckErrorf "subject must be one of the fields: [%s]"
                                  [Join subjectTypes ", "]), w')
    | Panics => Panics
    end.
Proof.
  intros Hnone. unfold getAndValidateSubject.
  unfold mbind, M_bind, bind, getCtx. rewrite found_loop, Hnone. cbn [app length Nat.eqb].
  destruct (attemptSetBuildNameAndNumber w) as [[[|] w']|]; reflexivity.
Qed.

(** C2, amended: when no subject flag carries a value, resolution falls
    back to the build name and number.  A value is obtainable when its
    flag is set, be it to the empty value, or its environment variable is
    not empty.  The subject is the build-name flag exactly when both are
    obtainable; otherwise resolution fails with the error that lists the
    subject fields.  Either way a flag that was not set has taken the
    non-empty value of its environment variable and nothing else has
    changed: on success the build name and the build number of the
    context are the flags' own values where the flags were set and the
    environment's values elsewhere, and neither is empty unless a flag
    was set to the empty value.  The build-name and build-number flags
    have different names. *)
Theorem getAndValidateSubject_fallback (w : World) :
  buildName ≠ buildNumber →
  (∀ f, f ∈ subjectTypes → GetStringFlagValue (ctx w) f = "") →
  ∃ result w',
    getAndValidateSubject w = Returns (result, w') ∧
    env w' = env w ∧ calls w' = calls w ∧
    ctx w' = filled_from (env w) (filled_from (env w) (ctx w) buildName BuildName)
               buildNumber BuildNumber ∧
    (obtainable w buildName BuildName ∧ obtainable w buildNumber BuildNumber →
     result = (buildName, nil) ∧
     IsFlagSet (ctx w') buildName = true ∧ IsFlagSet (ctx w') buildNumber = true ∧
     GetStringFlagValue (ctx w') buildName =
       (if IsFlagSet (ctx w) buildName then GetStringFlagValue (ctx w) buildName
        else default "" (env w !! BuildName)) ∧
     GetStringFlagValue (ctx w') buildNumber =
       (if IsFlagSet (ctx w) buildNumber then GetStringFlagValue (ctx w) buildNumber
        else default "" (env w !! BuildNumber)) ∧
     ((IsFlagSet (ctx w) buildName = true → GetStringFlagValue (ctx w) buildName ≠ "") →
      (IsFlagSet (ctx w) buildNumber = true → GetStringFlagValue (ctx w) buildNumber ≠ "") →
      GetStringFlagValue (ctx w') buildName ≠ "" ∧
      GetStringFlagValue (ctx w') buildNumber ≠ "")) ∧
    (¬ (obtainable w buildName BuildName ∧ obtainable w buildNumber BuildNumber) →
     result = ("", Some ("subject must be one of the fields: [" +:+
                         Join subjectTypes ", " +:+ "]"))).
Proof.
  intros Hdistinct Hzero.
  rewrite getAndValidateSubject_none; cycle 1.
  { destruct (filter _ subjectTypes) as [|f l] eqn:Hf; [done|].
    assert (Hin : f ∈ filter (λ key, GetStringFlagValue (ctx w) key ≠ "") subjectTypes)
      by (rewrite Hf; left).
    apply list_elem_of_filter in Hin as [Hv Hin]. by apply Hzero in Hin. }
  assert (Hget : ∀ c k v f, GetStringFlagValue (AddStringFlag c k v) f =
                            if decide (k = f) then v else GetStringFlagValue c f).
  { intros c k v f. unfold GetStringFlagValue, AddStringFlag; cbn.
    rewrite lookup_insert. by case_decide. }
  unfold attemptSetBuildNameAndNumber, mbind, M_bind, bind, mret, M_ret, ret.
  rewrite setBuildValue_run. unfold obtainable, filled_from.
  destruct (IsFlagSet (ctx w) buildName) eqn:Hname;
    [|destruct (String.eqb_spec (default "" (env w !! BuildName)) "") as [He|He]];
    cbn [negb]; rewrite setBuildValue_run; cbn [ctx env calls];
    rewrite ?IsFlagSet_AddStringFlag, ?decide_False by done;
    (destruct (IsFlagSet (ctx w) buildNumber) eqn:Hnumber;
     [|destruct (String.eqb_spec (default "" (env w !! BuildNumber)) "") as [He'|He']]);
    cbn [negb andb]; do 2 eexists; (split; [reflexivity|]); cbn [ctx env calls];
    rewrite ?Hname, ?Hnumber, ?Hget, ?IsFlagSet_AddStringFlag, ?Hget,
      ?decide_True, ?decide_False by done;
    rewrite ?Hname, ?Hnumber.
  all: repeat case_decide; intuition (try done; try congruence).
Qed.

End SubjectResolution.

Section Validation.

Import cli components coreConfig.
Context {names : Names} {platform : Platform}.

Lemma ShowCmdHelpIfNeeded_not_requested (args : list string) (w : World) :
  ¬ help_requested args → ShowCmdHelpIfNeeded args w = Returns ((false, nil), w).
Proof.
  unfold help_requested. intros Hno.
  destruct args as [|a [|b args]]; try reflexivity. cbn.
  destruct (String.eqb_spec a "--help") as [->|_]; [tauto|].
  destruct (String.eqb_spec a "-h") as [->|_]; [tauto|]. reflexivity.
Qed.

Lemma WrongNumberOfArgumentsHandler_fails (w : World) :
  ∃ msg, WrongNumberOfArgumentsHandler w =
           Returns (Some msg, {| ctx := ctx w; env := env w;
                                 calls := calls w ++ [CallPrintCommandHelp (CommandName (ctx w))] |}).
Proof.
  unfold WrongNumberOfArgumentsHandler, PrintHelpAndReturnError, printCommandHelp,
    mbind, M_bind, bind, mret, M_ret, ret, getCtx, record. cbn.
  destruct (PrintCommandHelp (ctx w) (CommandName (ctx w))); eexists; reflexivity.
Qed.

Lemma is_err_assertValueProvided (c : Context) (fieldName : string) :
  is_err (assertValueProvided c fieldName) = String.eqb (GetStringFlagValue c fieldName) "".
Proof. unfold assertValueProvided. by destruct (String.eqb _ _). Qed.

Lemma missing_test (c : Context) (flag : string) :
  negb (IsFlagSet c flag) || is_err (assertValueProvided c flag) = true ↔ missing c flag.
Proof.
  rewrite is_err_assertValueProvided, orb_true_iff, negb_true_iff, String.eqb_eq. done.
Qed.

Lemma ensureKeyExists_run (flag : string) (w : World) :
  ensureKeyExists flag w =
    Returns
      (if IsFlagSet (ctx w) flag && negb (String.eqb (GetStringFlagValue (ctx w) flag) "")
       then (nil, w)
       else if String.eqb (default "" (env w !! SigningKey)) ""
            then (CheckErrorf
                    "JFROG_CLI_SIGNING_KEY env variable or --%s flag must be provided when creating evidence"
                    [flag], w)
            else (nil, {| ctx := AddStringFlag (ctx w) flag (default "" (env w !! SigningKey));
                          env := env w; calls := calls w |})).
Proof.
  unfold ensureKeyExists, getEnvVariable, LookupEnv, addStringFlag,
    mbind, M_bind, bind, mret, M_ret, ret, getCtx.
  rewrite is_err_assertValueProvided.
  destruct (IsFlagSet (ctx w) flag && _); [done|].
  destruct (env w !! SigningKey) as [v|]; cbn; [|done].
  by destruct (String.eqb v "").
Qed.

Lemma validate_run (w : World) :
  ¬ help_requested (Arguments (ctx w)) →
  validateCreateEvidenceCommonContext w =
    if (1 <? length (Arguments (ctx w)))%nat then WrongNumberOfArgumentsHandler w
    else if negb (IsFlagSet (ctx w) predicate) || is_err (assertValueProvided (ctx w) predicate)
    then Returns (CheckErrorf "'predicate' is a mandatory field for creating evidence: --%s"
                              [predicate], w)
    else if negb (IsFlagSet (ctx w) predicateType) || is_err (assertValueProvided (ctx w) predicateType)
    then Returns (CheckErrorf "'predicate-type' is a mandatory field for creating evidence: --%s"
                              [predicateType], w)
    else match ensureKeyExists key w with
         | Returns (Some msg, w') => Returns (Some msg, w')
         | Returns (None, w') =>
             if negb (IsFlagSet (ctx w') keyAlias)
             then match setKeyAliasIfProvided keyAlias w' with
                  | Returns (_, w'') => Returns (nil, w'')
                  | Panics => Panics
                  end
             else Returns (nil, w')
         | Panics => Panics
         end.
Proof.
  intros Hno. unfold validateCreateEvidenceCommonContext.
  unfold mbind at 1, M_bind at 1, bind at 1, getCtx at 1.
  unfold mbind at 1, M_bind at 1, bind at 1.
  rewrite ShowCmdHelpIfNeeded_not_requested by done. cbn [orb is_err nil].
  destruct (1 <? _)%nat; [done|].
  destruct (negb (IsFlagSet (ctx w) predicate) || _); [done|].
  destruct (negb (IsFlagSet (ctx w) predicateType) || _); [done|].
  unfold mbind, M_bind, bind, mret, M_ret, ret, getCtx.
  destruct (ensureKeyExists key w) as [[[msg|] w']|]; cbn; try done.
  destruct (negb (IsFlagSet (ctx w') keyAlias)); [|done].
  by destruct (setKeyAliasIfProvided keyAlias w') as [[[] w'']|].
Qed.

Lemma createEvidence_stops (w w' : World) (msg : string) :
  validateCreateEvidenceCommonContext w = Returns (Some msg, w') →
  createEvidence w = Returns (Some msg, w').
Proof.
  intros Hv. unfold createEvidence.
  unfold mbind at 1, M_bind at 1, bind at 1. by rewrite Hv.
Qed.

Lemma WrongNumberOfArgumentsHandler_run (w : World) :
  WrongNumberOfArgumentsHandler w =
    Returns (Some ("Wrong number of arguments (" +:+ Itoa (length (Arguments (ctx w))) +:+ ")." +:+
                   match PrintCommandHelp (ctx w) (CommandName (ctx w)) with
                   | Some e => ". " +:+ e
                   | None => ""
                   end),
             {| ctx := ctx w; env := env w;
                calls := calls w ++ [CallPrintCommandHelp (CommandName (ctx w))] |}).
Proof.
  unfold WrongNumberOfArgumentsHandler, PrintHelpAndReturnError, printCommandHelp,
    mbind, M_bind, bind, mret, M_ret, ret, getCtx, record. cbn [ctx env calls].
  destruct (PrintCommandHelp (ctx w) (CommandName (ctx w))); unfold errors_New;
    by rewrite ?app_empty_r, ?app_assoc_s.
Qed.

(** C7, amended: for an invocation that is not a help request, a
    predicate or predicate type that is unset or empty makes the
    validation of the common context fail, and [createEvidence] returns
    that error with the context and the environment as they were: the
    command does not proceed.  With at most one argument the error names
    the field (the predicate first) and nothing at all was run; with more
    arguments the error is the one about the number of arguments, after
    the help was printed. *)
Theorem validate_mandatory_predicate (w : World) :
  ¬ help_requested (Arguments (ctx w)) →
  missing (ctx w) predicate ∨ missing (ctx w) predicateType →
  ∃ msg w',
    validateCreateEvidenceCommonContext w = Returns (Some msg, w') ∧
    createEvidence w = Returns (Some msg, w') ∧
    ctx w' = ctx w ∧ env w' = env w ∧
    (length (Arguments (ctx w)) ≤ 1 →
     w' = w ∧
     (missing (ctx w) predicate →
      msg = "'predicate' is a mandatory field for creating evidence: --" +:+ predicate) ∧
     (¬ missing (ctx w) predicate →
      msg = "'predicate-type' is a mandatory field for creating evidence: --" +:+ predicateType)) ∧
    (1 < length (Arguments (ctx w)) →
     calls w' = calls w ++ [CallPrintCommandHelp (CommandName (ctx w))] ∧
     msg = "Wrong number of arguments (" +:+ Itoa (length (Arguments (ctx w))) +:+ ")." +:+
           match PrintCommandHelp (ctx w) (CommandName (ctx w)) with
           | Some e => ". " +:+ e
           | None => ""
           end).
Proof.
  intros Hno Hmissing.
  pose proof (validate_run w Hno) as Hrun.
  destruct (1 <? length (Arguments (ctx w)))%nat eqn:Hlen.
  { rewrite WrongNumberOfArgumentsHandler_run in Hrun. apply Nat.ltb_lt in Hlen.
    do 2 eexists. split; [exact Hrun|]. split; [by apply createEvidence_stops|].
    cbn [ctx env calls]. split; [done|]. split; [done|]. split; [lia|].
    intros _. by split. }
  apply Nat.ltb_ge in Hlen.
  destruct (negb (IsFlagSet (ctx w) predicate) || _) eqn:Hp.
  - apply missing_test in Hp. do 2 eexists. split; [exact Hrun|].
    split; [by apply createEvidence_stops|].
    split; [done|]. split; [done|]. split; [|lia].
    intros _. split; [done|]. split; [intros _|done]. cbn. by rewrite app_empty_r.
  - assert (Hnp : ¬ missing (ctx w) predicate).
    { intros Hm. apply missing_test in Hm. congruence. }
    destruct Hmissing as [Hm|Hm]; [done|].
    apply missing_test in Hm. rewrite Hm in Hrun.
    do 2 eexists. split; [exact Hrun|]. split; [by apply createEvidence_stops|].
    split; [done|]. split; [done|]. split; [|lia].
    intros _. split; [done|]. split; [done|intros _]. cbn. by rewrite app_empty_r.
Qed.


Lemma setKeyAliasIfProvided_run (flag : string) (w : World) :
  setKeyAliasIfProvided flag w =
    Returns (tt,
             if String.eqb (default "" (env w !! KeyAlias)) "" then w
             else {| ctx := AddStringFlag (ctx w) flag (default "" (env w !! KeyAlias));
                     env := env w; calls := calls w |}).
Proof.
  unfold setKeyAliasIfProvided, getEnvVariable, LookupEnv, addStringFlag,
    mbind, M_bind, bind, mret, M_ret, ret.
  destruct (env w !! KeyAlias) as [v|]; cbn; [|done].
  by destruct (String.eqb v "").
Qed.

(** C6, amended: the key check succeeds exactly when the key flag is set
    with a non-empty value or the signing-key variable of the environment
    is not empty, and the key flag of the context then holds that key:
    its own value in the first case, the environment's in the second,
    with nothing else changed; when it fails, nothing has changed.  The
    validation as a whole succeeds under the same condition, and with the
    same key in the context, for an invocation that is not a help
    request, has at most one argument and gives the predicate and its
    type, which are checked first.  When no key is at hand and the
    invocation is not a help request, [createEvidence] fails with an
    error, the context is as it was (no subject was resolved into it) and
    nothing was called but, at most, the help printer. *)
Theorem signing_key_mandatory (w : World) :
  (∃ err w',
     ensureKeyExists key w = Returns (err, w') ∧
     (err = nil ↔ key_available w) ∧
     (err = nil →
      GetStringFlagValue (ctx w') key = signing_key w ∧
      signing_key w ≠ "" ∧
      w' = (if IsFlagSet (ctx w) key && negb (String.eqb (GetStringFlagValue (ctx w) key) "")
            then w
            else {| ctx := AddStringFlag (ctx w) key (default "" (env w !! SigningKey));
                    env := env w; calls := calls w |})) ∧
     (err ≠ nil →
      w' = w ∧
      err = Some ("JFROG_CLI_SIGNING_KEY env variable or --" +:+ key +:+
                  " flag must be provided when creating evidence"))) ∧
  (¬ help_requested (Arguments (ctx w)) →
   length (Arguments (ctx w)) ≤ 1 →
   ¬ missing (ctx w) predicate → ¬ missing (ctx w) predicateType →
   ∃ err w',
     validateCreateEvidenceCommonContext w = Returns (err, w') ∧
     (err = nil ↔ key_available w) ∧
     (err = nil → GetStringFlagValue (ctx w') key = signing_key w ∧ signing_key w ≠ "")) ∧
  (¬ key_available w → ¬ help_requested (Arguments (ctx w)) →
   ∃ msg w',
     createEvidence w = Returns (Some msg, w') ∧
     ctx w' = ctx w ∧ env w' = env w ∧
     (calls w' = calls w ∨
      calls w' = calls w ++ [CallPrintCommandHelp (CommandName (ctx w))])).
Proof.
  assert (Hget : ∀ c k v f, GetStringFlagValue (AddStringFlag c k v) f =
                            if decide (k = f) then v else GetStringFlagValue c f).
  { intros c k v f. unfold GetStringFlagValue, AddStringFlag; cbn.
    rewrite lookup_insert. by case_decide. }
  assert (Hkey : ∃ err w',
     ensureKeyExists key w = Returns (err, w') ∧
     (err = nil ↔ key_available w) ∧
     (err = nil →
      GetStringFlagValue (ctx w') key = signing_key w ∧
      signing_key w ≠ "" ∧
      w' = (if IsFlagSet (ctx w) key && negb (String.eqb (GetStringFlagValue (ctx w) key) "")
            then w
            else {| ctx := AddStringFlag (ctx w) key (default "" (env w !! SigningKey));
                    env := env w; calls := calls w |})) ∧
     (err ≠ nil →
      w' = w ∧
      err = Some ("JFROG_CLI_SIGNING_KEY env variable or --" +:+ key +:+
                  " flag must be provided when creating evidence"))).
  { rewrite ensureKeyExists_run. unfold key_available, signing_key.
    destruct (IsFlagSet (ctx w) key) eqn:Hset; cbn [andb];
      destruct (String.eqb_spec (GetStringFlagValue (ctx w) key) "") as [Hv|Hv]; cbn [negb];
      try (destruct (String.eqb_spec (default "" (env w !! SigningKey)) "") as [He|He]);
      do 2 eexists; (split; [reflexivity|]); cbn [ctx];
      rewrite ?Hget, ?decide_True by done;
      unfold CheckErrorf, errors_New, nil; cbn [Sprintf];
      intuition (try done; try congruence). }
  split; [exact Hkey|]. split.
  - intros Hno Hargs Hp Ht.
    pose proof (validate_run w Hno) as Hv.
    assert (Hlen : (1 <? length (Arguments (ctx w)))%nat = false) by (apply Nat.ltb_ge; lia).
    rewrite Hlen in Hv.
    destruct (negb (IsFlagSet (ctx w) predicate) || _) eqn:Hp';
      [by apply missing_test in Hp'|].
    destruct (negb (IsFlagSet (ctx w) predicateType) || _) eqn:Ht';
      [by apply missing_test in Ht'|].
    destruct Hkey as (err & w1 & Hrun & Hiff & Hok & Hfail).
    rewrite Hrun in Hv. destruct err as [msg|].
    { do 2 eexists. split; [exact Hv|]. split; [|by unfold nil].
      split; [by unfold nil | apply Hiff]. }
    destruct (Hok eq_refl) as (Hvalue & Hne & Hw1).
    assert (Hset1 : IsFlagSet (ctx w1) key = true).
    { rewrite Hw1. destruct (IsFlagSet (ctx w) key) eqn:Hset; cbn [andb].
      - by destruct (negb _); cbn [ctx]; rewrite ?IsFlagSet_AddStringFlag, ?decide_True.
      - cbn [ctx]. by rewrite IsFlagSet_AddStringFlag, decide_True. }
    destruct (negb (IsFlagSet (ctx w1) keyAlias)) eqn:Halias.
    + rewrite setKeyAliasIfProvided_run in Hv.
      do 2 eexists. split; [exact Hv|]. split; [by split; [intros _; apply Hiff|]|].
      intros _. split; [|done].
      destruct (String.eqb (default "" (env w1 !! KeyAlias)) ""); [done|]. cbn [ctx].
      rewrite Hget, decide_False; [done|].
      intros Heq. rewrite Heq, Hset1 in Halias. done.
    + do 2 eexists. split; [exact Hv|]. split; [by split; [intros _; apply Hiff|]|].
      intros _. by split.
  - intros Hnokey Hno. destruct Hkey as (err & w1 & Hrun & Hiff & _ & Hsame).
    assert (Herr : err ≠ nil) by (intros ->; by apply Hnokey, Hiff).
    destruct (Hsame Herr) as [-> _]. destruct err as [msg|]; [|done].
    pose proof (validate_run w Hno) as Hv. rewrite Hrun in Hv.
    destruct (1 <? _)%nat.
    { destruct (WrongNumberOfArgumentsHandler_fails w) as [m Hm]. rewrite Hm in Hv.
      apply createEvidence_stops in Hv. do 2 eexists. split; [exact Hv|]. cbn. auto. }
    destruct (negb (IsFlagSet (ctx w) predicate) || _);
      [|destruct (negb (IsFlagSet (ctx w) predicateType) || _)];
      apply createEvidence_stops in Hv; do 2 eexists; (split; [exact Hv|]); auto.
Qed.

End Validation.


Section ServerDetails.
Import cli components coreConfig.
Context {platform : Platform}.

(** C10: for a server configuration the platform resolves, an empty
    platform URL is an error, a user together with a password is an error
    (the one about basic authentication when the URL is not empty), and
    otherwise the details come back as they were resolved, with the
    Artifactory, Evidence and Metadata URLs set to the platform URL,
    closed by one slash, followed by "artifactory/", "evidence/" and
    "metadata/": a URL that ends in a slash gets none added.  The
    resolution of the server is the one call made. *)
Theorem evidenceDetailsByFlags_spec (w : World) (resolved : ServerDetails) :
  CreateServerDetailsWithConfigOffer (ctx w) true PlatformDomain = (Some resolved, nil) →
  ∃ result,
    evidenceDetailsByFlags w =
      Returns (result, {| ctx := ctx w; env := env w;
                          calls := calls w ++ [CallCreateServerDetails] |}) ∧
    (Url resolved = "" →
     result = (None, Some "platform URL is mandatory for evidence commands")) ∧
    (User resolved ≠ "" → Password resolved ≠ "" →
     ∃ msg, result = (None, Some msg)) ∧
    (Url resolved ≠ "" → User resolved ≠ "" → Password resolved ≠ "" →
     result = (None, Some "evidence service does not support basic authentication")) ∧
    (Url resolved ≠ "" → ¬ (User resolved ≠ "" ∧ Password resolved ≠ "") →
     ∃ details,
       result = (Some details, nil) ∧
       Url details = Url resolved ∧ User details = User resolved ∧
       Password details = Password resolved ∧ AccessToken details = AccessToken resolved ∧
       ((∃ p, Url resolved = p +:+ "/") →
        ArtifactoryUrl details = Url resolved +:+ "artifactory/" ∧
        EvidenceUrl details = Url resolved +:+ "evidence/" ∧
        MetadataUrl details = Url resolved +:+ "metadata/") ∧
       (¬ (∃ p, Url resolved = p +:+ "/") →
        ArtifactoryUrl details = Url resolved +:+ "/artifactory/" ∧
        EvidenceUrl details = Url resolved +:+ "/evidence/" ∧
        MetadataUrl details = Url resolved +:+ "/metadata/")).
Proof.
  intros Hresolved.
  unfold evidenceDetailsByFlags, mbind, M_bind, bind, mret, M_ret, ret, getCtx, record.
  cbn [ctx]. rewrite Hresolved. cbn [is_err nil].
  destruct (String.eqb_spec (Url resolved) "") as [Hu|Hu].
  { eexists. split; [reflexivity|]. repeat split; try done. eauto. }
  unfold GetUser, GetPassword, platformToEvidenceUrls. cbn [User Password].
  assert (Hurls : ∀ service,
    ((∃ p, Url resolved = p +:+ "/") →
     clientUtils.AddTrailingSlashIfNeeded (Url resolved) +:+ service =
       Url resolved +:+ service) ∧
    (¬ (∃ p, Url resolved = p +:+ "/") →
     clientUtils.AddTrailingSlashIfNeeded (Url resolved) +:+ service =
       Url resolved +:+ String "/" service)).
  { intros service. unfold clientUtils.AddTrailingSlashIfNeeded.
    apply String.eqb_neq in Hu. rewrite Hu. cbn [negb andb].
    destruct (HasSuffix (Url resolved) "/") eqn:Hs; cbn [negb].
    - split; [done|]. intros Hn. apply HasSuffix_iff in Hs. done.
    - split; [|intros _; by rewrite app_assoc_s].
      intros Hp. apply HasSuffix_iff in Hp. congruence. }
  destruct (String.eqb_spec (User resolved) "") as [Hn|Hn];
    [|destruct (String.eqb_spec (Password resolved) "") as [Hp|Hp]]; cbn [negb andb];
    eexists; (split; [reflexivity|]);
    (split; [done|]); (split; [try done; eauto|]); (split; [try done|]).
  all: try (intros _ Hboth; exfalso; apply Hboth; done).
  all: intros _ _; eexists; (split; [reflexivity|]); cbn;
    repeat (split; [reflexivity|]); split; intros Hs; repeat split; by apply Hurls.
Qed.

End ServerDetails.

(** ** The properties on the sample inputs *)

Lemma getAndValidateSubject_ambiguous_witness :
  cli.getAndValidateSubject (names := samples.names) samples.ambiguous_world =
    Returns (("", Some "multiple subjects found: [release-bundle, build-name]"),
             samples.ambiguous_world).
Proof.
  destruct (getAndValidateSubject_ambiguous (names := samples.names)
              samples.ambiguous_world "release-bundle" "build-name")
    as (msg & Hrun & Hmsg & _).
  - vm_compute. apply list_elem_of_In. simpl. tauto.
  - vm_compute. apply list_elem_of_In. simpl. tauto.
  - discriminate.
  - vm_compute. discriminate.
  - vm_compute. discriminate.
  - rewrite Hrun, Hmsg. vm_compute. reflexivity.
Defined.

Lemma getAndValidateSubject_fallback_witness :
  ∃ w', cli.getAndValidateSubject (names := samples.names) samples.fallback_world =
          Returns (("build-name", nil), w') ∧
        components.GetStringFlagValue (cli.ctx w') "build-name" = "b" ∧
        components.GetStringFlagValue (cli.ctx w') "build-number" = "1".
Proof.
  destruct (getAndValidateSubject_fallback (names := samples.names) samples.fallback_world)
    as (result & w' & Hrun & _ & _ & _ & Hyes & _).
  - discriminate.
  - intros f Hf. apply list_elem_of_In in Hf. simpl in Hf.
    destruct Hf as [<- | [<- | [<- | [<- | []]]]]; reflexivity.
  - destruct Hyes as (-> & _ & _ & Hname & Hnumber & _).
    + split; right; vm_compute; discriminate.
    + exists w'. split; [exact Hrun|]. split; [exact Hname | exact Hnumber].
Defined.

Lemma validate_mandatory_predicate_witness :
  cli.validateCreateEvidenceCommonContext (names := samples.names) samples.no_predicate_world =
    Returns (Some "'predicate' is a mandatory field for creating evidence: --predicate",
             samples.no_predicate_world).
Proof.
  destruct (validate_mandatory_predicate (names := samples.names) (platform := samples.platform)
              samples.no_predicate_world)
    as (msg & w' & Hrun & _ & _ & _ & Hone & _).
  - intros [Hh | Hh]; discriminate Hh.
  - left. left. reflexivity.
  - destruct Hone as (Hw & Hmsg & _); [simpl; lia|].
    rewrite Hrun, Hw, Hmsg; [reflexivity|]. left. reflexivity.
Defined.

Lemma signing_key_mandatory_witness :
  ∃ msg w',
    cli.createEvidence (names := samples.names) (platform := samples.platform)
      samples.no_key_world = Returns (Some msg, w') ∧
    cli.ctx w' = cli.ctx samples.no_key_world.
Proof.
  destruct (proj2 (proj2 (signing_key_mandatory (names := samples.names)
                            (platform := samples.platform) samples.no_key_world)))
    as (msg & w' & Hrun & Hctx & _).
  - intros [[Hset _] | Henv]; [discriminate Hset | by apply Henv].
  - intros [Hh | Hh]; discriminate Hh.
  - exists msg, w'. split; [exact Hrun | exact Hctx].
Defined.

Example createEvidence_no_key :
  cli.createEvidence (names := samples.names) (platform := samples.platform)
    samples.no_key_world =
    Returns (Some "JFROG_CLI_SIGNING_KEY env variable or --key flag must be provided when creating evidence",
             samples.no_key_world).
Proof. vm_compute. reflexivity. Qed.

Lemma evidenceDetailsByFlags_spec_witness :
  ∃ details w',
    cli.evidenceDetailsByFlags (platform := samples.platform) (samples.world [] [] []) =
      Returns ((Some details, nil), w') ∧
    coreConfig.ArtifactoryUrl details = "https://acme.example.io/artifactory/" ∧
    coreConfig.EvidenceUrl details = "https://acme.example.io/evidence/" ∧
    coreConfig.MetadataUrl details = "https://acme.example.io/metadata/".
Proof.
  destruct (evidenceDetailsByFlags_spec (platform := samples.platform)
              (samples.world [] [] []) samples.server)
    as (result & Hrun & _ & _ & _ & Hok).
  - reflexivity.
  - destruct Hok as (details & -> & _ & _ & _ & _ & _ & Hplain).
    + discriminate.
    + intros [Hu _]. apply Hu. reflexivity.
    + destruct Hplain as (Ha & He & Hm).
      * intros [p Hp]. apply (f_equal (λ s, HasSuffix s "/")) in Hp.
        rewrite (proj2 (HasSuffix_iff (p +:+ "/") "/")) in Hp by (by exists p).
        vm_compute in Hp. discriminate Hp.
      * do 2 eexists. split; [exact Hrun|]. rewrite Ha, He, Hm. repeat split.
Defined.

Example evidenceDetailsByFlags_sample :
  ∃ details w',
    cli.evidenceDetailsByFlags (platform := samples.platform) (samples.world [] [] []) =
      Returns ((Some details, nil), w') ∧
    coreConfig.ArtifactoryUrl details = "https://acme.example.io/artifactory/" ∧
    coreConfig.EvidenceUrl details = "https://acme.example.io/evidence/" ∧
    coreConfig.MetadataUrl details = "https://acme.example.io/metadata/".
Proof. do 2 eexists. split; [vm_compute; reflexivity|]. repeat split. Qed.

(** C2, as stated, fails when the build-name flag is set to the empty
    value: neither the flag nor the environment gives a build name, and
    yet the subject is resolved to the build name, which is empty. *)
Lemma empty_build_name_is_accepted :
  (∀ f, f ∈ cli.subjectTypes (names := samples.names) →
        components.GetStringFlagValue (cli.ctx samples.empty_build_name_world) f = "") ∧
  ¬ has_value samples.empty_build_name_world "build-name" "BUILD_NAME" ∧
  ∃ w',
    cli.getAndValidateSubject (names := samples.names) samples.empty_build_name_world =
      Returns (("build-name", nil), w') ∧
    components.GetStringFlagValue (cli.ctx w') "build-name" = "".
Proof.
  split.
  { intros f Hf. apply list_elem_of_In in Hf. simpl in Hf.
    destruct Hf as [<- | [<- | [<- | [<- | []]]]]; reflexivity. }
  split.
  { intros [Hflag | Henv]; [by apply Hflag | by apply Henv]. }
  eexists. split; [vm_compute; reflexivity | reflexivity].
Qed.

(** C6, as stated, fails on a help request: with no key flag and no
    signing key in the environment, validation returns no error, and the
    command goes on to resolve the subject from the environment, resolve
    the server and run the build evidence command.  And with a key at
    hand validation still fails when the predicate is missing or there
    are two arguments, which are checked before the key. *)
Lemma help_request_skips_key_check :
  (¬ key_available (names := samples.names) samples.help_world ∧
   ∃ w',
     cli.createEvidence (names := samples.names) (platform := samples.platform) samples.help_world =
       Returns (nil, w') ∧
     components.GetStringFlagValue (cli.ctx w') "build-name" = "b" ∧
     cli.calls w' = [cli.CallPrintCommandHelp "create-evidence";
                     cli.CallCreateServerDetails;
                     cli.CallCreateEvidence cli.EvidenceBuildCommand]) ∧
  (key_available (names := samples.names) samples.key_without_predicate_world ∧
   cli.validateCreateEvidenceCommonContext (names := samples.names)
     samples.key_without_predicate_world =
     Returns (Some "'predicate' is a mandatory field for creating evidence: --predicate",
              samples.key_without_predicate_world)) ∧
  (key_available (names := samples.names) samples.key_two_arguments_world ∧
   ∃ w',
     cli.validateCreateEvidenceCommonContext (names := samples.names)
       samples.key_two_arguments_world =
       Returns (Some "Wrong number of arguments (2).", w')).
Proof.
  split; [split|split; split].
  - intros [[Hset _] | Henv]; [discriminate Hset | by apply Henv].
  - eexists. split; [vm_compute; reflexivity|]. split; reflexivity.
  - left. split; [reflexivity | discriminate].
  - vm_compute. reflexivity.
  - left. split; [reflexivity | discriminate].
  - eexists. vm_compute. reflexivity.
Qed.

(** C7, as stated, fails on a help request, where validation returns no
    error although the predicate is missing, and on two arguments, where
    the error is about the number of arguments. *)
Lemma predicate_check_comes_third :
  missing (cli.ctx samples.short_help_world) "predicate" ∧
  (∃ w', cli.validateCreateEvidenceCommonContext (names := samples.names)
           samples.short_help_world = Returns (nil, w')) ∧
  missing (cli.ctx samples.two_arguments_world) "predicate" ∧
  (∃ w', cli.validateCreateEvidenceCommonContext (names := samples.names)
           samples.two_arguments_world =
         Returns (Some "Wrong number of arguments (2).", w')).
Proof.
  split; [by left|]. split; [eexists; vm_compute; reflexivity|].
  split; [by left|]. eexists; vm_compute; reflexivity.
Qed.

Section ContextInvariant.

Import cli components coreConfig.
Context {names : Names} {platform : Platform}.

Lemma keeps_refl (c : Context) : keeps_given_values c c.
Proof. by repeat split. Qed.

Lemma keeps_trans (c1 c2 c3 : Context) :
  keeps_given_values c1 c2 → keeps_given_values c2 c3 → keeps_given_values c1 c3.
Proof.
  intros (Ha & Hn & Hb & Hs & Hv) (Ha' & Hn' & Hb' & Hs' & Hv').
  repeat split; try congruence; [auto|].
  intros f Hf. rewrite Hv', Hv; try done. by rewrite Hv.
Qed.

Lemma keeps_AddStringFlag (c : Context) (k v : string) :
  GetStringFlagValue c k = "" → keeps_given_values c (AddStringFlag c k v).
Proof.
  intros Hk. repeat split.
  - intros f Hf. rewrite IsFlagSet_AddStringFlag. by case_decide.
  - intros f Hf. unfold GetStringFlagValue, AddStringFlag; cbn.
    rewrite lookup_insert_ne; [done|]. intros ->. done.
Qed.

Lemma unset_no_value (c : Context) (f : string) :
  IsFlagSet c f = false → GetStringFlagValue c f = "".
Proof.
  unfold IsFlagSet, GetStringFlagValue. by destruct (stringFlags c !! f).
Qed.

Lemma preserves_ret {A} (a : A) : preserves (mret a).
Proof. intros w a' w' Hrun. cbv in Hrun. simplify_eq. split; [apply keeps_refl | done]. Qed.

Lemma preserves_bind {A B} (m : M A) (k : A → M B) :
  preserves m → (∀ a, preserves (k a)) → preserves (m ≫= k).
Proof.
  intros Hm Hk w b w'. unfold mbind, M_bind, bind.
  destruct (m w) as [[a w1]|] eqn:Hrun; [|done]. intros Hrun'.
  destruct (Hm _ _ _ Hrun) as [H1 E1]. destruct (Hk a _ _ _ Hrun') as [H2 E2].
  split; [by eapply keeps_trans | congruence].
Qed.

Lemma preserves_getCtx : preserves getCtx.
Proof. intros w a w' Hrun. cbv in Hrun. simplify_eq. split; [apply keeps_refl | done]. Qed.

Lemma preserves_record (c : Call) : preserves (record c).
Proof. intros w a w' Hrun. unfold record in Hrun. simplify_eq. split; [apply keeps_refl | done]. Qed.

Lemma preserves_printCommandHelp (name : string) : preserves (printCommandHelp name).
Proof.
  apply preserves_bind; [apply preserves_getCtx|]. intros c.
  apply preserves_bind; [apply preserves_record|]. intros _. apply preserves_ret.
Qed.

Lemma preserves_ShowCmdHelpIfNeeded (args : list string) : preserves (ShowCmdHelpIfNeeded args).
Proof.
  unfold ShowCmdHelpIfNeeded. destruct args as [|a [|b args]]; try apply preserves_ret.
  destruct (_ || _); [|apply preserves_ret].
  apply preserves_bind; [apply preserves_getCtx|]. intros c.
  apply preserves_bind; [apply preserves_printCommandHelp|]. intros e. apply preserves_ret.
Qed.

Lemma preserves_WrongNumberOfArgumentsHandler : preserves WrongNumberOfArgumentsHandler.
Proof.
  apply preserves_bind; [apply preserves_getCtx|]. intros c.
  apply preserves_bind; [apply preserves_getCtx|]. intros c'.
  apply preserves_bind; [apply preserves_printCommandHelp|]. intros [e|]; apply preserves_ret.
Qed.

Lemma preserves_ensureKeyExists (flag : string) : preserves (ensureKeyExists flag).
Proof.
  intros w a w'. rewrite ensureKeyExists_run.
  destruct (IsFlagSet (ctx w) flag && _) eqn:Hset.
  { intros ?; simplify_eq. split; [apply keeps_refl | done]. }
  destruct (String.eqb (default "" (env w !! SigningKey)) "");
    intros ?; simplify_eq; (split; [|reflexivity]); [apply keeps_refl|].
  apply keeps_AddStringFlag.
  apply andb_false_iff in Hset as [Hset | Hset].
  - by apply unset_no_value.
  - apply negb_false_iff in Hset. by apply String.eqb_eq.
Qed.

Lemma preserves_setBuildValue (flag envVar : string) : preserves (setBuildValue flag envVar).
Proof.
  intros w a w'. rewrite setBuildValue_run.
  destruct (IsFlagSet (ctx w) flag) eqn:Hset.
  { intros ?; simplify_eq. split; [apply keeps_refl | done]. }
  destruct (negb _); intros ?; simplify_eq; (split; [|reflexivity]); [|apply keeps_refl].
  apply keeps_AddStringFlag. by apply unset_no_value.
Qed.

Lemma preserves_attemptSetBuildNameAndNumber : preserves attemptSetBuildNameAndNumber.
Proof.
  apply preserves_bind; [apply preserves_setBuildValue|]. intros a.
  apply preserves_bind; [apply preserves_setBuildValue|]. intros b. apply preserves_ret.
Qed.

Lemma preserves_getAndValidateSubject : preserves getAndValidateSubject.
Proof.
  apply preserves_bind; [apply preserves_getCtx|]. intros c. cbv zeta.
  assert (Hv : ∀ l, preserves
    (if is_err (validateFoundSubjects l) then mret ("", validateFoundSubjects l)
     else match l with first :: _ => mret (first, nil) | [] => panic end)).
  { intros l. destruct (is_err _); [apply preserves_ret|].
    destruct l; [done | apply preserves_ret]. }
  destruct (_ =? 0)%nat; [|apply Hv].
  apply preserves_bind; [apply preserves_attemptSetBuildNameAndNumber|].
  intros added. destruct (negb added); [apply preserves_ret | apply Hv].
Qed.

Lemma preserves_keyAlias :
  preserves (c ← getCtx;
             _ ← (if negb (IsFlagSet c keyAlias) then setKeyAliasIfProvided keyAlias
                  else mret tt);
             mret nil).
Proof.
  intros w a w'. unfold setKeyAliasIfProvided, getEnvVariable, LookupEnv, addStringFlag,
    mbind, M_bind, bind, mret, M_ret, ret, getCtx.
  destruct (IsFlagSet (ctx w) keyAlias) eqn:Hset; cbn [negb].
  { intros ?; simplify_eq. split; [apply keeps_refl | done]. }
  destruct (env w !! KeyAlias) as [v|]; cbn;
    [destruct (String.eqb v "")|]; cbn; intros ?; simplify_eq; (split; [|reflexivity]);
    try apply keeps_refl.
  apply keeps_AddStringFlag. by apply unset_no_value.
Qed.

Lemma preserves_validate : preserves validateCreateEvidenceCommonContext.
Proof.
  apply preserves_bind; [apply preserves_getCtx|]. intros c.
  apply preserves_bind; [apply preserves_ShowCmdHelpIfNeeded|]. intros [show err].
  destruct (_ || _); [apply preserves_ret|].
  destruct (_ <? _)%nat; [apply preserves_WrongNumberOfArgumentsHandler|].
  destruct (_ || _); [apply preserves_ret|].
  destruct (_ || _); [apply preserves_ret|].
  apply preserves_bind; [apply preserves_ensureKeyExists|]. intros e.
  destruct (is_err e); [apply preserves_ret|].
  apply preserves_keyAlias.
Qed.

Lemma preserves_evidenceDetailsByFlags : preserves evidenceDetailsByFlags.
Proof.
  apply preserves_bind; [apply preserves_getCtx|]. intros c.
  apply preserves_bind; [apply preserves_record|]. intros _.
  destruct (CreateServerDetailsWithConfigOffer _ _ _) as [sd err].
  destruct (is_err err); [apply preserves_ret|].
  destruct sd as [sd|]; [|done].
  destruct (String.eqb _ _); [apply preserves_ret|]. cbv zeta.
  destruct (_ && _); apply preserves_ret.
Qed.

(** X1: whatever [createEvidence] returns, the context still has the
    arguments, the command name, the boolean flags, every flag that was
    set and every non-empty flag value it was given, and the environment
    is unchanged: the command only adds values that were missing. *)
Theorem createEvidence_keeps_given_values (w w' : World) (result : error) :
  createEvidence w = Returns (result, w') →
  keeps_given_values (ctx w) (ctx w') ∧ env w' = env w.
Proof.
  revert w result w'. change (preserves createEvidence).
  apply preserves_bind; [apply preserves_validate|]. intros e.
  destruct (is_err e); [apply preserves_ret|].
  apply preserves_bind; [apply preserves_getAndValidateSubject|]. intros [s e'].
  destruct (is_err e'); [apply preserves_ret|].
  apply preserves_bind; [apply preserves_evidenceDetailsByFlags|]. intros [sd e''].
  destruct (is_err e''); [apply preserves_ret|]. cbv zeta.
  assert (Hrun : ∀ cmd, preserves
    (c ← getCtx; _ ← record (CallCreateEvidence cmd); mret (CreateEvidence cmd c sd))).
  { intros cmd. apply preserves_bind; [apply preserves_getCtx|]. intros c.
    apply preserves_bind; [apply preserves_record|]. intros _. apply preserves_ret. }
  repeat (destruct (String.eqb _ _); [apply Hrun|]). apply preserves_ret.
Qed.

End ContextInvariant.

Section SubjectResolutionMore.

Import cli components coreConfig.
Context {names : Names}.

Lemma filter_single `{EqDecision A} (P : A → Prop) `{!∀ x, Decision (P x)} (l : list A) (a : A) :
  NoDup l → a ∈ l → P a → (∀ b, b ∈ l → b ≠ a → ¬ P b) → filter P l = [a].
Proof.
  induction l as [|x l IH]; intros Hnd Hin Ha Hothers.
  - by apply elem_of_nil in Hin.
  - apply NoDup_cons in Hnd as [Hx Hnd]. rewrite filter_cons.
    destruct (decide (x = a)) as [->|Hxa].
    + rewrite decide_True by done. f_equal.
      destruct (filter P l) as [|y l'] eqn:Hf; [done|].
      assert (Hy : y ∈ filter P l) by (rewrite Hf; left).
      apply list_elem_of_filter in Hy as [HPy Hy].
      exfalso. apply (Hothers y); [by right | by intros -> | done].
    + rewrite decide_False.
      * apply IH; try done.
        -- apply elem_of_cons in Hin as [->|Hin]; done.
        -- intros b Hb. apply Hothers. by right.
      * apply Hothers; [left | done].
Qed.

(** X2: when the subject flags are distinct and exactly one of them
    carries a non-empty value, subject resolution returns that flag with
    no error and leaves the context as it was. *)
Theorem getAndValidateSubject_single (w : World) (f : string) :
  NoDup subjectTypes →
  f ∈ subjectTypes →
  GetStringFlagValue (ctx w) f ≠ "" →
  (∀ g, g ∈ subjectTypes → g ≠ f → GetStringFlagValue (ctx w) g = "") →
  getAndValidateSubject w = Returns ((f, nil), w).
Proof.
  intros Hnd Hf Hv Hothers.
  pose proof (getAndValidateSubject_found w) as Hrun. cbv zeta in Hrun.
  rewrite (filter_single (λ key, GetStringFlagValue (ctx w) key ≠ "") subjectTypes f)
    in Hrun; try done.
  - by apply Hrun.
  - intros g Hg Hne Hvg. by apply Hvg, Hothers.
Qed.

Lemma setBuildValue_true (flag envVar : string) (w w' : World) :
  setBuildValue flag envVar w = Returns (true, w') → IsFlagSet (ctx w') flag = true.
Proof.
  rewrite setBuildValue_run. destruct (IsFlagSet (ctx w) flag) eqn:Hset.
  - intros ?; by simplify_eq.
  - destruct (negb _); intros ?; simplify_eq. cbn. rewrite IsFlagSet_AddStringFlag.
    by rewrite decide_True.
Qed.

Lemma setBuildValue_set (flag envVar f : string) (w w' : World) (b : bool) :
  setBuildValue flag envVar w = Returns (b, w') →
  IsFlagSet (ctx w) f = true → IsFlagSet (ctx w') f = true.
Proof.
  rewrite setBuildValue_run. destruct (IsFlagSet (ctx w) flag) eqn:Hset.
  - intros ?; by simplify_eq.
  - destruct (negb _); intros ? Hf; simplify_eq; [|done]. cbn.
    rewrite IsFlagSet_AddStringFlag. by case_decide.
Qed.

Lemma subject_resolved (w : World) :
  ∃ subject err w',
    getAndValidateSubject w = Returns ((subject, err), w') ∧
    (err = nil →
     subject ∈ subjectTypes ∧
     (GetStringFlagValue (ctx w) subject ≠ "" ∧ w' = w ∨
      subject = buildName ∧
      IsFlagSet (ctx w') buildName = true ∧ IsFlagSet (ctx w') buildNumber = true)) ∧
    (err ≠ nil → subject = "").
Proof.
  destruct (filter (λ key, GetStringFlagValue (ctx w) key ≠ "") subjectTypes)
    as [|x l] eqn:Hfound.
  - rewrite (getAndValidateSubject_none w Hfound).
    unfold attemptSetBuildNameAndNumber, mbind, M_bind, bind, mret, M_ret, ret.
    destruct (setBuildValue buildName BuildName w) as [[a w1]|] eqn:H1.
    2:{ rewrite setBuildValue_run in H1. done. }
    destruct (setBuildValue buildNumber BuildNumber w1) as [[b w2]|] eqn:H2.
    2:{ rewrite setBuildValue_run in H2. done. }
    destruct a, b; cbn; do 3 eexists; (split; [reflexivity|]); (split; [|done]); try done.
    intros _. split.
    + unfold subjectTypes. apply list_elem_of_In. simpl. tauto.
    + right. split; [done|]. split.
      * eapply setBuildValue_set; [exact H2|]. by eapply setBuildValue_true.
      * by eapply setBuildValue_true.
  - pose proof (getAndValidateSubject_found w) as Hrun. cbv zeta in Hrun.
    rewrite Hfound in Hrun. rewrite Hrun by done.
    assert (Hx : x ∈ filter (λ key, GetStringFlagValue (ctx w) key ≠ "") subjectTypes)
      by (rewrite Hfound; left).
    apply list_elem_of_filter in Hx as [Hv Hx].
    destruct l; do 3 eexists; (split; [reflexivity|]); split; try done.
    intros _. split; [done|]. by left.
Qed.

(** X3: subject resolution never panics.  When it succeeds the subject is
    one of the subject flags, and either that flag carried a value and
    the context is unchanged, or the subject is the build name and both
    build flags are set afterwards; when it fails the subject is the
    empty string. *)
Theorem getAndValidateSubject_result (w : World) :
  ∃ subject err w',
    getAndValidateSubject w = Returns ((subject, err), w') ∧
    (err = nil →
     subject ∈ subjectTypes ∧
     (GetStringFlagValue (ctx w) subject ≠ "" ∧ w' = w ∨
      subject = buildName ∧
      IsFlagSet (ctx w') buildName = true ∧ IsFlagSet (ctx w') buildNumber = true)) ∧
    (err ≠ nil → subject = "").
Proof. apply subject_resolved. Qed.

(** X4: the build name and the build number are both looked up, whatever
    the first lookup gave: with no build name anywhere and a build number
    in the environment only, the number is added to the context although
    the result is false. *)
Theorem attemptSetBuildNameAndNumber_no_short_circuit (w : World) (number : string) :
  IsFlagSet (ctx w) buildName = false →
  default "" (env w !! BuildName) = "" →
  IsFlagSet (ctx w) buildNumber = false →
  env w !! BuildNumber = Some number → number ≠ "" →
  attemptSetBuildNameAndNumber w =
    Returns (false, {| ctx := AddStringFlag (ctx w) buildNumber number;
                       env := env w; calls := calls w |}).
Proof.
  intros Hname Henv Hnumber Hn Hne.
  unfold attemptSetBuildNameAndNumber, mbind, M_bind, bind, mret, M_ret, ret.
  rewrite setBuildValue_run, Hname, Henv. cbn.
  rewrite setBuildValue_run, Hnumber, Hn. cbn.
  apply String.eqb_neq in Hne. by rewrite Hne.
Qed.

End SubjectResolutionMore.

Section CreateEvidenceFlow.

Import cli components coreConfig.
Context {names : Names} {platform : Platform}.

(** The last step of the validation, on its own. *)
Lemma keyAlias_step (w : World) :
  (c ← getCtx;
   _ ← (if negb (IsFlagSet c keyAlias) then setKeyAliasIfProvided keyAlias else mret tt);
   mret nil) w =
  Returns (nil,
           if IsFlagSet (ctx w) keyAlias then w
           else if String.eqb (default "" (env w !! KeyAlias)) "" then w
           else {| ctx := AddStringFlag (ctx w) keyAlias (default "" (env w !! KeyAlias));
                   env := env w; calls := calls w |}).
Proof.
  unfold setKeyAliasIfProvided, getEnvVariable, LookupEnv, addStringFlag,
    mbind, M_bind, bind, mret, M_ret, ret, getCtx.
  destruct (IsFlagSet (ctx w) keyAlias); cbn [negb]; [done|].
  destruct (env w !! KeyAlias) as [v|]; cbn; [|done].
  by destruct (String.eqb v "").
Qed.

Lemma validate_success (w w' : World) :
  ¬ help_requested (Arguments (ctx w)) →
  validateCreateEvidenceCommonContext w = Returns (nil, w') →
  ¬ missing (ctx w) predicate ∧ ¬ missing (ctx w) predicateType ∧
  ∃ w1,
    ensureKeyExists key w = Returns (nil, w1) ∧
    w' = (if IsFlagSet (ctx w1) keyAlias then w1
          else if String.eqb (default "" (env w1 !! KeyAlias)) "" then w1
          else {| ctx := AddStringFlag (ctx w1) keyAlias (default "" (env w1 !! KeyAlias));
                  env := env w1; calls := calls w1 |}).
Proof.
  intros Hno. unfold validateCreateEvidenceCommonContext.
  unfold mbind at 1, M_bind at 1, bind at 1, getCtx at 1.
  unfold mbind at 1, M_bind at 1, bind at 1.
  rewrite ShowCmdHelpIfNeeded_not_requested by done. cbn [orb is_err nil].
  destruct (1 <? _)%nat.
  { destruct (WrongNumberOfArgumentsHandler_fails w) as [m ->]. done. }
  destruct (negb (IsFlagSet (ctx w) predicate) || _) eqn:Hp; [done|].
  destruct (negb (IsFlagSet (ctx w) predicateType) || _) eqn:Ht; [done|].
  unfold mbind at 1, M_bind at 1, bind at 1.
  destruct (ensureKeyExists key w) as [[[msg|] w1]|]; cbn [is_err]; try done.
  rewrite keyAlias_step. intros ?; simplify_eq.
  split; [|split; [|by exists w1]].
  - intros Hm. apply missing_test in Hm. congruence.
  - intros Hm. apply missing_test in Hm. congruence.
Qed.

(** X5: outside a help request, a successful validation leaves a context
    in which the predicate, the predicate type and the key all have a
    non-empty value. *)
Theorem validated_context_has_mandatory_values (w w' : World) :
  ¬ help_requested (Arguments (ctx w)) →
  validateCreateEvidenceCommonContext w = Returns (nil, w') →
  GetStringFlagValue (ctx w') predicate ≠ "" ∧
  GetStringFlagValue (ctx w') predicateType ≠ "" ∧
  GetStringFlagValue (ctx w') key ≠ "".
Proof.
  intros Hno Hrun.
  destruct (preserves_validate w nil w' Hrun) as [(_ & _ & _ & _ & Hkeep) _].
  destruct (validate_success w w' Hno Hrun) as (Hp & Ht & w1 & Hkey & Hw').
  assert (Hvalue : ∀ f, ¬ missing (ctx w) f → GetStringFlagValue (ctx w) f ≠ "").
  { intros f Hm Hv. apply Hm. by right. }
  split; [rewrite Hkeep; auto|]. split; [rewrite Hkeep; auto|].
  assert (Hk1 : GetStringFlagValue (ctx w1) key ≠ "").
  { rewrite ensureKeyExists_run in Hkey.
    destruct (IsFlagSet (ctx w) key) eqn:Hset; cbn [andb] in Hkey.
    - destruct (String.eqb_spec (GetStringFlagValue (ctx w) key) "") as [Hv|Hv];
        cbn [negb] in Hkey; [|by simplify_eq].
      destruct (String.eqb_spec (default "" (env w !! SigningKey)) "") as [He|He];
        simplify_eq. unfold GetStringFlagValue, AddStringFlag; cbn.
      by rewrite lookup_insert_eq.
    - destruct (String.eqb_spec (default "" (env w !! SigningKey)) "") as [He|He];
        simplify_eq. unfold GetStringFlagValue, AddStringFlag; cbn.
      by rewrite lookup_insert_eq. }
  subst w'. destruct (IsFlagSet (ctx w1) keyAlias) eqn:Halias; [done|].
  destruct (String.eqb _ ""); [done|]. cbn [ctx].
  destruct (keeps_AddStringFlag (ctx w1) keyAlias (default "" (env w1 !! KeyAlias)))
    as (_ & _ & _ & _ & Hk); [by apply unset_no_value|].
  by rewrite Hk.
Qed.

(** X6: outside a help request and after a successful validation, the key
    alias is the value of its flag when the flag was set, and the value
    of its environment variable (empty when unset) otherwise. *)
Theorem key_alias_fallback (w w' : World) :
  key ≠ keyAlias →
  ¬ help_requested (Arguments (ctx w)) →
  validateCreateEvidenceCommonContext w = Returns (nil, w') →
  GetStringFlagValue (ctx w') keyAlias =
    if IsFlagSet (ctx w) keyAlias then GetStringFlagValue (ctx w) keyAlias
    else default "" (env w !! KeyAlias).
Proof.
  intros Hne Hno Hrun.
  destruct (validate_success w w' Hno Hrun) as (_ & _ & w1 & Hkey & Hw').
  assert (H1 : stringFlags (ctx w1) !! keyAlias = stringFlags (ctx w) !! keyAlias ∧
               IsFlagSet (ctx w1) keyAlias = IsFlagSet (ctx w) keyAlias ∧
               env w1 = env w).
  { rewrite ensureKeyExists_run in Hkey.
    destruct (_ && _); [by simplify_eq|].
    destruct (String.eqb _ ""); simplify_eq. cbn [ctx env].
    rewrite IsFlagSet_AddStringFlag, decide_False by done.
    unfold AddStringFlag; cbn. by rewrite lookup_insert_ne. }
  destruct H1 as (Hflags & Hset & Henv). subst w'. rewrite Hset, Henv.
  destruct (IsFlagSet (ctx w) keyAlias) eqn:Halias.
  - unfold GetStringFlagValue. by rewrite Hflags.
  - destruct (String.eqb_spec (default "" (env w !! KeyAlias)) "") as [He|He].
    + rewrite He. rewrite <- Hset in Halias. by apply unset_no_value.
    + unfold GetStringFlagValue, AddStringFlag; cbn. by rewrite lookup_insert_eq.
Qed.

Lemma createEvidence_dispatch
    (w w1 w2 w3 : World) (subject : string) (details : option ServerDetails) :
  validateCreateEvidenceCommonContext w = Returns (nil, w1) →
  getAndValidateSubject w1 = Returns ((subject, nil), w2) →
  evidenceDetailsByFlags w2 = Returns ((details, nil), w3) →
  ∃ command,
    command_for subject command ∧
    createEvidence w =
      Returns (CreateEvidence command (ctx w3) details,
               {| ctx := ctx w3; env := env w3;
                  calls := calls w3 ++ [CallCreateEvidence command] |}).
Proof.
  intros Hv Hs Hd.
  destruct (subject_resolved w1) as (s & e & w2' & Hs' & Hin & _).
  rewrite Hs in Hs'. simplify_eq. destruct (Hin eq_refl) as [Hin' _].
  unfold createEvidence.
  unfold mbind at 1, M_bind at 1, bind at 1. rewrite Hv. cbn [is_err nil].
  unfold mbind at 1, M_bind at 1, bind at 1. rewrite Hs. cbn [is_err nil].
  unfold mbind at 1, M_bind at 1, bind at 1. rewrite Hd. cbn [is_err nil]. cbv zeta.
  unfold command_for.
  destruct (String.eqb_spec s subjectRepoPath) as [->|H1];
    [eexists; split; [left; done | reflexivity]|].
  destruct (String.eqb_spec s releaseBundle) as [->|H2];
    [eexists; split; [right; left; done | reflexivity]|].
  destruct (String.eqb_spec s buildName) as [->|H3];
    [eexists; split; [right; right; left; done | reflexivity]|].
  destruct (String.eqb_spec s packageName) as [->|H4];
    [eexists; split; [right; right; right; done | reflexivity]|].
  exfalso. unfold subjectTypes in Hin'. apply list_elem_of_In in Hin'. simpl in Hin'.
  intuition congruence.
Qed.

(** X7: when validation, subject resolution and the server details all
    succeed, [createEvidence] runs the command of the resolved subject,
    as its last call, on the final context and those details, and returns
    what the command returns. *)
Theorem createEvidence_runs_the_subject_command
    (w w1 w2 w3 : World) (subject : string) (details : option ServerDetails) :
  validateCreateEvidenceCommonContext w = Returns (nil, w1) →
  getAndValidateSubject w1 = Returns ((subject, nil), w2) →
  evidenceDetailsByFlags w2 = Returns ((details, nil), w3) →
  ∃ command,
    command_for subject command ∧
    createEvidence w =
      Returns (CreateEvidence command (ctx w3) details,
               {| ctx := ctx w3; env := env w3;
                  calls := calls w3 ++ [CallCreateEvidence command] |}).
Proof. apply createEvidence_dispatch. Qed.

End CreateEvidenceFlow.

Section PlatformCalls.

Import cli components coreConfig.
Context {names : Names} {platform : Platform}.

Lemma prints_only_silent {A} (m : M A) :
  (∀ w a w', m w = Returns (a, w') → calls w' = calls w) → prints_only m.
Proof.
  intros Hm w a w' Hrun. exists []. rewrite app_nil_r. split; [by eapply Hm|].
  intros c Hc. by apply elem_of_nil in Hc.
Qed.

Lemma prints_only_ret {A} (a : A) : prints_only (mret a).
Proof. apply prints_only_silent. intros w a' w' Hrun. cbv in Hrun. by simplify_eq. Qed.

Lemma prints_only_bind {A B} (m : M A) (k : A → M B) :
  prints_only m → (∀ a, prints_only (k a)) → prints_only (m ≫= k).
Proof.
  intros Hm Hk w b w'. unfold mbind, M_bind, bind.
  destruct (m w) as [[a w1]|] eqn:Hrun; [|done]. intros Hrun'.
  destruct (Hm _ _ _ Hrun) as (l1 & E1 & H1). destruct (Hk a _ _ _ Hrun') as (l2 & E2 & H2).
  exists (l1 ++ l2). rewrite E2, E1, app_assoc. split; [done|].
  intros c Hc. apply elem_of_app in Hc as [Hc|Hc]; auto.
Qed.

Lemma prints_only_getCtx : prints_only getCtx.
Proof. apply prints_only_silent. intros w a w' Hrun. cbv in Hrun. by simplify_eq. Qed.

Lemma prints_only_printCommandHelp (name : string) : prints_only (printCommandHelp name).
Proof.
  intros w a w' Hrun. unfold printCommandHelp, mbind, M_bind, bind, getCtx, record,
    mret, M_ret, ret in Hrun. simplify_eq. eexists. split; [reflexivity|].
  intros c Hc. apply list_elem_of_singleton in Hc. eauto.
Qed.

Lemma prints_only_validate : prints_only validateCreateEvidenceCommonContext.
Proof.
  apply prints_only_bind; [apply prints_only_getCtx|]. intros c.
  apply prints_only_bind.
  { unfold ShowCmdHelpIfNeeded. destruct (Arguments c) as [|a [|b args]];
      try apply prints_only_ret.
    destruct (_ || _); [|apply prints_only_ret].
    apply prints_only_bind; [apply prints_only_getCtx|]. intros c'.
    apply prints_only_bind; [apply prints_only_printCommandHelp|]. intros e.
    apply prints_only_ret. }
  intros [show err]. destruct (_ || _); [apply prints_only_ret|].
  destruct (_ <? _)%nat.
  { apply prints_only_bind; [apply prints_only_getCtx|]. intros c1.
    apply prints_only_bind; [apply prints_only_getCtx|]. intros c2.
    apply prints_only_bind; [apply prints_only_printCommandHelp|].
    intros [e|]; apply prints_only_ret. }
  destruct (_ || _); [apply prints_only_ret|].
  destruct (_ || _); [apply prints_only_ret|].
  apply prints_only_bind.
  { apply prints_only_silent. intros w a w'. rewrite ensureKeyExists_run.
    destruct (_ && _); [intros ?; by simplify_eq|].
    destruct (String.eqb _ ""); intros ?; by simplify_eq. }
  intros e. destruct (is_err e); [apply prints_only_ret|].
  apply prints_only_silent. intros w a w'. rewrite keyAlias_step.
  destruct (IsFlagSet _ _); [intros ?; by simplify_eq|].
  destruct (String.eqb _ ""); intros ?; by simplify_eq.
Qed.

Lemma getAndValidateSubject_calls (w w' : World) (r : string * error) :
  getAndValidateSubject w = Returns (r, w') → calls w' = calls w.
Proof.
  intros Hrun.
  assert (Hb : ∀ f e w0 b w1, setBuildValue f e w0 = Returns (b, w1) → calls w1 = calls w0).
  { intros f e w0 b w1. rewrite setBuildValue_run.
    destruct (IsFlagSet _ _); [intros ?; by simplify_eq|].
    destruct (negb _); intros ?; by simplify_eq. }
  destruct (filter (λ key, GetStringFlagValue (ctx w) key ≠ "") subjectTypes)
    as [|x l] eqn:Hfound.
  - rewrite (getAndValidateSubject_none w Hfound) in Hrun.
    unfold attemptSetBuildNameAndNumber, mbind, M_bind, bind, mret, M_ret, ret in Hrun.
    destruct (setBuildValue buildName BuildName w) as [[a w1]|] eqn:H1; [|done].
    destruct (setBuildValue buildNumber BuildNumber w1) as [[b w2]|] eqn:H2; [|done].
    apply Hb in H1, H2. destruct (a && b); simplify_eq; congruence.
  - pose proof (getAndValidateSubject_found w) as Hf. cbv zeta in Hf.
    rewrite Hfound in Hf. rewrite Hf in Hrun by done. by simplify_eq.
Qed.

Lemma evidenceDetailsByFlags_calls (w w' : World) (r : option ServerDetails * error) :
  evidenceDetailsByFlags w = Returns (r, w') →
  calls w' = calls w ++ [CallCreateServerDetails].
Proof.
  unfold evidenceDetailsByFlags, mbind, M_bind, bind, mret, M_ret, ret, getCtx, record.
  cbn [ctx]. destruct (CreateServerDetailsWithConfigOffer _ _ _) as [sd err].
  destruct (is_err err); [intros ?; by simplify_eq|].
  destruct sd as [sd|]; [|done].
  destruct (String.eqb _ _); [intros ?; by simplify_eq|]. cbv zeta.
  destruct (_ && _); intros ?; by simplify_eq.
Qed.

(** X8: [createEvidence] asks for the server details only after
    validation and subject resolution have both succeeded. *)
Theorem createEvidence_reaches_the_platform_last (w w' : World) (result : error) :
  createEvidence w = Returns (result, w') →
  CallCreateServerDetails ∉ calls w →
  CallCreateServerDetails ∈ calls w' →
  ∃ w1 w2 subject,
    validateCreateEvidenceCommonContext w = Returns (nil, w1) ∧
    getAndValidateSubject w1 = Returns ((subject, nil), w2).
Proof.
  intros Hrun Hbefore Hafter. unfold createEvidence in Hrun.
  unfold mbind at 1, M_bind at 1, bind at 1 in Hrun.
  destruct (validateCreateEvidenceCommonContext w) as [[e w1]|] eqn:Hv; [|done].
  destruct (prints_only_validate _ _ _ Hv) as (help & Ecalls & Hhelp).
  assert (Hnot1 : CallCreateServerDetails ∉ calls w1).
  { rewrite Ecalls. intros Hin. apply elem_of_app in Hin as [Hin|Hin]; [done|].
    destruct (Hhelp _ Hin) as [n Hn]. done. }
  destruct e as [msg|]; cbn [is_err] in Hrun.
  { cbv in Hrun. by simplify_eq. }
  unfold mbind at 1, M_bind at 1, bind at 1 in Hrun.
  destruct (getAndValidateSubject w1) as [[[s e] w2]|] eqn:Hs; [|done].
  pose proof (getAndValidateSubject_calls _ _ _ Hs) as Ecalls2.
  destruct e as [msg|]; cbn [is_err] in Hrun.
  { cbv in Hrun. simplify_eq. congruence. }
  by exists w1, w2, s.
Qed.

(** X9: [createEvidence] runs an evidence command only after validation,
    subject resolution and the server details have succeeded, the details
    being a non-nil pointer; the command is the one of the resolved
    subject, and its result is the result of [createEvidence]. *)
Theorem createEvidence_command_needs_details
    (w w' : World) (result : error) (command : EvidenceCommands) :
  createEvidence w = Returns (result, w') →
  CallCreateEvidence command ∉ calls w →
  CallCreateEvidence command ∈ calls w' →
  ∃ w1 w2 w3 subject details,
    validateCreateEvidenceCommonContext w = Returns (nil, w1) ∧
    getAndValidateSubject w1 = Returns ((subject, nil), w2) ∧
    evidenceDetailsByFlags w2 = Returns ((Some details, nil), w3) ∧
    command_for subject command ∧
    result = CreateEvidence command (ctx w3) (Some details).
Proof.
  intros Hrun Hbefore Hafter.
  assert (Hhelp_no : ∀ l : list Call, (∀ c, c ∈ l → ∃ name, c = CallPrintCommandHelp name) →
                          CallCreateEvidence command ∉ l).
  { intros l Hl Hin. destruct (Hl _ Hin) as [n Hn]. done. }
  pose proof Hrun as Hrun0. unfold createEvidence in Hrun.
  unfold mbind at 1, M_bind at 1, bind at 1 in Hrun.
  destruct (validateCreateEvidenceCommonContext w) as [[e w1]|] eqn:Hv; [|done].
  destruct (prints_only_validate _ _ _ Hv) as (help & Ecalls & Hhelp).
  assert (Hnot1 : CallCreateEvidence command ∉ calls w1).
  { rewrite Ecalls. intros Hin. apply elem_of_app in Hin as [Hin|Hin]; [done|].
    by apply (Hhelp_no help). }
  destruct e as [msg|]; cbn [is_err] in Hrun.
  { cbv in Hrun. by simplify_eq. }
  unfold mbind at 1, M_bind at 1, bind at 1 in Hrun.
  destruct (getAndValidateSubject w1) as [[[s e] w2]|] eqn:Hs; [|done].
  pose proof (getAndValidateSubject_calls _ _ _ Hs) as Ecalls2.
  destruct e as [msg|]; cbn [is_err] in Hrun.
  { cbv in Hrun. simplify_eq. congruence. }
  unfold mbind at 1, M_bind at 1, bind at 1 in Hrun.
  destruct (evidenceDetailsByFlags w2) as [[[d e] w3]|] eqn:Hd; [|done].
  pose proof (evidenceDetailsByFlags_calls _ _ _ Hd) as Ecalls3.
  assert (Hnot3 : CallCreateEvidence command ∉ calls w3).
  { rewrite Ecalls3, Ecalls2. intros Hin. apply elem_of_app in Hin as [Hin|Hin]; [done|].
    by apply list_elem_of_singleton in Hin. }
  destruct e as [msg|]; cbn [is_err] in Hrun.
  { cbv in Hrun. by simplify_eq. }
  assert (Hsome : ∃ details, d = Some details).
  { revert Hd. unfold evidenceDetailsByFlags, mbind, M_bind, bind, mret, M_ret, ret,
      getCtx, record, errors_New, nil. cbn [ctx].
    destruct (CreateServerDetailsWithConfigOffer _ _ _) as [sd err].
    destruct (is_err err) eqn:Herr; [intros ?; by simplify_eq/=|].
    destruct sd as [sd|]; [|done].
    destruct (String.eqb (Url sd) ""); [intros ?; by simplify_eq|]. cbv zeta.
    destruct (_ && _); intros ?; simplify_eq; eauto. }
  destruct Hsome as [details ->].
  destruct (createEvidence_dispatch w w1 w2 w3 s (Some details) Hv Hs Hd)
    as (cmd & Hfor & Hrun').
  rewrite Hrun' in Hrun0. simplify_eq. cbn [calls] in Hafter.
  apply elem_of_app in Hafter as [Hin|Hin]; [done|].
  apply list_elem_of_singleton in Hin. simplify_eq.
  by exists w1, w2, w3, s, details.
Qed.

End PlatformCalls.

Section PathBuildersMore.

Import lifecycle.

Lemma app_cancel_r (p q s : string) : p +:+ s = q +:+ s → p = q.
Proof.
  revert q. induction p as [|c p IH]; intros [|d q] Heq; try done.
  - apply (f_equal String.length) in Heq. rewrite !length_app_s in Heq. cbn in Heq. lia.
  - apply (f_equal String.length) in Heq. rewrite !length_app_s in Heq. cbn in Heq. lia.
  - rewrite !app_String in Heq. injection Heq as -> Heq. f_equal. by apply IH.
Qed.

Lemma named_key_is_not_default (project : string) :
  project +:+ "-release-bundles-v2" ≠ "release-bundles-v2".
Proof.
  intros Heq. apply (f_equal String.length) in Heq.
  rewrite length_app_s in Heq. cbn in Heq. lia.
Qed.

(** X10: two projects have the same repository key exactly when they are
    equal, or are both among the empty string and "default". *)
Theorem buildRepoKey_collisions (p q : string) :
  buildRepoKey p = buildRepoKey q ↔
  p = q ∨ ((p = "" ∨ p = "default") ∧ (q = "" ∨ q = "default")).
Proof.
  destruct (decide (p = "" ∨ p = "default")) as [Hp|Hp];
    destruct (decide (q = "" ∨ q = "default")) as [Hq|Hq].
  - rewrite !buildRepoKey_plain by done. tauto.
  - rewrite (buildRepoKey_plain p), (buildRepoKey_prefixed q) by tauto. split.
    + intros Heq. symmetry in Heq. by apply named_key_is_not_default in Heq.
    + intros [-> | [_ ?]]; tauto.
  - rewrite (buildRepoKey_prefixed p), (buildRepoKey_plain q) by tauto. split.
    + intros Heq. by apply named_key_is_not_default in Heq.
    + intros [-> | [? _]]; tauto.
  - rewrite !buildRepoKey_prefixed by tauto. split.
    + intros Heq. left. by apply app_cancel_r in Heq.
    + intros [-> | [? _]]; tauto.
Qed.

Lemma slash_free_app (s t : string) :
  slash_free (s +:+ t) = slash_free s && slash_free t.
Proof.
  induction s as [|c s IH]; [done|]. rewrite app_String. cbn.
  rewrite IH. by rewrite andb_assoc.
Qed.

(** Two paths with slash-free first components agree component-wise. *)
Lemma split_at_first_slash (a a' x y : string) :
  slash_free a = true → slash_free a' = true →
  a +:+ String "/" x = a' +:+ String "/" y → a = a' ∧ x = y.
Proof.
  revert a'. induction a as [|c a IH]; intros [|c' a'] Ha Ha' Heq.
  - injection Heq as ->. done.
  - rewrite app_String in Heq. injection Heq as <- _. cbn in Ha'. done.
  - rewrite app_String in Heq. injection Heq as -> _. cbn in Ha. done.
  - rewrite !app_String in Heq. injection Heq as -> Heq.
    cbn in Ha, Ha'. apply andb_true_iff in Ha as [_ Ha], Ha' as [_ Ha'].
    destruct (IH a' Ha Ha' Heq) as [-> ->]. done.
Qed.

Lemma slash_free_buildRepoKey (project : string) :
  slash_free project = true → slash_free (buildRepoKey project) = true.
Proof.
  intros Hp. destruct (decide (project = "" ∨ project = "default")) as [H|H].
  - by rewrite buildRepoKey_plain.
  - rewrite buildRepoKey_prefixed by tauto. rewrite slash_free_app, Hp. done.
Qed.

Lemma buildManifestPath_parts (project name version : string) :
  buildManifestPath project name version =
    buildRepoKey project +:+ String "/" (name +:+ String "/" (version +:+ "/release-bundle.json.evd")).
Proof. reflexivity. Qed.

(** X11: for projects and names without a slash, the manifest path
    determines the repository key, the name and the version. *)
Theorem buildManifestPath_injective (p n v p' n' v' : string) :
  slash_free p = true → slash_free n = true →
  slash_free p' = true → slash_free n' = true →
  buildManifestPath p n v = buildManifestPath p' n' v' →
  buildRepoKey p = buildRepoKey p' ∧ n = n' ∧ v = v'.
Proof.
  intros Hp Hn Hp' Hn' Heq. rewrite !buildManifestPath_parts in Heq.
  apply split_at_first_slash in Heq as [Hkey Heq];
    [|by apply slash_free_buildRepoKey..].
  apply split_at_first_slash in Heq as [Hname Heq]; [|done..].
  apply app_cancel_r in Heq. done.
Qed.

Example buildManifestPath_slash_in_name :
  buildManifestPath "proj" "a/b" "c" = buildManifestPath "proj" "a" "b/c".
Proof. reflexivity. Qed.

(** X12: [getAggregatedDistRules] always returns, and never an empty
    list: it has one entry per rule, and one entry when there is no rule
    or no rules object at all. *)
Theorem getAggregatedDistRules_never_empty
    (distributionRules : option spec.DistributionRules) :
  ∃ aggregated,
    getAggregatedDistRules distributionRules = Returns aggregated ∧
    length aggregated =
      Nat.max 1 (from_option (λ dr, length (spec.Rules dr)) 0 distributionRules).
Proof.
  unfold getAggregatedDistRules.
  destruct (isDistributionRulesEmpty distributionRules) eqn:He.
  - eexists. split; [reflexivity|]. cbn.
    destruct distributionRules as [[rules]|]; [|done]. cbn in *.
    destruct rules as [|r [|r' rules]]; done.
  - destruct distributionRules as [[rules]|]; [|done]. eexists. split; [reflexivity|].
    rewrite aggregate_loop. cbn. rewrite length_map.
    destruct rules; [done|]. cbn. lia.
Qed.

End PathBuildersMore.

Section KeyHalves.

Import cryptox.
Variable LoadKey : list Byte.byte -> option SSLibKey * error.

(** X13: [ReadKey] and [ReadPublicKey] return a key only when [LoadKey]
    loaded that very key without an error and its private (public) half
    is not empty; they return an error only when [LoadKey] failed with
    it; they return neither when the loaded key lacks the half; and they
    panic exactly when [LoadKey] gives a nil key and no error. *)
Theorem ReadKey_returns_the_loaded_key (fileContent : list Byte.byte) :
  (∀ result,
     ReadKey LoadKey fileContent = Returns result →
     match result with
     | (Some slibKey, err) =>
         err = nil ∧ LoadKey fileContent = (Some slibKey, nil) ∧
         Private (KeyVal slibKey) ≠ ""
     | (None, Some msg) => ∃ loaded, LoadKey fileContent = (loaded, Some msg)
     | (None, None) =>
         ∃ slibKey, LoadKey fileContent = (Some slibKey, nil) ∧
                    Private (KeyVal slibKey) = ""
     end) ∧
  (∀ result,
     ReadPublicKey LoadKey fileContent = Returns result →
     match result with
     | (Some slibKey, err) =>
         err = nil ∧ LoadKey fileContent = (Some slibKey, nil) ∧
         Public (KeyVal slibKey) ≠ ""
     | (None, Some msg) => ∃ loaded, LoadKey fileContent = (loaded, Some msg)
     | (None, None) =>
         ∃ slibKey, LoadKey fileContent = (Some slibKey, nil) ∧
                    Public (KeyVal slibKey) = ""
     end) ∧
  (ReadKey LoadKey fileContent = Panics ↔ LoadKey fileContent = (None, nil)) ∧
  (ReadPublicKey LoadKey fileContent = Panics ↔ LoadKey fileContent = (None, nil)).
Proof.
  unfold ReadKey, ReadPublicKey, nil.
  destruct (LoadKey fileContent) as [[k|] [e|]]; cbn;
    (split; [intros result Hr | split; [intros result Hr | split; split; intros Hp]]);
    try discriminate Hp; try reflexivity.
  - simplify_eq. eauto.
  - simplify_eq. eauto.
  - destruct (String.eqb_spec (Private (KeyVal k)) "") as [Hp|Hp]; cbn in Hr;
      simplify_eq; [by exists k | done].
  - destruct (String.eqb_spec (Public (KeyVal k)) "") as [Hp|Hp]; cbn in Hr;
      simplify_eq; [by exists k | done].
  - by destruct (String.eqb _ _).
  - by destruct (String.eqb _ _).
  - simplify_eq. eauto.
  - simplify_eq. eauto.
  - done.
  - done.
Qed.

End KeyHalves.

Section EvidenceUrls.

Import cli coreConfig.

Lemma HasSuffix_app_slash (url : string) : HasSuffix (url +:+ "/") "/" = true.
Proof. apply HasSuffix_iff. by exists url. Qed.

(** X14: a platform URL gives the same three service URLs with and
    without its trailing slash: the URL followed by "/artifactory/",
    "/evidence/" and "/metadata/". *)
Theorem platformToEvidenceUrls_trailing_slash (plain slashed : ServerDetails) :
  Url plain ≠ "" → HasSuffix (Url plain) "/" = false →
  Url slashed = Url plain +:+ "/" →
  ArtifactoryUrl (platformToEvidenceUrls plain) = Url plain +:+ "/artifactory/" ∧
  EvidenceUrl (platformToEvidenceUrls plain) = Url plain +:+ "/evidence/" ∧
  MetadataUrl (platformToEvidenceUrls plain) = Url plain +:+ "/metadata/" ∧
  ArtifactoryUrl (platformToEvidenceUrls slashed) = ArtifactoryUrl (platformToEvidenceUrls plain) ∧
  EvidenceUrl (platformToEvidenceUrls slashed) = EvidenceUrl (platformToEvidenceUrls plain) ∧
  MetadataUrl (platformToEvidenceUrls slashed) = MetadataUrl (platformToEvidenceUrls plain).
Proof.
  intros Hne Hs Hurl. unfold platformToEvidenceUrls; cbn [ArtifactoryUrl EvidenceUrl MetadataUrl].
  assert (Hplain : clientUtils.AddTrailingSlashIfNeeded (Url plain) = Url plain +:+ "/").
  { unfold clientUtils.AddTrailingSlashIfNeeded. apply String.eqb_neq in Hne.
    by rewrite Hne, Hs. }
  assert (Hslashed : clientUtils.AddTrailingSlashIfNeeded (Url slashed) = Url plain +:+ "/").
  { unfold clientUtils.AddTrailingSlashIfNeeded. rewrite Hurl, HasSuffix_app_slash.
    by rewrite andb_false_r. }
  rewrite Hplain, Hslashed, !app_assoc_s. done.
Qed.

End EvidenceUrls.

Section ReleaseBundleEvidence.

Import create createReleaseBundle.
Context {methods : Base}.

(** X15: when a run of the release bundle command uploads evidence, the
    subject of the upload is the manifest path of the bundle; the client,
    the checksum of that path and the envelope were obtained without an
    error before, in this order and once each; and the result of the run
    is the result of the upload. *)
Theorem Run_uploads_for_the_manifest
    (c : createEvidenceReleaseBundle) (envelope : list Byte.byte) (subject : string) :
  StepUploadEvidence envelope subject ∈ (Run c).2 →
  subject = buildManifestPath (BuildReleaseBundleRepoKey (project c))
                              (releaseBundle c) (releaseBundleVersion c) ∧
  ∃ artifactoryClient sha256,
    createArtifactoryClient (base c) = (artifactoryClient, nil) ∧
    getFileChecksum (base c) subject artifactoryClient = (sha256, nil) ∧
    createEnvelope (base c) subject sha256 = (envelope, nil) ∧
    (Run c).1 = uploadEvidence (base c) envelope subject ∧
    (Run c).2 = [StepCreateArtifactoryClient; StepGetFileChecksum subject;
                 StepCreateEnvelope subject sha256; StepUploadEvidence envelope subject].
Proof.
  unfold Run, buildReleaseBundleSubjectPath.
  remember (buildManifestPath _ _ _) as path eqn:Hpath. clear Hpath.
  destruct (createArtifactoryClient (base c)) as [client [e1|]] eqn:H1; cbn.
  { intros Hin. apply list_elem_of_In in Hin. simpl in Hin. intuition congruence. }
  destruct (getFileChecksum (base c) path client) as [sha [e2|]] eqn:H2; cbn.
  { intros Hin. apply list_elem_of_In in Hin. simpl in Hin. intuition congruence. }
  destruct (createEnvelope (base c) path sha) as [env [e3|]] eqn:H3; cbn.
  { intros Hin. apply list_elem_of_In in Hin. simpl in Hin. intuition congruence. }
  destruct (uploadEvidence (base c) env path) as [e4|] eqn:H4; cbn;
    intros Hin; apply list_elem_of_In in Hin; simpl in Hin;
    (destruct Hin as [?|[?|[?|[Heq|[]]]]]; try done); simplify_eq;
    (split; [done|]); exists client, sha; by rewrite H2, H3, H4.
Qed.

(** X16: a run of the release bundle command returns no error exactly
    when the client, the checksum of the manifest, the envelope and the
    upload all succeed. *)
Theorem Run_succeeds_when_every_step_does (c : createEvidenceReleaseBundle) :
  (Run c).1 = nil ↔
  ∃ artifactoryClient sha256 envelope,
    let subject := buildManifestPath (BuildReleaseBundleRepoKey (project c))
                                     (releaseBundle c) (releaseBundleVersion c) in
    createArtifactoryClient (base c) = (artifactoryClient, nil) ∧
    getFileChecksum (base c) subject artifactoryClient = (sha256, nil) ∧
    createEnvelope (base c) subject sha256 = (envelope, nil) ∧
    uploadEvidence (base c) envelope subject = nil.
Proof.
  unfold Run, buildReleaseBundleSubjectPath, nil. cbv zeta.
  remember (buildManifestPath _ _ _) as path eqn:Hpath. clear Hpath.
  destruct (createArtifactoryClient (base c)) as [client [e1|]] eqn:H1; cbn.
  { split; [done|]. intros (cl & s & e & Ha & Hb & Hc & Hd); simplify_eq; congruence. }
  destruct (getFileChecksum (base c) path client) as [sha [e2|]] eqn:H2; cbn.
  { split; [done|]. intros (cl & s & e & Ha & Hb & Hc & Hd); simplify_eq; congruence. }
  destruct (createEnvelope (base c) path sha) as [env [e3|]] eqn:H3; cbn.
  { split; [done|]. intros (cl & s & e & Ha & Hb & Hc & Hd); simplify_eq; congruence. }
  destruct (uploadEvidence (base c) env path) as [e4|] eqn:H4; cbn.
  { split; [done|]. intros (cl & s & e & Ha & Hb & Hc & Hd); simplify_eq; congruence. }
  split; [|done]. intros _. exists client, sha, env. by rewrite H2, H3, H4.
Qed.

End ReleaseBundleEvidence.

(** ** The repository package *)

Section ContentSynchronisation.

Import GoText services repository.
Context {library : Library}.

Lemma ParseBool_literal (str : string) (b : bool) :
  bool_literal str = Some b → ParseBool Quote str = (b, nil).
Proof. unfold ParseBool. by intros ->. Qed.

Lemma ParseBool_not_literal (str : string) :
  bool_literal str = None →
  ∃ msg, ParseBool Quote str = (false, Some msg).
Proof. unfold ParseBool. intros ->. eauto. Qed.

Lemma insert_last (variables : list bool) (b b' : bool) :
  <[length variables := b']> (variables ++ [b]) = variables ++ [b'].
Proof.
  rewrite insert_app_r_alt by lia. by rewrite Nat.sub_diag.
Qed.

(** X17: when the value is four boolean literals separated by commas,
    [writeContentSynchronisation] stores under the key a content
    synchronisation whose four flags all point to one boolean variable,
    the one declared for the first literal and assigned again for each
    later one; read through their pointers, all four flags have the value
    of the fourth literal. *)
Theorem writeContentSynchronisation_stores_the_last_flag
    (resultMap : gmap string Value) (key value a b c d : string)
    (ba bb bc bd : bool) (variables : list bool) :
  Split value ","%char = [a; b; c; d] →
  bool_literal a = Some ba → bool_literal b = Some bb →
  bool_literal c = Some bc → bool_literal d = Some bd →
  writeContentSynchronisation resultMap key value variables =
    Returns ((nil, <[key := VContentSynchronisation (all_flags_at (length variables))]> resultMap),
             variables ++ [bd]) ∧
  flag_values (variables ++ [bd]) (all_flags_at (length variables)) =
    Some (bd, bd, bd, bd).
Proof.
  intros Hsplit Ha Hb Hc Hd. split.
  - unfold writeContentSynchronisation. rewrite Hsplit. cbn [length Nat.eqb negb].
    unfold mbind, H_bind, index, mret, H_ret, declare, assign. cbn [lookup list_lookup].
    rewrite (ParseBool_literal a ba Ha), (ParseBool_literal b bb Hb),
      (ParseBool_literal c bc Hc), (ParseBool_literal d bd Hd).
    cbn [is_err nil]. by rewrite !insert_last.
  - unfold flag_values, all_flags_at, read_flag.
    cbn [Enabled Statistics Properties Source StatisticsEnabled PropertiesEnabled
         OriginAbsenceDetection].
    rewrite lookup_app_r by lia. by rewrite Nat.sub_diag.
Qed.

(** X18: [writeContentSynchronisation] never panics.  It returns no error
    exactly when the value splits at its commas into four pieces that are
    all boolean literals; on an error the map is returned as it was and
    the boolean variables that existed keep their values; and a value
    that does not split into four pieces is refused with "invalid value
    for Content Synchronisation" before any variable is declared. *)
Theorem writeContentSynchronisation_accepts_four_booleans
    (resultMap : gmap string Value) (key value : string) (variables : list bool) :
  ∃ err resultMap' variables',
    writeContentSynchronisation resultMap key value variables =
      Returns ((err, resultMap'), variables') ∧
    (err = nil ↔
     length (Split value ","%char) = 4 ∧
     Forall (λ answer, is_Some (bool_literal answer)) (Split value ","%char)) ∧
    (err ≠ nil → resultMap' = resultMap ∧ take (length variables) variables' = variables) ∧
    (length (Split value ","%char) ≠ 4 →
     err = Some "invalid value for Content Synchronisation" ∧ variables' = variables).
Proof.
  unfold writeContentSynchronisation.
  destruct (Split value ","%char) as [|a [|b [|c [|d [|e rest]]]]] eqn:Hsplit;
    cbn [length Nat.eqb negb];
    try (do 3 eexists; split; [reflexivity|];
         split; [split; [done | intros [? _]; done]|]; split; [|done];
         intros _; split; [done | by rewrite take_ge]).
  unfold mbind, H_bind, index, mret, H_ret, declare, assign. cbn [lookup list_lookup].
  assert (Hkeep : ∀ x y, take (length variables) (variables ++ [x]) = variables ∧
                         take (length variables) (<[length variables := y]> (variables ++ [x])) = variables).
  { intros x y. rewrite insert_last, !take_app_length. done. }
  assert (Hall : ∀ P : string → Prop, Forall P [a; b; c; d] ↔ P a ∧ P b ∧ P c ∧ P d).
  { intros P. rewrite !Forall_cons, Forall_nil. tauto. }
  destruct (bool_literal a) as [ba|] eqn:Ha.
  2:{ destruct (ParseBool_not_literal a Ha) as [msg ->]. cbn [is_err].
      do 3 eexists. split; [reflexivity|]. rewrite Hall, Ha.
      split; [split; [done | intros (_ & [? ?] & _); done]|].
      split; [|done]. intros _. split; [done | apply Hkeep; exact false]. }
  rewrite (ParseBool_literal a ba Ha). cbn [is_err nil].
  destruct (bool_literal b) as [bb|] eqn:Hb.
  2:{ destruct (ParseBool_not_literal b Hb) as [msg ->]. cbn [is_err].
      do 3 eexists. split; [reflexivity|]. rewrite Hall, Ha, Hb.
      split; [split; [done | intros (_ & _ & [? ?] & _); done]|].
      split; [|done]. intros _. split; [done | apply Hkeep]. }
  rewrite (ParseBool_literal b bb Hb). cbn [is_err nil]. rewrite !insert_last.
  destruct (bool_literal c) as [bc|] eqn:Hc.
  2:{ destruct (ParseBool_not_literal c Hc) as [msg ->]. cbn [is_err].
      do 3 eexists. split; [reflexivity|]. rewrite Hall, Ha, Hb, Hc.
      split; [split; [done | intros (_ & _ & _ & [? ?] & _); done]|].
      split; [|done]. intros _. split; [done | apply Hkeep]. }
  rewrite (ParseBool_literal c bc Hc). cbn [is_err nil]. rewrite !insert_last.
  destruct (bool_literal d) as [bd|] eqn:Hd.
  2:{ destruct (ParseBool_not_literal d Hd) as [msg ->]. cbn [is_err].
      do 3 eexists. split; [reflexivity|]. rewrite Hall, Ha, Hb, Hc, Hd.
      split; [split; [done | intros (_ & _ & _ & _ & [? ?]); done]|].
      split; [|done]. intros _. split; [done | apply Hkeep]. }
  rewrite (ParseBool_literal d bd Hd). cbn [is_err nil].
  do 3 eexists. split; [reflexivity|]. rewrite Hall, Ha, Hb, Hc, Hd.
  split; [split; [intros _; split; [done|]; repeat split; eauto | done]|].
  split; [done|]. done.
Qed.

End ContentSynchronisation.

(** Membership in a list that is written out. *)
Ltac listed :=
  solve [repeat first [apply list_elem_of_here | apply list_elem_of_further]].

Section Handlers.

Import GoText services repository.
Context {library : Library}.

Lemma lookupTable_elem {A} (table : list (string * A)) (name : string) (a : A) :
  lookupTable table name = Some a → (name, a) ∈ table.
Proof.
  induction table as [|[k x] table IH]; cbn; [done|].
  destruct (String.eqb k name) eqn:Hk.
  - apply String.eqb_eq in Hk as ->. intros ?; simplify_eq. left.
  - intros Hl. right. by apply IH.
Qed.

Lemma registered_keys {A} (table : list (string * A)) (name : string) :
  registered table name ↔ name ∈ map fst table.
Proof.
  unfold registered. induction table as [|[k x] table IH]; cbn.
  - split; [by intros [? ?] | intros Hin; by apply elem_of_nil in Hin].
  - destruct (String.eqb k name) eqn:Hk.
    + apply String.eqb_eq in Hk as ->. split; [intros _; left | by eauto].
    + apply String.eqb_neq in Hk. rewrite IH, elem_of_cons.
      split; [by right | by intros [? | ?]].
Qed.

Lemma table_entries (rclass : RclassId) :
  Forall (λ entry, ∃ packageType,
            entry.1 = packageTypeName packageType ∧
            entry.2 = handle (new_params_of rclass packageType)
                        (update_of rclass, packageType) (create_of rclass, packageType))
         (table_of rclass).
Proof.
  destruct rclass; cbn [table_of new_params_of update_of create_of];
    unfold localRepoHandlers, remoteRepoHandlers, virtualRepoHandlers, federatedRepoHandlers;
    repeat (apply Forall_cons_2; [eexists; split; reflexivity|]);
    apply Forall_nil_2.
Qed.

Lemma handle_run (newParams : ParamsConstructor) (update create : Service * PackageTypeId)
    (servicesManager : option ArtifactoryServicesManager) (jsonConfig : list Byte.byte)
    (isUpdate : bool) (st : State) :
  handle newParams update create servicesManager jsonConfig isUpdate st =
    if is_err (Unmarshal jsonConfig newParams)
    then Returns (Unmarshal jsonConfig newParams, st)
    else
      let params := {| constructed := newParams; decoded := jsonConfig |} in
      let target := if isUpdate then update else create in
      match servicesManager with
      | None => Panics
      | Some servicesManager =>
          Returns (RepositoryService servicesManager target.1 target.2 params,
                   {| heap := heap st;
                      trace := trace st ++ [CallRepositoryService target.1 target.2 params] |})
      end.
Proof.
  unfold handle. destruct (is_err _); [reflexivity|].
  by destruct servicesManager, isUpdate, update, create.
Qed.

(** X19: every handler registered in the table of a repository class is
    registered under the name of a package type.  On a services manager
    that is not nil it decodes the JSON into the parameters of that class
    and type, and then makes one call: of the update service of the class
    when updating and of its create service otherwise, through the method
    of that package type; when the JSON cannot be decoded it calls
    nothing and returns the error. *)
Theorem registered_handler_calls_its_service
    (rclass : RclassId) (name : string) (handler : repoHandler) :
  lookupTable (table_of rclass) name = Some handler →
  ∃ packageType,
    name = packageTypeName packageType ∧
    ∀ (servicesManager : ArtifactoryServicesManager) (jsonConfig : list Byte.byte)
      (isUpdate : bool) (st : State),
      let newParams : ParamsConstructor := new_params_of rclass packageType in
      let params : Params := {| constructed := newParams; decoded := jsonConfig |} in
      let service : Service := if isUpdate then update_of rclass else create_of rclass in
      handler (Some servicesManager) jsonConfig isUpdate st =
        if is_err (Unmarshal jsonConfig newParams)
        then Returns (Unmarshal jsonConfig newParams, st)
        else Returns (RepositoryService servicesManager service packageType params,
                      {| heap := heap st;
                         trace := trace st ++ [CallRepositoryService service packageType params] |}).
Proof.
  intros Hl%lookupTable_elem.
  pose proof (table_entries rclass) as Hall.
  rewrite Forall_forall in Hall. apply Hall in Hl as (packageType & Hname & Hhandler).
  cbn in Hname, Hhandler. subst. exists packageType. split; [done|].
  intros servicesManager jsonConfig isUpdate st. cbn zeta.
  rewrite handle_run. by destruct isUpdate.
Qed.

(** A property of every name registered in a table. *)
Ltac each_listed tac :=
  let name := fresh "name" in
  intros name; rewrite ?registered_keys;
  unfold localRepoHandlers, remoteRepoHandlers, virtualRepoHandlers, federatedRepoHandlers;
  cbn [map fst]; revert name; apply Forall_forall;
  repeat (apply Forall_cons_2; [tac|]); apply Forall_nil_2.

(** X20: the federated and the local tables register the same package
    types; every package type of the virtual table is in the remote
    table; the local table has only Vagrant beyond the remote one, and
    the remote table only P2 and VCS beyond the local one. *)
Theorem handler_tables_support_matrix :
  (∀ name, registered federatedRepoHandlers name ↔ registered localRepoHandlers name) ∧
  (∀ name, registered virtualRepoHandlers name → registered remoteRepoHandlers name) ∧
  (∀ name, registered localRepoHandlers name →
           registered remoteRepoHandlers name ∨ name = packageTypeName Vagrant) ∧
  (∀ name, registered remoteRepoHandlers name →
           registered localRepoHandlers name ∨
           name = packageTypeName P2 ∨ name = packageTypeName Vcs).
Proof.
  assert (Hfl : ∀ name, registered federatedRepoHandlers name → registered localRepoHandlers name)
    by each_listed listed.
  assert (Hlf : ∀ name, registered localRepoHandlers name → registered federatedRepoHandlers name)
    by each_listed listed.
  split; [intros name; split; [apply Hfl | apply Hlf]|].
  split; [each_listed listed|].
  split.
  - each_listed ltac:(first [left; listed | right; reflexivity]).
  - each_listed ltac:(first [left; listed | right; left; reflexivity | right; right; reflexivity]).
Qed.

End Handlers.

Section RepositoryCommand.

Import GoText services repository.
Context {library : Library}.

Lemma calls_within_weaken {A} (allowed : RepoCall → Prop) (n n' : nat) (m : R A) :
  n ≤ n' → calls_within allowed n m → calls_within allowed n' m.
Proof.
  intros Hle Hm st a st' Hrun.
  destruct (Hm st a st' Hrun) as (new & Htrace & Hall & Hlen).
  exists new. repeat split; [done | done | lia].
Qed.

Lemma calls_within_ret {A} (allowed : RepoCall → Prop) (a : A) :
  calls_within allowed 0 (mret a).
Proof.
  intros st a' st' Hrun. cbv in Hrun. simplify_eq.
  exists []. by rewrite app_nil_r.
Qed.

Lemma calls_within_bind {A B} (allowed : RepoCall → Prop) (n n' : nat)
    (m : R A) (k : A → R B) :
  calls_within allowed n m → (∀ a, calls_within allowed n' (k a)) →
  calls_within allowed (n + n') (m ≫= k).
Proof.
  intros Hm Hk st b st' Hrun.
  unfold mbind, R_bind, bind in Hrun.
  destruct (m st) as [[a st1]|] eqn:Hm1; [|done].
  destruct (Hm st a st1 Hm1) as (new1 & Htrace1 & Hall1 & Hlen1).
  destruct (Hk a st1 b st' Hrun) as (new2 & Htrace2 & Hall2 & Hlen2).
  exists (new1 ++ new2). split; [by rewrite Htrace2, Htrace1, app_assoc|].
  split; [by apply Forall_app|]. rewrite length_app. lia.
Qed.

Lemma calls_within_record (allowed : RepoCall → Prop) (c : RepoCall) :
  allowed c → calls_within allowed 1 (record c).
Proof.
  intros Hc st a st' Hrun. cbv [record] in Hrun. simplify_eq.
  exists [c]. cbn. repeat split; [by apply Forall_singleton | lia].
Qed.

Lemma calls_within_onHeap {A} (allowed : RepoCall → Prop) (h : H A) :
  calls_within allowed 0 (onHeap h).
Proof.
  intros st a st' Hrun. unfold onHeap in Hrun.
  destruct (h (heap st)) as [[a' heap']|]; [|done]. simplify_eq.
  exists []. cbn. by rewrite app_nil_r.
Qed.

Lemma calls_within_getHeap (allowed : RepoCall → Prop) :
  calls_within allowed 0 getHeap.
Proof.
  intros st a st' Hrun. cbv [getHeap] in Hrun. simplify_eq.
  exists []. by rewrite app_nil_r.
Qed.

(** The version gate of the bulk path. *)
Lemma multipleRepoHandler_run (servicesManager : ArtifactoryServicesManager)
    (jsonConfig : list Byte.byte) (isUpdate : bool) (st : State) :
  let minimum : string := if isUpdate then "7.104.2" else "7.84.3" in
  let asked := {| heap := heap st; trace := trace st ++ [CallGetVersion] |} in
  multipleRepoHandler (Some servicesManager) jsonConfig isUpdate st =
    match GetVersion servicesManager with
    | (_, Some msg) =>
        Returns (Some ("failed to get Artifactory rtVersion: " +:+ msg), asked)
    | (artifactoryVersion, None) =>
        if AtLeast artifactoryVersion minimum then
          Returns (CreateUpdateRepositoriesInBatch servicesManager jsonConfig isUpdate,
                   {| heap := heap st;
                      trace := trace st ++ [CallGetVersion;
                                 CallCreateUpdateRepositoriesInBatch jsonConfig isUpdate] |})
        else
          Returns (Some ((if isUpdate
                          then "bulk repository updation is supported from Artifactory rtVersion 7.104.2, current rtVersion: "
                          else "bulk repository creation is supported from Artifactory rtVersion 7.84.3, current rtVersion: ")
                         +:+ artifactoryVersion), asked)
    end.
Proof.
  cbn zeta. unfold multipleRepoHandler.
  unfold mbind, R_bind, bind, record. cbn [heap trace].
  destruct (GetVersion servicesManager) as [artifactoryVersion [msg|]].
  - unfold mret, R_ret, ret, cli.CheckErrorf, errors_New. do 3 f_equal.
    cbn. by rewrite app_empty_r.
  - destruct isUpdate; destruct (AtLeast artifactoryVersion _); cbn [negb];
      try reflexivity;
      destruct (CreateUpdateRepositoriesInBatch _ _ _);
      cbn; by rewrite <- app_assoc.
Qed.

(** X21: on a services manager that is not nil, [multipleRepoHandler]
    always asks for the version first.  It makes the batch call, once and
    with the JSON and the flag it was given, exactly when the version was
    obtained and is at least 7.104.2 for an update and 7.84.3 for a
    creation, and then returns what the batch call returns; otherwise it
    returns an error and calls nothing more. *)
Theorem multipleRepoHandler_version_gate (servicesManager : ArtifactoryServicesManager)
    (jsonConfig : list Byte.byte) (isUpdate : bool) (st : State) :
  ∃ err st',
    multipleRepoHandler (Some servicesManager) jsonConfig isUpdate st = Returns (err, st') ∧
    heap st' = heap st ∧
    ((GetVersion servicesManager).2 = nil ∧
     AtLeast (GetVersion servicesManager).1 (if isUpdate then "7.104.2" else "7.84.3") = true →
     trace st' = trace st ++ [CallGetVersion;
                              CallCreateUpdateRepositoriesInBatch jsonConfig isUpdate] ∧
     err = CreateUpdateRepositoriesInBatch servicesManager jsonConfig isUpdate) ∧
    (¬ ((GetVersion servicesManager).2 = nil ∧
        AtLeast (GetVersion servicesManager).1 (if isUpdate then "7.104.2" else "7.84.3") = true) →
     trace st' = trace st ++ [CallGetVersion] ∧ err ≠ nil).
Proof.
  rewrite multipleRepoHandler_run. cbn zeta.
  destruct (GetVersion servicesManager) as [artifactoryVersion [msg|]]; cbn [fst snd].
  - do 2 eexists. split; [reflexivity|]. split; [done|].
    split; [by intros [? _] | done].
  - destruct (AtLeast artifactoryVersion _) eqn:Hv.
    + do 2 eexists. split; [reflexivity|]. split; [done|].
      split; [done | intros Hn; by destruct Hn].
    + do 2 eexists. split; [reflexivity|]. split; [done|].
      split; [by intros [_ ?] | done].
Qed.

(** The missing keys of [PerformRepoCmd], as its loop collects them. *)
Lemma missingKeys_collected (repoConfigMaps : list (gmap string Value)) (acc : list string) :
  fold_left
    (fun missingKeys repoConfigMap =>
       if keyMissing repoConfigMap
       then missingKeys ++ [FormatMap repoConfigMap +:+ LF]
       else missingKeys)
    repoConfigMaps acc =
  acc ++ map (λ m, FormatMap m +:+ LF) (filter (λ m, keyMissing m = true) repoConfigMaps).
Proof.
  revert acc. induction repoConfigMaps as [|m rest IH]; intros acc; cbn [fold_left].
  - by rewrite app_nil_r.
  - rewrite IH, filter_cons. destruct (keyMissing m) eqn:Hm.
    + rewrite decide_True by done. cbn [map]. by rewrite <- app_assoc.
    + rewrite decide_False by done. done.
Qed.

(** X22: when a configuration of the template has no "key" entry, or the
    empty string there, [PerformRepoCmd] returns an error that shows this
    configuration in its list of configurations without a key, and does
    nothing else: no service manager is created. *)
Theorem PerformRepoCmd_reports_missing_keys (rc : RepoCommand) (isUpdate : bool)
    (st : State) (configs : Configs) (repoConfigMap : gmap string Value) :
  ConvertTemplateToMaps rc = (configs, nil) →
  repoConfigMap ∈ maps_of configs →
  keyMissing repoConfigMap = true →
  ∃ pre post,
    PerformRepoCmd rc isUpdate st =
      Returns (Some ("'key' is missing in the following configs" +:+ LF +:+ ": [" +:+
                     pre +:+ FormatMap repoConfigMap +:+ LF +:+ post +:+ "]"), st).
Proof.
  intros Hconv Hin Hmissing. unfold PerformRepoCmd. rewrite Hconv. cbn [is_err nil].
  assert (Hgen : ∀ maps strategy, repoConfigMap ∈ maps →
    ∃ pre post,
      (let missingKeys :=
         fold_left
           (fun missingKeys repoConfigMap =>
              if keyMissing repoConfigMap
              then missingKeys ++ [FormatMap repoConfigMap +:+ LF]
              else missingKeys) maps [] in
       if (0 <? length missingKeys)%nat then
         mret (errors_New ("'key' is missing in the following configs" +:+ LF +:+ ": " +:+
                           FormatStrings missingKeys))
       else
         _ ← record CallCreateServiceManager;
         let '(servicesManager, err) := CreateServiceManager (serverDetails rc) (-1) 0 false in
         if is_err err then mret err else
         Execute strategy maps servicesManager isUpdate) st =
      Returns (Some ("'key' is missing in the following configs" +:+ LF +:+ ": [" +:+
                     pre +:+ FormatMap repoConfigMap +:+ LF +:+ post +:+ "]"), st)).
  { intros maps strategy Hm. cbn zeta. rewrite missingKeys_collected. cbn [app].
    set (missing := map _ _).
    assert (Hshown : FormatMap repoConfigMap +:+ LF ∈ missing).
    { apply (list_elem_of_fmap_2 (λ m, FormatMap m +:+ LF)).
      by apply list_elem_of_filter. }
    destruct (Join_shows missing " " _ Hshown) as (pre & post & Hjoin).
    destruct missing as [|x missing']; [by apply elem_of_nil in Hshown|].
    cbn [length Nat.ltb Nat.leb]. exists pre, post.
    unfold mret, R_ret, ret, errors_New, FormatStrings. rewrite Hjoin.
    by rewrite !app_assoc_s. }
  destruct configs as [maps|map|typeName]; cbn [maps_of] in Hin.
  - by apply Hgen.
  - by apply Hgen.
  - by apply elem_of_nil in Hin.
Qed.

End RepositoryCommand.

Section Strategies.

Import GoText services repository.
Context {library : Library}.

Lemma selectHandler_found (repoConfigMap : gmap string Value) (handlerFunc : repoHandler) :
  selectHandler repoConfigMap = inl handlerFunc →
  ∃ rclass,
    repoConfigMap !! keyName Rclass = Some (VString (rclassName rclass)) ∧
    lookupTable (table_of rclass) (Sprint (repoConfigMap !! keyName PackageType)) =
      Some handlerFunc.
Proof.
  unfold selectHandler.
  destruct (repoConfigMap !! keyName Rclass) as [[rclass| | | | |]|]; try done.
  destruct (String.eqb rclass (rclassName Local)) eqn:Hl.
  { apply String.eqb_eq in Hl as ->. destruct (lookupTable _ _) eqn:Hh; [|done].
    intros ?; simplify_eq. by exists Local. }
  destruct (String.eqb rclass (rclassName Remote)) eqn:Hr.
  { apply String.eqb_eq in Hr as ->. destruct (lookupTable _ _) eqn:Hh; [|done].
    intros ?; simplify_eq. by exists Remote. }
  destruct (String.eqb rclass (rclassName Virtual)) eqn:Hv.
  { apply String.eqb_eq in Hv as ->. destruct (lookupTable _ _) eqn:Hh; [|done].
    intros ?; simplify_eq. by exists Virtual. }
  destruct (String.eqb rclass (rclassName Federated)) eqn:Hf; [|done].
  apply String.eqb_eq in Hf as ->. destruct (lookupTable _ _) eqn:Hh; [|done].
  intros ?; simplify_eq. by exists Federated.
Qed.

Lemma selected_handler_calls (repoConfigMap : gmap string Value) (handlerFunc : repoHandler)
    (servicesManager : option ArtifactoryServicesManager) (content : list Byte.byte)
    (isUpdate : bool) :
  selectHandler repoConfigMap = inl handlerFunc →
  calls_within (service_call isUpdate) 1 (handlerFunc servicesManager content isUpdate).
Proof.
  intros (rclass & _ & Hl)%selectHandler_found.
  assert (Hreg : registered (table_of rclass) (Sprint (repoConfigMap !! keyName PackageType)))
    by (by eexists).
  apply lookupTable_elem in Hl.
  pose proof (table_entries rclass) as Hall.
  rewrite Forall_forall in Hall. apply Hall in Hl as (packageType & Hname & Hhandler).
  cbn [fst snd] in Hname, Hhandler. rewrite Hname in Hreg. subst handlerFunc.
  intros st err st'. rewrite handle_run.
  destruct (is_err _).
  - intros ?; simplify_eq. exists []. rewrite app_nil_r. repeat split; [done | cbn; lia].
  - cbn zeta. destruct servicesManager as [servicesManager|]; [|done].
    intros ?; simplify_eq. eexists [_]. cbn [trace].
    split; [reflexivity|]. split; [|cbn; lia].
    apply Forall_singleton. exists rclass, packageType, content.
    split; [by destruct isUpdate | done].
Qed.

Lemma executeSingle_calls (repoConfigMaps : list (gmap string Value))
    (servicesManager : option ArtifactoryServicesManager) (isUpdate : bool) :
  calls_within (service_call isUpdate) (length repoConfigMaps)
    (executeSingle repoConfigMaps servicesManager isUpdate).
Proof.
  induction repoConfigMaps as [|repoConfigMap rest IH]; cbn [executeSingle length].
  { apply calls_within_ret. }
  apply (calls_within_bind _ 0 (S (length rest))); [apply calls_within_onHeap|].
  intros [err written].
  destruct (is_err err); [apply (calls_within_weaken _ 0); [lia | apply calls_within_ret]|].
  apply (calls_within_bind _ 0 (S (length rest))); [apply calls_within_getHeap|].
  intros variables. destruct (Marshal written variables) as [content err'].
  destruct (is_err err'); [apply (calls_within_weaken _ 0); [lia | apply calls_within_ret]|].
  destruct (selectHandler written) as [handlerFunc|err''] eqn:Hselect;
    [|apply (calls_within_weaken _ 0); [lia | apply calls_within_ret]].
  apply (calls_within_bind _ 1 (length rest)); [by eapply selected_handler_calls|].
  intros err''.
  destruct (is_err err''); [apply (calls_within_weaken _ 0); [lia | apply calls_within_ret]|].
  apply IH.
Qed.

Lemma executeMultiple_calls (repoConfigMaps : list (gmap string Value))
    (servicesManager : option ArtifactoryServicesManager) (isUpdate : bool) :
  calls_within (bulk_call isUpdate) 2
    (executeMultiple repoConfigMaps servicesManager isUpdate).
Proof.
  unfold executeMultiple.
  apply (calls_within_bind _ 0 2); [apply calls_within_getHeap|].
  intros variables. destruct (MarshalAll repoConfigMaps variables) as [content err].
  destruct (is_err err); [apply (calls_within_weaken _ 0); [lia | apply calls_within_ret]|].
  destruct servicesManager as [servicesManager|]; [|done].
  intros st err' st'. rewrite multipleRepoHandler_run. cbn zeta.
  destruct (GetVersion servicesManager) as [artifactoryVersion [msg|]].
  - intros ?; simplify_eq. eexists [_]. cbn [trace]. split; [reflexivity|].
    split; [|cbn; lia]. apply Forall_singleton. by left.
  - destruct (AtLeast _ _); intros ?; simplify_eq.
    + eexists [_; _]. cbn [trace]. split; [reflexivity|]. split; [|cbn; lia].
      apply Forall_cons_2; [by left|]. apply Forall_singleton. right. by eexists.
    + eexists [_]. cbn [trace]. split; [reflexivity|].
      split; [|cbn; lia]. apply Forall_singleton. by left.
Qed.

Lemma PerformRepoCmd_calls (rc : RepoCommand) (isUpdate : bool)
    (repoConfigMaps : list (gmap string Value)) (strategy : Strategy)
    (allowed : RepoCall → Prop) (n : nat) :
  (∀ servicesManager,
     calls_within allowed n (Execute strategy repoConfigMaps servicesManager isUpdate)) →
  ∀ (missingKeys : list string) (message : error) (st : State) (err : error) (st' : State),
    (if (0 <? length missingKeys)%nat then mret message
     else
       _ ← record CallCreateServiceManager;
       let '(servicesManager, err) := CreateServiceManager (serverDetails rc) (-1) 0 false in
       if is_err err then mret err else
       Execute strategy repoConfigMaps servicesManager isUpdate) st = Returns (err, st') →
    trace st' = trace st ∨
    ∃ new, trace st' = trace st ++ CallCreateServiceManager :: new ∧
           Forall allowed new ∧ length new ≤ n.
Proof.
  intros Hexec missingKeys message st err st'.
  destruct (0 <? length missingKeys)%nat.
  { intros Hrun. cbv in Hrun. simplify_eq. by left. }
  unfold mbind, R_bind, bind, record. cbn [heap trace].
  destruct (CreateServiceManager _ _ _ _) as [servicesManager err1].
  destruct (is_err err1).
  - intros Hrun. cbv [mret R_ret ret] in Hrun. simplify_eq. right. exists [].
    cbn [trace]. repeat split; [done | cbn; lia].
  - intros Hrun. right.
    destruct (Hexec servicesManager _ _ _ Hrun) as (new & Htrace & Hall & Hlen).
    exists new. cbn [trace] in Htrace. by rewrite Htrace, <- app_assoc.
Qed.

(** X23: [PerformRepoCmd] calls nothing, or creates the service manager
    first.  After that, a template holding a list of configurations leads
    to at most the version request and one batch call with the command's
    update flag; a template holding one configuration leads to at most
    one call, of a repository service that is the update service of a
    class when updating and its create service otherwise, for a package
    type registered in the table of the class; and any other template
    leads to no call at all. *)
Theorem PerformRepoCmd_strategies_keep_apart (rc : RepoCommand) (isUpdate : bool)
    (st st' : State) (err : error) :
  PerformRepoCmd rc isUpdate st = Returns (err, st') →
  trace st' = trace st ∨
  ∃ new,
    trace st' = trace st ++ CallCreateServiceManager :: new ∧
    match (ConvertTemplateToMaps rc).1 with
    | ConfigMaps _ => Forall (bulk_call isUpdate) new ∧ length new ≤ 2
    | ConfigMap _ => Forall (service_call isUpdate) new ∧ length new ≤ 1
    | ConfigOther _ => False
    end.
Proof.
  unfold PerformRepoCmd.
  destruct (ConvertTemplateToMaps rc) as [configs err0]. cbn [fst].
  destruct (is_err err0).
  { intros Hrun. cbv in Hrun. simplify_eq. by left. }
  destruct configs as [maps|map|typeName].
  - intros Hrun.
    eapply (PerformRepoCmd_calls rc isUpdate maps MultipleRepositoryHandler
              (bulk_call isUpdate) 2) in Hrun as [Hsame | (new & Htrace & Hall & Hlen)];
      [by left | right; by exists new |].
    intros servicesManager. apply executeMultiple_calls.
  - intros Hrun.
    eapply (PerformRepoCmd_calls rc isUpdate [map] SingleRepositoryHandler
              (service_call isUpdate) 1) in Hrun as [Hsame | (new & Htrace & Hall & Hlen)];
      [by left | right; by exists new |].
    intros servicesManager. apply (executeSingle_calls [map]).
  - intros Hrun. cbv [mret R_ret ret] in Hrun. simplify_eq. by left.
Qed.

End Strategies.

Section Selection.

Import GoText services repository.
Context {library : Library}.
Hypothesis rclassName_inj : Inj (=) (=) rclassName.
Hypothesis packageTypeName_inj : Inj (=) (=) packageTypeName.

Lemma rclass_names_differ (a b : RclassId) :
  a ≠ b → String.eqb (rclassName a) (rclassName b) = false.
Proof. intros Hne. apply String.eqb_neq. by intros ?%rclassName_inj. Qed.

Lemma package_type_names_differ (a b : PackageTypeId) :
  a ≠ b → String.eqb (packageTypeName a) (packageTypeName b) = false.
Proof. intros Hne. apply String.eqb_neq. by intros ?%packageTypeName_inj. Qed.

Ltac compare_names :=
  rewrite ?String.eqb_refl;
  repeat rewrite rclass_names_differ by discriminate;
  repeat rewrite package_type_names_differ by discriminate.

Ltac excluded :=
  let Hin := fresh in
  intros Hin; repeat (apply elem_of_cons in Hin as [Hin|Hin]; [discriminate|]);
  by apply elem_of_nil in Hin.

(** X24: with distinct names for the classes and for the package types,
    the configuration of a class and a package type gets the handler of
    exactly that class and type, unless the class does not support the
    type: P2 and VCS for local and federated repositories, Vagrant for
    remote ones, and Cocoapods, Opkg, Composer, Vagrant, Cargo and VCS
    for virtual ones, which are refused with "unsupported package
    type". *)
Theorem selectHandler_by_class_and_type (repoConfigMap : gmap string Value)
    (rclass : RclassId) (packageType : PackageTypeId) :
  repoConfigMap !! keyName Rclass = Some (VString (rclassName rclass)) →
  repoConfigMap !! keyName PackageType = Some (VString (packageTypeName packageType)) →
  let unsupported :=
    match rclass with
    | Local | Federated => [P2; Vcs]
    | Remote => [Vagrant]
    | Virtual => [Cocoapods; Opkg; Composer; Vagrant; Cargo; Vcs]
    end in
  ((packageType ∈ unsupported) ∧
   selectHandler repoConfigMap =
     inr (Some ("unsupported package type: " +:+ packageTypeName packageType))) ∨
  ((packageType ∉ unsupported) ∧
   selectHandler repoConfigMap =
     inl (handle (new_params_of rclass packageType)
            (update_of rclass, packageType) (create_of rclass, packageType))).
Proof.
  intros Hclass Htype. unfold selectHandler. rewrite Hclass, Htype. cbn [Sprint].
  destruct rclass; compare_names;
    unfold localRepoHandlers, remoteRepoHandlers, virtualRepoHandlers, federatedRepoHandlers;
    cbn [lookupTable];
    destruct packageType; compare_names;
    first [ left; split; [listed | reflexivity]
          | right; split; [excluded | reflexivity] ].
Qed.

End Selection.

(** ** The further properties on the sample inputs *)

Lemma createEvidence_keeps_given_values_witness :
  ∃ w',
    cli.createEvidence (names := samples.names) (platform := samples.platform)
      samples.complete_world = Returns (nil, w') ∧
    keeps_given_values (cli.ctx samples.complete_world) (cli.ctx w').
Proof.
  eexists. split; [vm_compute; reflexivity|].
  eapply (createEvidence_keeps_given_values (names := samples.names)
            (platform := samples.platform) samples.complete_world).
  vm_compute. reflexivity.
Defined.

Lemma getAndValidateSubject_single_witness :
  cli.getAndValidateSubject (names := samples.names) samples.complete_world =
    Returns (("release-bundle", nil), samples.complete_world).
Proof.
  apply (getAndValidateSubject_single (names := samples.names)).
  - apply (bool_decide_unpack _). vm_compute. exact I.
  - apply list_elem_of_In. simpl. tauto.
  - vm_compute. discriminate.
  - intros g Hg Hne. apply list_elem_of_In in Hg. simpl in Hg.
    destruct Hg as [<- | [<- | [<- | [<- | []]]]]; try reflexivity. by destruct Hne.
Defined.

Lemma attemptSetBuildNameAndNumber_no_short_circuit_witness :
  ∃ w',
    cli.attemptSetBuildNameAndNumber (names := samples.names) samples.number_only_world =
      Returns (false, w') ∧
    components.GetStringFlagValue (cli.ctx w') "build-number" = "7".
Proof.
  eexists. split.
  - apply (attemptSetBuildNameAndNumber_no_short_circuit (names := samples.names)
             samples.number_only_world "7"); try reflexivity. discriminate.
  - reflexivity.
Defined.

Lemma validated_context_has_mandatory_values_witness :
  ∃ w',
    cli.validateCreateEvidenceCommonContext (names := samples.names)
      samples.complete_world = Returns (nil, w') ∧
    components.GetStringFlagValue (cli.ctx w') "key" ≠ "".
Proof.
  eexists. split; [vm_compute; reflexivity|].
  eapply (validated_context_has_mandatory_values (names := samples.names)
            samples.complete_world).
  - intros [Hh | Hh]; discriminate Hh.
  - vm_compute. reflexivity.
Defined.

Lemma key_alias_fallback_witness :
  ∃ w',
    cli.validateCreateEvidenceCommonContext (names := samples.names)
      samples.complete_world = Returns (nil, w') ∧
    components.GetStringFlagValue (cli.ctx w') "key-alias" = "alias".
Proof.
  eexists. split; [vm_compute; reflexivity|].
  rewrite (key_alias_fallback (names := samples.names) samples.complete_world).
  - reflexivity.
  - discriminate.
  - intros [Hh | Hh]; discriminate Hh.
  - vm_compute. reflexivity.
Defined.

Lemma createEvidence_runs_the_subject_command_witness :
  ∃ w',
    cli.createEvidence (names := samples.names) (platform := samples.platform)
      samples.complete_world = Returns (nil, w') ∧
    cli.calls w' = [cli.CallCreateServerDetails;
                    cli.CallCreateEvidence cli.EvidenceReleaseBundleCommand].
Proof.
  destruct (createEvidence_runs_the_subject_command (names := samples.names)
              (platform := samples.platform) samples.complete_world
              _ _ _ "release-bundle" _
              ltac:(vm_compute; reflexivity) ltac:(vm_compute; reflexivity)
              ltac:(vm_compute; reflexivity))
    as (command & Hfor & Hrun).
  eexists. split; [vm_compute; reflexivity|]. reflexivity.
Defined.

Lemma createEvidence_reaches_the_platform_last_witness :
  ∃ w1 w2 subject,
    cli.validateCreateEvidenceCommonContext (names := samples.names)
      samples.complete_world = Returns (nil, w1) ∧
    cli.getAndValidateSubject (names := samples.names) w1 = Returns ((subject, nil), w2).
Proof.
  eapply (createEvidence_reaches_the_platform_last (names := samples.names)
            (platform := samples.platform) samples.complete_world).
  - vm_compute. reflexivity.
  - intros Hin. by apply elem_of_nil in Hin.
  - cbn. apply list_elem_of_In. simpl. tauto.
Defined.

Lemma createEvidence_command_needs_details_witness :
  ∃ subject,
    command_for (names := samples.names) subject cli.EvidenceReleaseBundleCommand.
Proof.
  destruct (createEvidence_command_needs_details (names := samples.names)
              (platform := samples.platform) samples.complete_world _ _
              cli.EvidenceReleaseBundleCommand
              ltac:(vm_compute; reflexivity))
    as (w1 & w2 & w3 & subject & details & _ & _ & _ & Hfor & _).
  - intros Hin. by apply elem_of_nil in Hin.
  - cbn. apply list_elem_of_In. simpl. tauto.
  - by exists subject.
Defined.

Lemma buildManifestPath_injective_witness :
  lifecycle.buildRepoKey "proj" = lifecycle.buildRepoKey "proj" ∧ "rb1" = "rb1" ∧ "1.0" = "1.0".
Proof.
  apply (buildManifestPath_injective "proj" "rb1" "1.0" "proj" "rb1" "1.0");
    reflexivity.
Defined.

Lemma platformToEvidenceUrls_trailing_slash_witness :
  coreConfig.ArtifactoryUrl (cli.platformToEvidenceUrls samples.server_with_slash) =
  coreConfig.ArtifactoryUrl (cli.platformToEvidenceUrls samples.server).
Proof.
  apply (platformToEvidenceUrls_trailing_slash samples.server samples.server_with_slash);
    [discriminate | reflexivity | reflexivity].
Defined.

(** ** The release bundle command and the repository commands on the
    sample inputs *)

Lemma Run_uploads_for_the_manifest_witness :
  (createReleaseBundle.Run (methods := releaseBundleSamples.methods)
     releaseBundleSamples.command).1 = nil ∧
  (createReleaseBundle.Run (methods := releaseBundleSamples.methods)
     releaseBundleSamples.command).2 =
    [createReleaseBundle.StepCreateArtifactoryClient;
     createReleaseBundle.StepGetFileChecksum
       "release-bundles-v2/bundle/1.0/release-bundle.json.evd";
     createReleaseBundle.StepCreateEnvelope
       "release-bundles-v2/bundle/1.0/release-bundle.json.evd" "e3b0c44298fc1c14";
     createReleaseBundle.StepUploadEvidence releaseBundleSamples.envelope
       "release-bundles-v2/bundle/1.0/release-bundle.json.evd"].
Proof.
  destruct (Run_uploads_for_the_manifest (methods := releaseBundleSamples.methods)
              releaseBundleSamples.command releaseBundleSamples.envelope
              "release-bundles-v2/bundle/1.0/release-bundle.json.evd")
    as (_ & client & sha256 & _ & Hsum & _ & Herr & Hsteps).
  - apply list_elem_of_In. vm_compute. tauto.
  - split; [exact Herr|]. vm_compute in Hsum. simplify_eq. exact Hsteps.
Defined.

Lemma writeContentSynchronisation_stores_the_last_flag_witness :
  repository.writeContentSynchronisation (library := repositorySamples.library)
    ∅ "contentSynchronisation" "true,false,true,false" [] =
    Returns ((nil, <["contentSynchronisation" :=
                       repository.VContentSynchronisation (all_flags_at 0)]> ∅),
             [false]) ∧
  flag_values [false] (all_flags_at 0) = Some (false, false, false, false).
Proof.
  apply (writeContentSynchronisation_stores_the_last_flag
           (library := repositorySamples.library)
           ∅ "contentSynchronisation" "true,false,true,false"
           "true" "false" "true" "false" true false true false []);
    reflexivity.
Defined.

Lemma registered_handler_calls_its_service_witness :
  ∃ packageType,
    "maven" = repositorySamples.packageTypeName packageType ∧
    repository.localMavenHandler (library := repositorySamples.library)
      (Some repositorySamples.manager) repositorySamples.content false repositorySamples.start =
      Returns (nil,
               {| repository.heap := [];
                  repository.trace :=
                    [repository.CallRepositoryService repository.CreateLocalRepository
                       packageType
                       {| repository.constructed :=
                            repository.NewLocalRepositoryParams packageType;
                          repository.decoded := repositorySamples.content |}] |}).
Proof.
  destruct (registered_handler_calls_its_service (library := repositorySamples.library)
              repository.Local "maven"
              (repository.localMavenHandler (library := repositorySamples.library)))
    as (packageType & Hname & Hrun).
  - vm_compute. reflexivity.
  - exists packageType. split; [exact Hname|].
    rewrite Hrun. reflexivity.
Defined.

Lemma PerformRepoCmd_reports_missing_keys_witness :
  ∃ pre post,
    repository.PerformRepoCmd (library := repositorySamples.library)
      (repositorySamples.template "repositories.json") false repositorySamples.start =
      Returns (Some ("'key' is missing in the following configs" +:+ GoText.LF +:+ ": [" +:+
                     pre +:+ "map[rclass packageType]" +:+ GoText.LF +:+ post +:+ "]"),
               repositorySamples.start).
Proof.
  apply (PerformRepoCmd_reports_missing_keys (library := repositorySamples.library)
           (repositorySamples.template "repositories.json") false repositorySamples.start
           (repository.ConfigMaps [repositorySamples.maven_local; repositorySamples.without_key])
           repositorySamples.without_key).
  - reflexivity.
  - apply list_elem_of_In. simpl. tauto.
  - vm_compute. reflexivity.
Defined.

Lemma PerformRepoCmd_strategies_keep_apart_witness :
  ∃ new,
    [repository.CallCreateServiceManager;
     repository.CallRepositoryService repository.CreateLocalRepository repository.Maven
       {| repository.constructed := repository.NewLocalRepositoryParams repository.Maven;
          repository.decoded := repositorySamples.content |}] =
      repository.CallCreateServiceManager :: new ∧
    Forall (service_call (library := repositorySamples.library) false) new ∧
    length new ≤ 1.
Proof.
  destruct (PerformRepoCmd_strategies_keep_apart (library := repositorySamples.library)
              (repositorySamples.template "repository.json") false
              repositorySamples.start
              {| repository.heap := [];
                 repository.trace :=
                   [repository.CallCreateServiceManager;
                    repository.CallRepositoryService repository.CreateLocalRepository
                      repository.Maven
                      {| repository.constructed :=
                           repository.NewLocalRepositoryParams repository.Maven;
                         repository.decoded := repositorySamples.content |}] |}
              nil) as [Hsame | (new & Htrace & Hnew)].
  - vm_compute. reflexivity.
  - discriminate Hsame.
  - exists new. split; [exact Htrace | exact Hnew].
Defined.

Lemma selectHandler_by_class_and_type_witness :
  repository.selectHandler (library := repositorySamples.library)
    repositorySamples.maven_local =
    inl (repository.handle (library := repositorySamples.library)
           (repository.NewLocalRepositoryParams repository.Maven)
           (repository.UpdateLocalRepository, repository.Maven)
           (repository.CreateLocalRepository, repository.Maven)).
Proof.
  destruct (selectHandler_by_class_and_type (library := repositorySamples.library))
    with (repoConfigMap := repositorySamples.maven_local)
         (rclass := repository.Local) (packageType := repository.Maven)
    as [[Hin _] | [_ Hselect]].
  - intros [] [] Heq; first [reflexivity | discriminate Heq].
  - intros [] [] Heq; first [reflexivity | discriminate Heq].
  - vm_compute. reflexivity.
  - vm_compute. reflexivity.
  - apply list_elem_of_In in Hin. simpl in Hin. destruct Hin as [? | [? | []]]; discriminate.
  - exact Hselect.
Defined.
